(** * memorytest: storage, HTML patch editor, tool dispatcher and agent loop

    A shallow embedding of [server/storage.ts] and [server/agent.ts].

    JavaScript values are a first-order datatype, numbers are IEEE binary64
    floats (Rocq's primitive floats), the module-level stores of
    [storage.ts] are fields of an explicit [World] that every operation
    threads, and [throw] is the [Throw] outcome of a state-and-exception
    monad.  Everything the program reaches outside its own source (the
    system clock, the chat-completion endpoint, [JSON], diff-match-patch,
    node-html-parser) is a field of an [Env] record which the definitions
    receive as a parameter. *)

From Stdlib Require Import ZArith String Ascii List Bool.
From Stdlib Require Import PrimFloat FloatOps SpecFloat.
From stdpp Require Import base option list gmap strings pretty.

Set Default Proof Using "Type".
Set Warnings "-register-all,-inexact-float".
Local Open Scope Z_scope.
Local Open Scope string_scope.

(** ** JavaScript values *)

Inductive Val : Type :=
| VUndefined
| VNull
| VBool (b : bool)
| VNum (n : float)
| VStr (s : string)
| VArr (items : list Val)
| VObj (fields : list (string * Val))
| VFunction (name : string).

(** ToBoolean: [undefined], [null], [false], [0], [-0], [NaN] and the empty
    string are falsy. *)
Definition truthy (v : Val) : bool :=
  match v with
  | VUndefined | VNull => false
  | VBool b => b
  | VNum n => negb (is_zero n || is_nan n)
  | VStr s => negb (String.eqb s "")
  | VArr _ | VObj _ | VFunction _ => true
  end.

(** [a || b] *)
Definition js_or (a b : Val) : Val := if truthy a then a else b.

(** Own-property lookup in an object literal or a parsed JSON object. *)
Fixpoint assoc (k : string) (fields : list (string * Val)) : option Val :=
  match fields with
  | [] => None
  | (k', v) :: rest => if String.eqb k k' then Some v else assoc k rest
  end.

(** Exceptions: the [name] and [message] of the thrown [Error]. *)
Record Exn : Type := mkExn { exn_name : string; message : string }.

Inductive Outcome (A : Type) : Type :=
| Return (a : A)
| Throw (e : Exn).
Arguments Return {A} a.
Arguments Throw {A} e.

Definition TypeError (msg : string) : Exn := mkExn "TypeError" msg.

(** [v.k] for the property names the dispatcher reads ([key], [value],
    [content], [documentId], [editDescription], [description]): none of them
    is defined on a built-in prototype, so the access yields the own property
    of an object, [undefined] on any other value, and throws on [undefined]
    and [null]. *)
Definition prop (v : Val) (k : string) : Outcome Val :=
  match v with
  | VUndefined =>
      Throw (TypeError ("Cannot read properties of undefined (reading '" +:+ k +:+ "')"))
  | VNull =>
      Throw (TypeError ("Cannot read properties of null (reading '" +:+ k +:+ "')"))
  | VObj fields => Return (default VUndefined (assoc k fields))
  | _ => Return VUndefined
  end.

(** ** Documents and chat messages *)

(** [createdAt] and [updatedAt] hold [new Date().toISOString()].  The ISO
    string is a rendering of the millisecond instant the clock returned and
    determines it, so the record keeps the instant. *)
Record HtmlDocument : Type := mkDoc {
  doc_id : string;
  doc_content : Val;
  createdAt : Z;
  updatedAt : Z;
}.

Inductive Role : Type := system | user | assistant | tool.

Record ToolCall : Type := mkToolCall {
  call_id : string;
  function_name : string;
  function_arguments : string;
}.

(** A [ChatCompletionMessageParam]; [tool_calls = None] is an absent
    property, [msg_content = None] is [content: null]. *)
Record Message : Type := mkMessage {
  role : Role;
  msg_content : option string;
  tool_calls : option (list ToolCall);
  tool_call_id : option string;
}.

(** [req_tools] tells whether the request carries the tool catalogue (with
    [tool_choice: 'auto']). *)
Record ChatRequest : Type := mkRequest {
  req_model : string;
  req_messages : list Message;
  req_tools : bool;
  req_temperature : option float;
  req_max_tokens : Z;
}.

Record CompletionUsage : Type := mkUsage {
  prompt_tokens : float;
  completion_tokens : float;
}.

(** What the code reads of a response: [choices[0].message] and [usage]. *)
Record ChatCompletion : Type := mkCompletion {
  choice0 : Message;
  usage : option CompletionUsage;
}.

(** ** The environment *)

Record Env : Type := mkEnv {
  (** [data/business-profile.json], parsed at start-up *)
  businessProfile : Val;
  (** the clock: the reading of the [k]-th access ([Date.now()] or
      [new Date()]), in milliseconds *)
  clock : nat -> Z;
  (** [openai.chat.completions.create]: the outcome of the request made
      after [k] earlier ones *)
  chat_completions_create : nat -> ChatRequest -> Outcome ChatCompletion;
  (** [JSON.stringify(v)] and [JSON.stringify(v, null, 2)] on an object *)
  JSON_stringify : Val -> string;
  JSON_stringify_pretty : Val -> string;
  (** [JSON.parse], which throws a [SyntaxError] on malformed text *)
  JSON_parse : string -> Outcome Val;
  (** ToString of a number, an array, an object or a function *)
  ToString_other : Val -> string;
  (** [toISOString] of the instant, used when a document is serialised *)
  toISOString : Z -> string;
  (** diff-match-patch, on texts that are strings; [patch_toText] and
      [patch_fromText] may throw (URI encoding, malformed patch text) *)
  dmp_Diffs : Type;
  dmp_Patches : Type;
  diff_main : string -> string -> dmp_Diffs;
  diff_cleanupSemantic : dmp_Diffs -> dmp_Diffs;
  patch_make : string -> dmp_Diffs -> dmp_Patches;
  patch_toText : dmp_Patches -> Outcome string;
  patch_fromText : string -> Outcome dmp_Patches;
  patch_apply : dmp_Patches -> string -> string * list bool;
  (** the exception diff-match-patch ends in when the original is not a
      string: [patch_make] accepts no such text, and which call fails first,
      with which error, depends on both texts *)
  dmp_reject : Val -> string -> Exn;
  (** node-html-parser's [parse]: the exception it throws, if any *)
  html_parse_error : string -> option Exn;
}.

(** ** Mutable state *)

(** The two module-level stores of [storage.ts] with the files they are
    persisted to (a file holds the JSON text of the value recorded here;
    [None] is a file that does not exist), the number of clock readings made
    so far, and the requests sent to the provider so far, oldest first.
    Writing a file succeeds; console output is left out. *)
Record World : Type := mkWorld {
  memoryData : gmap string Val;
  memoryFile : option (gmap string Val);
  htmlDocuments : list HtmlDocument;
  htmlDocsFile : option (list HtmlDocument);
  ticks : nat;
  requests : list ChatRequest;
}.

Definition empty_world : World := mkWorld ∅ None [] None 0 [].

(** State and exceptions: an exception keeps the state reached so far. *)
Definition ST (S A : Type) : Type := S -> Outcome A * S.
Abbreviation M := (ST World).

Definition ret {S A} (a : A) : ST S A := fun w => (Return a, w).
Definition throw {S A} (e : Exn) : ST S A := fun w => (Throw e, w).
Definition bind {S A B} (m : ST S A) (k : A -> ST S B) : ST S B :=
  fun w => match m w with
           | (Return a, w') => k a w'
           | (Throw e, w') => (Throw e, w')
           end.
Definition lift {S A} (o : Outcome A) : ST S A := fun w => (o, w).
(** [try { m } catch (error) { h error }] *)
Definition try_catch {S A} (m : ST S A) (h : Exn -> ST S A) : ST S A :=
  fun w => match m w with
           | (Return a, w') => (Return a, w')
           | (Throw e, w') => h e w'
           end.

Notation "'let!' x ':=' m 'in' k" := (bind m (fun x => k))
  (at level 10, x name, m at level 100, k at level 200, only parsing).
Notation "'do!' m 'in' k" := (bind m (fun _ => k))
  (at level 10, m at level 100, k at level 200, only parsing).

Section Values.
Context (E : Env).

(** ToString, as used by template literals and by property keys, on a value
    the conversion accepts ([converts] below); on any other value
    JavaScript throws a [TypeError], which this function does not show. *)
Definition ToString (v : Val) : string :=
  match v with
  | VUndefined => "undefined"
  | VNull => "null"
  | VBool true => "true"
  | VBool false => "false"
  | VStr s => s
  | _ => ToString_other E v
  end.

(** [Date.now()] and [new Date()]: one reading of the clock. *)
Definition Date_now : M Z :=
  fun w => (Return (clock E (ticks w)),
            mkWorld (memoryData w) (memoryFile w) (htmlDocuments w)
                    (htmlDocsFile w) (S (ticks w)) (requests w)).

End Values.

(** ** storage.ts *)

(** The members [memoryData[key]] finds on [Object.prototype] when the
    object has no own property of that name. *)
Definition Object_prototype (k : string) : Val :=
  if bool_decide (k ∈ ["constructor"; "hasOwnProperty"; "isPrototypeOf";
                       "propertyIsEnumerable"; "toLocaleString"; "toString";
                       "valueOf"; "__defineGetter__"; "__defineSetter__";
                       "__lookupGetter__"; "__lookupSetter__"])
  then VFunction k
  else if String.eqb k "__proto__" then VObj []
  else VUndefined.

(** [memoryData[key]] *)
Definition memoryData_get (E : Env) (m : gmap string Val) (key : Val) : Val :=
  default (Object_prototype (ToString E key)) (m !! ToString E key).

Module memoryStorage.
Section WithEnv.
Context (E : Env).

Definition read (key : Val) : M Val :=
  fun w => (Return (js_or (memoryData_get E (memoryData w) key) VNull), w).

(** [memoryData[key] = value] creates or overwrites an own property.  Under
    the key [__proto__] the assignment reaches the prototype setter and
    creates none; an object or [null] assigned there replaces the prototype
    the later reads inherit from, which the store of this development does
    not track: it describes the store for the other keys. *)
Definition write (key value : Val) : M unit :=
  fun w =>
    let m := if String.eqb (ToString E key) "__proto__" then memoryData w
             else <[ToString E key := value]> (memoryData w) in
    (Return tt,
     mkWorld m (Some m) (htmlDocuments w) (htmlDocsFile w) (ticks w) (requests w)).

Definition getAll : M (gmap string Val) :=
  fun w => (Return (memoryData w), w).

End WithEnv.
End memoryStorage.

(** [htmlDocuments.find(doc => doc.id === id)]: strict equality with the
    stored string holds only for a string argument. *)
Definition id_matches (id : Val) (doc : HtmlDocument) : bool :=
  match id with
  | VStr s => String.eqb (doc_id doc) s
  | _ => false
  end.

(** The document [find] returned, mutated in place: content and updatedAt of
    the first match are replaced. *)
Fixpoint update_first (id : Val) (content : Val) (t : Z) (docs : list HtmlDocument)
  : list HtmlDocument :=
  match docs with
  | [] => []
  | d :: rest =>
      if id_matches id d
      then mkDoc (doc_id d) content (createdAt d) t :: rest
      else d :: update_first id content t rest
  end.

Module htmlDocumentStorage.
Section WithEnv.
Context (E : Env).

Definition persist (docs : list HtmlDocument) : M unit :=
  fun w => (Return tt,
            mkWorld (memoryData w) (memoryFile w) docs (Some docs)
                    (ticks w) (requests w)).

(** [Date.now()] is a whole number of milliseconds, which the template
    literal of the identifier prints in decimal; the two stamps are two
    further readings of the clock. *)
Definition create (content : Val) : M HtmlDocument :=
  let! now := Date_now E in
  let! created := Date_now E in
  let! updated := Date_now E in
  let doc := mkDoc ("doc-" +:+ pretty now) content created updated in
  do! (fun w => persist (htmlDocuments w ++ [doc]) w) in
  ret doc.

Definition get (id : Val) : M (option HtmlDocument) :=
  fun w => (Return (List.find (id_matches id) (htmlDocuments w)), w).

Definition update (id : Val) (content : Val) : M (option HtmlDocument) :=
  fun w =>
    match List.find (id_matches id) (htmlDocuments w) with
    | None => (Return None, w)
    | Some doc =>
        (let! updated := Date_now E in
         do! (fun w' => persist (update_first id content updated (htmlDocuments w')) w') in
         ret (Some (mkDoc (doc_id doc) content (createdAt doc) updated))) w
    end.

Definition getAll : M (list HtmlDocument) :=
  fun w => (Return (htmlDocuments w), w).

End WithEnv.
End htmlDocumentStorage.

(** ** agent.ts: text helpers *)

Definition nl : string := String "010" "".

Definition lower (a : ascii) : ascii :=
  let n := N_of_ascii a in
  if ((65 <=? n) && (n <=? 90))%N then ascii_of_N (n + 32) else a.

(** The rest of [s] behind the prefix [p], compared without case. *)
Fixpoint strip_prefix_ci (p s : string) : option string :=
  match p, s with
  | EmptyString, _ => Some s
  | String a p', String b s' =>
      if Ascii.eqb (lower a) (lower b) then strip_prefix_ci p' s' else None
  | String _ _, EmptyString => None
  end.

Definition strip_newline (s : string) : string :=
  match s with
  | String "010" s' => s'
  | _ => s
  end.

(** [s.replace(/^<fence>\n?/i, '')] *)
Definition replace_leading_fence (fence s : string) : string :=
  match strip_prefix_ci fence s with
  | Some rest => strip_newline rest
  | None => s
  end.

(** [s.replace(/\n?```$/i, '')]: the match ends at the end of the text and
    takes the line feed before the fence when there is one. *)
Definition replace_trailing_fence (s : string) : string :=
  match strip_prefix_ci "```" (String.rev s) with
  | Some rest => String.rev (strip_newline rest)
  | None => s
  end.

(** White space and line terminators within ASCII. *)
Definition is_space (a : ascii) : bool :=
  let n := N_of_ascii a in
  ((n =? 32) || ((9 <=? n) && (n <=? 13)))%N.

(** A text is the sequence of the bytes of its UTF-8 encoding.  The white
    space and line terminators of [String.prototype.trim] beyond ASCII are
    U+00A0, in two bytes, and U+1680, U+2000 to U+200A, U+2028, U+2029,
    U+202F, U+205F, U+3000 and U+FEFF, in three. *)
Definition is_space2 (a b : ascii) : bool :=
  ((N_of_ascii a =? 194) && (N_of_ascii b =? 160))%N.

Definition is_space3 (a b c : ascii) : bool :=
  let x := N_of_ascii a in
  let y := N_of_ascii b in
  let z := N_of_ascii c in
  ((x =? 225) && (y =? 154) && (z =? 128)
   || (x =? 226) && (y =? 128)
      && ((128 <=? z) && (z <=? 138) || (z =? 168) || (z =? 169) || (z =? 175))
   || (x =? 226) && (y =? 129) && (z =? 159)
   || (x =? 227) && (y =? 128) && (z =? 128)
   || (x =? 239) && (y =? 187) && (z =? 191))%N.

(** The text without the white space it begins with.  With [backwards] the
    text is read from its end, so that the bytes of a character come last
    byte first. *)
Fixpoint trim_start (backwards : bool) (s : string) : string :=
  match s with
  | String a s1 =>
      if is_space a then trim_start backwards s1
      else
        match s1 with
        | String b s2 =>
            if (if backwards then is_space2 b a else is_space2 a b)
            then trim_start backwards s2
            else
              match s2 with
              | String c s3 =>
                  if (if backwards then is_space3 c b a else is_space3 a b c)
                  then trim_start backwards s3
                  else s
              | EmptyString => s
              end
        | EmptyString => s
        end
  | EmptyString => EmptyString
  end.

Definition trim (s : string) : string :=
  String.rev (trim_start true (String.rev (trim_start false s))).

(** The clean-up both provider-backed tools apply to the returned text. *)
Definition strip_markdown (s : string) : string :=
  trim (replace_trailing_fence
          (replace_leading_fence "```"
             (replace_leading_fence "```html" s))).

(** [content || ''] for a [string | null] content *)
Definition content_or_empty (c : option string) : string := default "" c.

(** ** agent.ts: numbers *)

(** [x.toFixed(6)] for a finite [x] below [1e21] in magnitude: the sign and
    the integer [n] for which [n / 10^6 - |x|] is closest to zero, the larger
    [n] on a tie.  [None] stands for the other numbers, which [toFixed]
    renders like ToString. *)
Definition toFixed6 (x : float) : option (bool * Z) :=
  if (1e21 <=? abs x)%float then None
  else match Prim2SF x with
       | S754_zero _ => Some (false, 0)
       | S754_finite s m e =>
           let n := if (0 <=? e)%Z then Z.pos m * 2 ^ e * 10 ^ 6
                    else (2 * Z.pos m * 10 ^ 6 + 2 ^ (- e)) / 2 ^ (- e + 1) in
           Some (s, n)
       | S754_infinity _ | S754_nan => None
       end.

(** The binary64 number nearest to [n / d] (ties to even) for [0 <= n],
    [0 < d]: the quotient is taken with 64 or more significant bits and a
    sticky bit for the remainder, then rounded to the format. *)
Definition nearest_float (n d : Z) : float :=
  let k := Z.max 0 (64 + Z.log2 d - Z.log2 n) in
  let q := (n * 2 ^ k) / d in
  let r := (n * 2 ^ k) mod d in
  let m := 2 * q + (if (r =? 0)%Z then 0 else 1) in
  SF2Prim (binary_normalize prec emax m (- k - 1) false).

(** [parseFloat(x.toFixed(6))] *)
Definition round6 (x : float) : float :=
  match toFixed6 x with
  | None => x
  | Some (s, n) =>
      let f := nearest_float n (10 ^ 6) in
      if s then (- f)%float else f
  end.

(** [n || 0] on numbers *)
Definition or_zero (n : float) : float :=
  if truthy (VNum n) then n else 0%float.

(** ** agent.ts: pricing *)

Record Price : Type := mkPrice { input : float; output : float }.

(** Prices per 1M tokens. *)
Definition PRICING : list (string * Price) :=
  [ ("gpt-4o-mini", mkPrice 0.15 0.60);
    ("gpt-3.5-turbo", mkPrice 0.50 1.50);
    ("gpt-4-turbo-preview", mkPrice 10.00 30.00);
    ("gpt-4-turbo", mkPrice 10.00 30.00);
    ("gpt-4", mkPrice 30.00 60.00) ]%float.

Definition MODEL_NAME : string := "gpt-4o-mini".

Fixpoint price_of (model : string) (table : list (string * Price)) : option Price :=
  match table with
  | [] => None
  | (m, p) :: rest => if String.eqb model m then Some p else price_of model rest
  end.

(** [PRICING[MODEL_NAME] || PRICING['gpt-4o-mini']] *)
Definition modelPricing : Price :=
  match price_of MODEL_NAME PRICING with
  | Some p => p
  | None => default (mkPrice 0.15 0.60)%float (price_of "gpt-4o-mini" PRICING)
  end.

(** ** agent.ts: the HTML patch editor *)

(** One request to the chat-completion endpoint. *)
Definition create_completion (E : Env) (req : ChatRequest) : M ChatCompletion :=
  fun w => (chat_completions_create E (length (requests w)) req,
            mkWorld (memoryData w) (memoryFile w) (htmlDocuments w)
                    (htmlDocsFile w) (ticks w) (requests w ++ [req])).

Definition plain (r : Role) (text : string) : Message :=
  mkMessage r (Some text) None None.

Section Editor.
Context (E : Env).

Definition generatePatch (original : Val) (modified : string) : Outcome string :=
  match original with
  | VStr original =>
      let diffs := diff_main E original modified in
      let diffs := diff_cleanupSemantic E diffs in
      let patches := patch_make E original diffs in
      patch_toText E patches
  | _ => Throw (dmp_reject E original modified)
  end.

(** The flags of [patch_apply] only feed a console warning. *)
Definition applyPatch (original : string) (patchText : string) : Outcome string :=
  match patch_fromText E patchText with
  | Return patches => Return (fst (patch_apply E patches original))
  | Throw e => Throw e
  end.

(** [{ valid: true }] is [None], [{ valid: false, error }] is [Some error]. *)
Definition validateHtml (htmlString : string) : option Exn :=
  html_parse_error E htmlString.

Definition edit_system_prompt : string :=
  "You are an HTML editor. Make ONLY the specific change requested in the instruction. Preserve all formatting, structure, and style. Return ONLY the complete HTML code, no markdown, no explanations.".

Definition edit_request (originalHtml instruction : Val) : ChatRequest :=
  mkRequest MODEL_NAME
    [ plain system edit_system_prompt;
      plain user ("HTML:" +:+ nl +:+ ToString E originalHtml +:+ nl +:+ nl +:+ nl
                  +:+ "Instruction: " +:+ ToString E instruction +:+ nl +:+ nl
                  +:+ "Make ONLY the requested change. Return the complete HTML.") ]
    false (Some 0.0%float) 4096.

Definition editHtmlWithLLM (originalHtml instruction : Val) : M (string * string) :=
  let! editResponse := create_completion E (edit_request originalHtml instruction) in
  let edited := strip_markdown (content_or_empty (msg_content (choice0 editResponse))) in
  let! patch := lift (generatePatch originalHtml edited) in
  let! finalHtml :=
    lift (match originalHtml with
          | VStr original => applyPatch original patch
          | _ => Throw (dmp_reject E originalHtml edited)
          end) in
  match validateHtml finalHtml with
  | Some error =>
      match validateHtml edited with
      | None => ret (edited, patch)
      | Some _ =>
          throw (mkExn "Error" ("HTML validation failed: " +:+ message error))
      end
  | None => ret (finalHtml, patch)
  end.

End Editor.

(** ** agent.ts: the tool catalogue and the dispatcher *)

(** A tool descriptor: its name, the names of its parameters and those that
    are required (the descriptions are prose for the model). *)
Record ToolSpec : Type := mkTool {
  tool_name : string;
  tool_properties : list string;
  tool_required : list string;
}.

Definition tools : list ToolSpec :=
  [ mkTool "read_business_profile" [] [];
    mkTool "read_long_term_memory" ["key"] ["key"];
    mkTool "write_long_term_memory" ["key"; "value"] ["key"; "value"];
    mkTool "create_html_document" ["content"] ["content"];
    mkTool "edit_html_document" ["documentId"; "editDescription"]
                                ["documentId"; "editDescription"];
    mkTool "list_html_documents" [] [];
    mkTool "generate_html_with_llm" ["description"] ["description"] ].

Definition fakeMemoryStory : string :=
"This is long-term memory for TechCorp Solutions. 

TechCorp Solutions was founded in 2020 with a vision to revolutionize technology consulting. Over the years, the company has grown from a small startup in San Francisco to a thriving organization with 150 employees. 

Key milestones in the company's history:
- 2020: Company founded by a team of former Silicon Valley engineers
- 2021: Secured first major client, Fortune 500 Financial Services
- 2022: Expanded services to include AI and Machine Learning integration
- 2023: Opened new headquarters in San Francisco and reached 100 employees
- 2024: Launched innovative cloud infrastructure solutions and reached 150 employees

The company culture is built on four core values: Innovation, Customer-Centricity, Integrity, and Excellence. These values guide every project and client interaction.

TechCorp Solutions has successfully completed over 500 projects, helping mid-market companies transform their technology infrastructure. The company is known for its expertise in cloud migration, AI integration, and digital transformation.

This long-term memory contains the foundational knowledge about TechCorp Solutions that persists across all conversations. When you need to reference company history, values, or key information, this memory provides the context.".

Definition generate_system_prompt : string :=
  "You are an expert HTML developer. Generate clean, modern, and well-structured HTML5 documents. Always include proper DOCTYPE, head, and body tags. Use modern CSS for styling. Make the HTML visually appealing and responsive. Return ONLY the HTML code, no markdown formatting, no code blocks, no explanations - just the raw HTML.".

Section Dispatcher.
Context (E : Env).

(** A document as [JSON.stringify] sees it. *)
Definition doc_val (doc : HtmlDocument) : Val :=
  VObj [ ("id", VStr (doc_id doc));
         ("content", doc_content doc);
         ("createdAt", VStr (toISOString E (createdAt doc)));
         ("updatedAt", VStr (toISOString E (updatedAt doc))) ].

(** The entry [list_html_documents] reports: the content is left out. *)
Definition doc_summary (doc : HtmlDocument) : Val :=
  VObj [ ("id", VStr (doc_id doc));
         ("createdAt", VStr (toISOString E (createdAt doc)));
         ("updatedAt", VStr (toISOString E (updatedAt doc))) ].

Definition soft_failure (msg : string) : string :=
  JSON_stringify E (VObj [ ("success", VBool false); ("message", VStr msg) ]).

Definition generate_request (description : Val) : ChatRequest :=
  mkRequest MODEL_NAME
    [ plain system generate_system_prompt;
      plain user ("Generate a complete, standalone HTML document for: "
                  +:+ ToString E description) ]
    false (Some 0.7%float) 4096.

Definition executeTool (toolName : string) (args : Val) : M string :=
  if String.eqb toolName "read_business_profile" then
    ret (JSON_stringify_pretty E (businessProfile E))
  else if String.eqb toolName "read_long_term_memory" then
    let! key := lift (prop args "key") in
    let! memoryValue := memoryStorage.read E key in
    if truthy memoryValue then
      ret (JSON_stringify E (VObj [ ("key", key); ("value", memoryValue) ]))
    else
      ret (JSON_stringify E
             (VObj [ ("key", key);
                     ("value", VStr fakeMemoryStory);
                     ("message", VStr "Long-term memory accessed successfully. This contains foundational information about TechCorp Solutions.") ]))
  else if String.eqb toolName "write_long_term_memory" then
    let! key := lift (prop args "key") in
    let! value := lift (prop args "value") in
    do! memoryStorage.write E key value in
    ret (JSON_stringify E
           (VObj [ ("success", VBool true);
                   ("message", VStr ("Stored value for key: " +:+ ToString E key)) ]))
  else if String.eqb toolName "create_html_document" then
    let! content := lift (prop args "content") in
    let! newDoc := htmlDocumentStorage.create E content in
    ret (JSON_stringify E
           (VObj [ ("success", VBool true);
                   ("document", doc_val newDoc);
                   ("message", VStr ("Created HTML document with ID: " +:+ doc_id newDoc)) ]))
  else if String.eqb toolName "edit_html_document" then
    let! documentId := lift (prop args "documentId") in
    let! existingDoc := htmlDocumentStorage.get documentId in
    match existingDoc with
    | None =>
        ret (soft_failure ("Document with ID " +:+ ToString E documentId +:+ " not found"))
    | Some existingDoc =>
        try_catch
          (let! editDescription := lift (prop args "editDescription") in
           let! edit := editHtmlWithLLM E (doc_content existingDoc) editDescription in
           let updatedHtml := fst edit in
           let! updatedDoc := htmlDocumentStorage.update E documentId (VStr updatedHtml) in
           match updatedDoc with
           | None =>
               ret (soft_failure ("Failed to update document with ID " +:+ ToString E documentId))
           | Some updatedDoc =>
               ret (JSON_stringify E
                      (VObj [ ("success", VBool true);
                              ("document", doc_val updatedDoc);
                              ("message", VStr ("Updated HTML document with ID: "
                                                +:+ ToString E documentId
                                                +:+ ". Made the requested change: "
                                                +:+ ToString E editDescription)) ]))
           end)
          (fun error => ret (soft_failure ("Error editing document: " +:+ message error)))
    end
  else if String.eqb toolName "list_html_documents" then
    let! docs := htmlDocumentStorage.getAll in
    ret (JSON_stringify E (VObj [ ("documents", VArr (map doc_summary docs)) ]))
  else if String.eqb toolName "generate_html_with_llm" then
    let! description := lift (prop args "description") in
    let! htmlGenerationResponse := create_completion E (generate_request description) in
    let generatedHtml :=
      strip_markdown (content_or_empty (msg_content (choice0 htmlGenerationResponse))) in
    let! generatedDoc := htmlDocumentStorage.create E (VStr generatedHtml) in
    ret (JSON_stringify E
           (VObj [ ("success", VBool true);
                   ("document", doc_val generatedDoc);
                   ("message", VStr ("Generated and created HTML document with ID: "
                                     +:+ doc_id generatedDoc)) ]))
  else
    ret (JSON_stringify E (VObj [ ("error", VStr ("Unknown tool: " +:+ toolName)) ])).

End Dispatcher.

(** ** agent.ts: the agent loop *)

Definition systemInstruction : string :=
"You are a helpful business assistant that works with TechCorp Solutions.

You should:
1. Always read the business profile when starting a conversation
2. Use long-term memory to remember important information across conversations
3. Help create and edit HTML documents as needed
4. Be conversational and helpful

The business profile contains information about TechCorp Solutions. Use it to answer questions about the company.".

Record CallCost : Type := mkCallCost {
  callNumber : nat;
  promptTokens : float;
  completionTokens : float;
  cost : float;
}.

Record CostInfo : Type := mkCostInfo {
  totalCost : float;
  totalTokens : float;
  totalPrompt : float;
  totalCompletion : float;
  calls : nat;
  costs : list CallCost;
}.

(** An incoming message of the request body. *)
Record ChatTurn : Type := mkTurn { turn_role : Role; turn_content : string }.

Record AgentResult : Type := mkResult {
  result_message : string;
  result_cost : CostInfo;
  result_documentId : option Val;
}.

(** The local variables of one [runAgent] invocation, with the world. *)
Record Agent : Type := mkAgent {
  world : World;
  totalPromptTokens : float;
  totalCompletionTokens : float;
  apiCalls : nat;
  callCosts : list CallCost;
  messagesToSend : list Message;
  documentId : option Val;
}.

Definition init_agent (w : World) : Agent :=
  mkAgent w 0%float 0%float 0 [] [] None.

Definition in_world {A} (m : M A) : ST Agent A :=
  fun a => let (o, w) := m (world a) in
           (o, mkAgent w (totalPromptTokens a) (totalCompletionTokens a)
                       (apiCalls a) (callCosts a) (messagesToSend a) (documentId a)).

Definition update_agent (f : Agent -> Agent) : ST Agent unit :=
  fun a => (Return tt, f a).

Definition is_user (r : Role) : bool :=
  match r with user => true | _ => false end.

(** [messages.length === 1 && messages[0].role === 'user'] *)
Definition isNewConversation (messages : list ChatTurn) : bool :=
  match messages with
  | [m] => is_user (turn_role m)
  | _ => false
  end.

Definition init_call : ToolCall :=
  mkToolCall "call_init_business_profile" "read_business_profile" "{}".

Definition tool_result (id result : string) : Message :=
  mkMessage tool (Some result) None (Some id).

(** The cost of one call: [parseFloat(callCost.toFixed(6))]. *)
Definition call_cost (p c : float) : float :=
  let inputCost := ((p / 1000000) * input modelPricing)%float in
  let outputCost := ((c / 1000000) * output modelPricing)%float in
  round6 (inputCost + outputCost)%float.

Definition trackCallCost (u : option CompletionUsage) (n : nat) (a : Agent) : Agent :=
  match u with
  | None => a
  | Some u =>
      let p := or_zero (prompt_tokens u) in
      let c := or_zero (completion_tokens u) in
      mkAgent (world a)
              (totalPromptTokens a + p)%float
              (totalCompletionTokens a + c)%float
              (apiCalls a)
              (callCosts a ++ [mkCallCost n p c (call_cost p c)])
              (messagesToSend a) (documentId a)
  end.

(** [apiCalls++; trackCallCost(response.usage, apiCalls)] *)
Definition count_call (response : ChatCompletion) (a : Agent) : Agent :=
  let a := mkAgent (world a) (totalPromptTokens a) (totalCompletionTokens a)
                   (S (apiCalls a)) (callCosts a) (messagesToSend a) (documentId a) in
  trackCallCost (usage response) (apiCalls a) a.

Definition push_messages (ms : list Message) (a : Agent) : Agent :=
  mkAgent (world a) (totalPromptTokens a) (totalCompletionTokens a)
          (apiCalls a) (callCosts a) (messagesToSend a ++ ms) (documentId a).

Definition set_documentId (id : Val) (a : Agent) : Agent :=
  mkAgent (world a) (totalPromptTokens a) (totalCompletionTokens a)
          (apiCalls a) (callCosts a) (messagesToSend a) (Some id).

Section AgentLoop.
Context (E : Env).

(** The request of the agent loop: the transcript with the tool catalogue. *)
Definition agent_request (messages : list Message) : ChatRequest :=
  mkRequest MODEL_NAME messages true None 4096.

(** The document identifier a create, edit or generate result surfaces;
    whatever goes wrong while looking for it is caught and ignored. *)
Definition surfaced_id (toolName result : string) : option Val :=
  if String.eqb toolName "create_html_document"
     || String.eqb toolName "edit_html_document"
     || String.eqb toolName "generate_html_with_llm"
  then
    match JSON_parse E result with
    | Return resultObj =>
        match prop resultObj "document" with
        | Return document =>
            if truthy document then
              match prop document "id" with
              | Return id => if truthy id then Some id else None
              | Throw _ => None
              end
            else None
        | Throw _ => None
        end
    | Throw _ => None
    end
  else None.

(** The body of [for (const toolCall of assistantMessage.tool_calls)], with
    the local array [toolCallResults] as accumulator. *)
Fixpoint run_tool_calls (pending : list ToolCall) (toolCallResults : list Message)
  : ST Agent (list Message) :=
  match pending with
  | [] => ret toolCallResults
  | toolCall :: rest =>
      let toolName := function_name toolCall in
      let! args := lift (JSON_parse E (function_arguments toolCall)) in
      let! result := in_world (executeTool E toolName args) in
      do! update_agent (fun a => match surfaced_id toolName result with
                                 | Some id => set_documentId id a
                                 | None => a
                                 end) in
      run_tool_calls rest (toolCallResults ++ [tool_result (call_id toolCall) result])
  end.

(** [while (assistantMessage.tool_calls && assistantMessage.tool_calls.length > 0)].
    The source loop is unbounded; [fuel] bounds the number of rounds and
    [None] is the result of a run that used it up. *)
Fixpoint agent_loop (fuel : nat) (assistantMessage : Message)
  : ST Agent (option Message) :=
  match tool_calls assistantMessage with
  | Some (toolCall :: rest) =>
      match fuel with
      | O => ret None
      | S fuel =>
          let! toolCallResults := run_tool_calls (toolCall :: rest) [] in
          do! update_agent (push_messages toolCallResults) in
          let! response :=
            (fun a => in_world (create_completion E (agent_request (messagesToSend a))) a) in
          do! update_agent (count_call response) in
          let assistantMessage := choice0 response in
          do! update_agent (push_messages [assistantMessage]) in
          agent_loop fuel assistantMessage
      end
  | _ => ret (Some assistantMessage)
  end.

(** The turns prepended for a new conversation. *)
Definition profile_turns (profileResult : string) : list Message :=
  [ mkMessage assistant None (Some [init_call]) None;
    tool_result "call_init_business_profile" profileResult ].

(** [conversationMessages] as it stands when the first request is made. *)
Definition conversationMessages (messages : list ChatTurn) : ST Agent (list Message) :=
  let! injected :=
    if isNewConversation messages then
      let! profileResult := in_world (executeTool E "read_business_profile" (VObj [])) in
      ret (profile_turns profileResult)
    else ret [] in
  ret ([plain system systemInstruction] ++ injected
       ++ map (fun msg => plain (turn_role msg) (turn_content msg)) messages)%list.

Definition sum_costs (cs : list CallCost) : float :=
  fold_left (fun sum call => (sum + cost call)%float) cs 0%float.

Definition costInfo (a : Agent) : CostInfo :=
  mkCostInfo (round6 (sum_costs (callCosts a)))
             (totalPromptTokens a + totalCompletionTokens a)%float
             (totalPromptTokens a) (totalCompletionTokens a)
             (apiCalls a) (callCosts a).

Definition runAgent (fuel : nat) (messages : list ChatTurn)
  : ST Agent (option AgentResult) :=
  let! conversation := conversationMessages messages in
  let! response := in_world (create_completion E (agent_request conversation)) in
  do! update_agent (count_call response) in
  let assistantMessage := choice0 response in
  do! update_agent (push_messages (conversation ++ [assistantMessage])) in
  let! final := agent_loop fuel assistantMessage in
  match final with
  | None => ret None
  | Some assistantMessage =>
      fun a =>
        (Return (Some (mkResult
                         (match msg_content assistantMessage with
                          | Some text => if String.eqb text "" then "No response generated"
                                         else text
                          | None => "No response generated"
                          end)
                         (costInfo a) (documentId a))), a)
  end.

End AgentLoop.

(** ** index.ts: the HTTP handlers *)

(** What a handler sends: the status ([res.json] alone sends 200) and the
    body handed to [res.json]. *)
Record Response : Type := mkResponse { status : nat; body : Val }.

Definition error_body (msg : string) : Val := VObj [ ("error", VStr msg) ].

(** [error.message || fallback] *)
Definition message_or (e : Exn) (fallback : string) : string :=
  if String.eqb (message e) "" then fallback else message e.

(** [const { messages } = req.body]: destructuring throws on [undefined]
    and [null] and reads the property of anything else. *)
Definition destructure_messages (req_body : Val) : Outcome Val :=
  match req_body with
  | VUndefined =>
      Throw (TypeError "Cannot destructure property 'messages' of 'req.body' as it is undefined.")
  | VNull =>
      Throw (TypeError "Cannot destructure property 'messages' of 'req.body' as it is null.")
  | _ => prop req_body "messages"
  end.

(** A small whole number as a JavaScript number. *)
Definition number_of_nat (n : nat) : float := nearest_float (Z.of_nat n) 1.

Definition call_cost_val (c : CallCost) : Val :=
  VObj [ ("callNumber", VNum (number_of_nat (callNumber c)));
         ("promptTokens", VNum (promptTokens c));
         ("completionTokens", VNum (completionTokens c));
         ("cost", VNum (cost c)) ].

Definition cost_val (c : CostInfo) : Val :=
  VObj [ ("totalCost", VNum (totalCost c));
         ("totalTokens", VNum (totalTokens c));
         ("promptTokens", VNum (totalPrompt c));
         ("completionTokens", VNum (totalCompletion c));
         ("calls", VNum (number_of_nat (calls c)));
         ("callCosts", VArr (map call_cost_val (costs c))) ].

(** An element of the [messages] array as [runAgent] is typed to receive it:
    an object whose [role] is one of the four role names and whose [content]
    is a string. *)
Definition role_of (name : string) : option Role :=
  if String.eqb name "user" then Some user
  else if String.eqb name "assistant" then Some assistant
  else if String.eqb name "system" then Some system
  else if String.eqb name "tool" then Some tool
  else None.

Definition turn_of (v : Val) : option ChatTurn :=
  match v with
  | VObj fields =>
      match assoc "role" fields, assoc "content" fields with
      | Some (VStr r), Some (VStr c) =>
          match role_of r with
          | Some r => Some (mkTurn r c)
          | None => None
          end
      | _, _ => None
      end
  | _ => None
  end.

Fixpoint turns_of (items : list Val) : option (list ChatTurn) :=
  match items with
  | [] => Some []
  | v :: rest =>
      match turn_of v, turns_of rest with
      | Some t, Some ts => Some (t :: ts)
      | _, _ => None
      end
  end.

(** How a modelled request ends: with a response, or outside the model (the
    fuel of the loop is used up, or the messages are not role and content
    records, which [runAgent] is not typed to receive). *)
Inductive Handled : Type :=
| Responded (r : Response)
| OutOfFuel
| Untyped.

Section Handlers.
Context (E : Env).

(** [GET /api/health] *)
Definition get_health : Response := mkResponse 200 (VObj [ ("status", VStr "ok") ]).

(** [GET /api/document/:id]; the route parameter is a string. *)
Definition get_document (id : string) : M Response :=
  let! document := htmlDocumentStorage.get (VStr id) in
  match document with
  | None => ret (mkResponse 404 (error_body "Document not found"))
  | Some document => ret (mkResponse 200 (VObj [ ("document", doc_val E document) ]))
  end.

(** [GET /api/documents] *)
Definition get_documents : M Response :=
  let! documents := htmlDocumentStorage.getAll in
  ret (mkResponse 200 (VObj [ ("documents", VArr (map (doc_val E) documents)) ])).

(** [POST /api/chat] on the parsed body [req.body], with the value of
    [process.env.OPENAI_API_KEY]. *)
Definition post_chat (fuel : nat) (req_body : Val) (OPENAI_API_KEY : option string)
  : World -> Handled * World :=
  fun w =>
    let failed e :=
      Responded (mkResponse 500
                   (error_body (message_or e "An error occurred processing the chat message")))
    in
    match destructure_messages req_body with
    | Throw e => (failed e, w)
    | Return (VArr items) =>
        if match OPENAI_API_KEY with
           | Some key => String.eqb key ""
           | None => true
           end
        then (Responded (mkResponse 500
                           (error_body "OPENAI_API_KEY is not set in environment variables")),
              w)
        else
          match turns_of items with
          | None => (Untyped, w)
          | Some messages =>
              match runAgent E fuel messages (init_agent w) with
              | (Return (Some result), a) =>
                  (Responded
                     (mkResponse 200
                        (VObj [ ("message", VStr (result_message result));
                                ("cost", cost_val (result_cost result));
                                ("documentId",
                                 default VUndefined (result_documentId result)) ])),
                   world a)
              | (Return None, a) => (OutOfFuel, world a)
              | (Throw e, a) => (failed e, world a)
              end
          end
    | Return _ =>
        (Responded (mkResponse 400 (error_body "Messages must be an array")), w)
    end.

End Handlers.

(** ** States of the stores reachable from the empty ones *)

Inductive reachable (E : Env) : World -> Prop :=
| reach_empty : reachable E empty_world
| reach_write w key value :
    reachable E w -> reachable E (snd (memoryStorage.write E key value w))
| reach_create w content :
    reachable E w -> reachable E (snd (htmlDocumentStorage.create E content w))
| reach_update w id content :
    reachable E w -> reachable E (snd (htmlDocumentStorage.update E id content w))
| reach_request w req :
    reachable E w -> reachable E (snd (create_completion E req w)).

(** The identifier [create] derives from the [k]-th clock reading. *)
Definition id_at (E : Env) (k : nat) : string := "doc-" +:+ pretty (clock E k).

(** ** The cost formula in exact arithmetic

    Follows the specification's words: [prompt * price_in / 1e6 +
    completion * price_out / 1e6] at the prices $0.15 and $0.60, as an exact
    number of millionths of a dollar, [(15 p + 60 c) / 100]. *)
Definition spec_micros_num (p c : Z) : Z := 15 * p + 60 * c.
Definition spec_micros_den : Z := 100.

(** The exact amount rounded to the nearest millionth, a tie going up or to
    the even neighbour. *)
Definition round_half_up (n d : Z) : Z := (2 * n + d) / (2 * d).
Definition round_half_even (n d : Z) : Z :=
  let q := n / d in
  let r := n mod d in
  if (2 * r <? d)%Z then q
  else if (d <? 2 * r)%Z then q + 1
  else if Z.even q then q else q + 1.

(** The millionths a recorded cost stands for. *)
Definition micros (x : float) : option Z := snd <$> toFixed6 x.

(** ** An example environment

    Stand-ins for the collaborators, used to run the program on concrete
    inputs: a clock and a provider given as arguments, a diff-match-patch
    whose patch text is the modified text itself and whose application is
    given as an argument, and a parser given as an argument. *)

Definition SyntaxError : Exn := mkExn "SyntaxError" "Unexpected token in JSON".

Fixpoint example_stringify (v : Val) : string :=
  match v with
  | VUndefined | VFunction _ => "undefined"
  | VNull => "null"
  | VBool true => "true"
  | VBool false => "false"
  | VNum n => if is_zero n then "0" else "1"
  | VStr s => String "034" (s +:+ String "034" "")
  | VArr items =>
      "[" +:+ fold_right (fun x acc => example_stringify x +:+ "," +:+ acc) "]" items
  | VObj fields =>
      "{" +:+ fold_right (fun kv acc => String "034" (fst kv) +:+ String "034" ":"
                                        +:+ example_stringify (snd kv) +:+ "," +:+ acc)
                         "}" fields
  end.

Definition example_parse (s : string) : Outcome Val :=
  if String.eqb s "{}" then Return (VObj [])
  else if String.eqb s "null" then Return VNull
  else Throw SyntaxError.

Definition example_env
    (clk : nat -> Z)
    (provider : nat -> ChatRequest -> Outcome ChatCompletion)
    (apply : string -> string -> string * list bool)
    (parse_error : string -> option Exn) : Env :=
  {| businessProfile := VObj [ ("companyName", VStr "TechCorp Solutions") ];
     clock := clk;
     chat_completions_create := provider;
     JSON_stringify := example_stringify;
     JSON_stringify_pretty := example_stringify;
     JSON_parse := example_parse;
     ToString_other := fun _ => "[object Object]";
     toISOString := fun t => pretty t;
     dmp_Diffs := string;
     dmp_Patches := string;
     diff_main := fun _ modified => modified;
     diff_cleanupSemantic := fun d => d;
     patch_make := fun _ d => d;
     patch_toText := fun p => Return p;
     patch_fromText := fun t => Return t;
     patch_apply := apply;
     dmp_reject := fun _ _ => mkExn "Error" "Unknown call format to patch_make.";
     html_parse_error := parse_error |}.

(** A provider that answers every request with the given text. *)
Definition answers (text : string) : nat -> ChatRequest -> Outcome ChatCompletion :=
  fun _ _ => Return (mkCompletion (plain assistant text) None).

(** A provider that is unreachable. *)
Definition unreachable : nat -> ChatRequest -> Outcome ChatCompletion :=
  fun _ _ => Throw (mkExn "APIConnectionError" "Connection error.").

(** A patch that applies cleanly yields the modified text. *)
Definition apply_clean (patch original : string) : string * list bool :=
  (patch, [true]).

(** A patch that does not apply leaves the text as it was. *)
Definition apply_failed (patch original : string) : string * list bool :=
  (original, [false]).

Definition accepts_all (html : string) : option Exn := None.
Definition rejects_all (html : string) : option Exn :=
  Some (mkExn "Error" "Unexpected end of input").
(** A parser that rejects exactly the given text. *)
Definition rejects (bad : string) (html : string) : option Exn :=
  if String.eqb html bad then Some (mkExn "Error" "Unexpected end of input") else None.

(** ** Notions used in the statements *)

Local Open Scope list_scope.

(** In a reachable state every identifier comes from a distinct earlier
    reading of the clock. *)
Definition ids_from_clock (E : Env) (w : World) : Prop :=
  exists ks : list nat,
    map doc_id (htmlDocuments w) = map (id_at E) ks
    /\ NoDup ks /\ Forall (fun k => (k < ticks w)%nat) ks.

(** An environment whose clock advances by one millisecond at every
    reading, and one whose clock stands still. *)
Definition ticking_env : Env :=
  example_env (fun k => 1700000000000 + Z.of_nat k) (answers "<p>ok</p>")
              apply_clean accepts_all.
Definition frozen_env : Env :=
  example_env (fun _ => 1700000000000) (answers "<p>ok</p>") apply_clean accepts_all.

(** The world after one request to the provider. *)
Definition logged (req : ChatRequest) (w : World) : World :=
  mkWorld (memoryData w) (memoryFile w) (htmlDocuments w) (htmlDocsFile w)
          (ticks w) (requests w ++ [req]).

(** The text [editHtmlWithLLM] takes from a response. *)
Definition edited_text (response : ChatCompletion) : string :=
  strip_markdown (content_or_empty (msg_content (choice0 response))).

(** An environment in which the patch fails to apply, so that the candidate
    is the unchanged original, and the parser rejects that original. *)
Definition stale_patch_env : Env :=
  example_env (fun k => Z.of_nat k) (answers "<p>new</p>") apply_failed
              (rejects "<p>old").

(** A string [JSON.stringify] produced. *)
Definition is_json_text (E : Env) (s : string) : Prop :=
  exists v : Val, s = JSON_stringify E v \/ s = JSON_stringify_pretty E v.

(** The stores, apart from the log of requests. *)
Definition same_stores (w w' : World) : Prop :=
  memoryData w' = memoryData w /\ memoryFile w' = memoryFile w
  /\ htmlDocuments w' = htmlDocuments w /\ htmlDocsFile w' = htmlDocsFile w
  /\ ticks w' = ticks w.

(** An environment whose parser rejects every text. *)
Definition rejecting_env : Env :=
  example_env (fun k => Z.of_nat k) (answers "<p>new") apply_clean rejects_all.

(** A provider that asks for one tool call, then gives its final answer,
    reporting the token counts of the ledger scenario. *)
Definition two_call_provider : nat -> ChatRequest -> Outcome ChatCompletion :=
  fun k _ =>
    match k with
    | O => Return (mkCompletion
                     (mkMessage assistant None
                        (Some [mkToolCall "call_1" "list_html_documents" "{}"]) None)
                     (Some (mkUsage 1000 500)))
    | S _ => Return (mkCompletion (plain assistant "Done.") (Some (mkUsage 200 100)))
    end.

Definition ledger_env : Env :=
  example_env (fun k => Z.of_nat k) two_call_provider apply_clean accepts_all.

(** The ledger after calls with the given token counts. *)
Definition ledger_of (tokens : list (float * float)) : Agent :=
  fold_left (fun a pc => count_call (mkCompletion (plain assistant "")
                                       (Some (mkUsage (fst pc) (snd pc)))) a)
            tokens (init_agent empty_world).

(** The log of requests only grows. *)
Definition extends (w w' : World) : Prop :=
  exists later, requests w' = requests w ++ later.

(** The transcript [runAgent] starts from. *)
Definition first_transcript (E : Env) (messages : list ChatTurn) : list Message :=
  [plain system systemInstruction]
  ++ (if isNewConversation messages
      then profile_turns (JSON_stringify_pretty E (businessProfile E))
      else [])
  ++ map (fun msg => plain (turn_role msg) (turn_content msg)) messages.

(** A tool call whose arguments [JSON.parse] rejects. *)
Definition malformed (E : Env) (toolCall : ToolCall) : Prop :=
  exists e, JSON_parse E (function_arguments toolCall) = Throw e.

(** A provider whose first answer asks for a tool with truncated
    arguments. *)
Definition truncated_arguments_provider : nat -> ChatRequest -> Outcome ChatCompletion :=
  fun _ _ =>
    Return (mkCompletion
              (mkMessage assistant None
                 (Some [mkToolCall "call_1" "write_long_term_memory" "{'key': 'plan'"]) None)
              None).

Definition truncated_env : Env :=
  example_env (fun k => Z.of_nat k) truncated_arguments_provider apply_clean accepts_all.

(** A provider whose first answer asks for a tool with well-formed arguments
    and whose later answers ask for one with truncated arguments. *)
Definition late_truncated_provider : nat -> ChatRequest -> Outcome ChatCompletion :=
  fun k _ =>
    match k with
    | O => Return (mkCompletion
                     (mkMessage assistant None
                        (Some [mkToolCall "call_1" "list_html_documents" "{}"]) None)
                     None)
    | S _ => Return (mkCompletion
                       (mkMessage assistant None
                          (Some [mkToolCall "call_2" "write_long_term_memory"
                                            "{'key': 'plan'"]) None)
                       None)
    end.

Definition late_truncated_env : Env :=
  example_env (fun k => Z.of_nat k) late_truncated_provider apply_clean accepts_all.

(** The values ToString accepts.  An object is converted by the [toString]
    it inherits from [Object.prototype]; an own property of that name, which
    in a parsed JSON text is never a function, hides it and leaves
    [valueOf], which returns the object itself: a [TypeError].  An array is
    converted by joining the conversions of its elements, a function by its
    source text, and a primitive always. *)
Fixpoint converts (v : Val) : bool :=
  match v with
  | VObj fields =>
      match assoc "toString" fields with
      | Some _ => false
      | None => true
      end
  | VArr items => forallb converts items
  | _ => true
  end.

(** The parameters a tool turns into a string outside any [try]: the key of
    the two memory tools (as the property name in [memoryData[key]]), the
    identifier in the not-found message of [edit_html_document], and the
    description in the prompt of [generate_html_with_llm]. *)
Definition tool_converts (toolName : string) (fields : list (string * Val)) : bool :=
  let parameter k := default VUndefined (assoc k fields) in
  if String.eqb toolName "read_long_term_memory"
     || String.eqb toolName "write_long_term_memory"
  then converts (parameter "key")
  else if String.eqb toolName "edit_html_document" then converts (parameter "documentId")
  else if String.eqb toolName "generate_html_with_llm"
  then converts (parameter "description")
  else true.

(** An environment whose clock advances by one millisecond every third
    reading: the three readings of one [create] fall within the same
    millisecond, those of the next [create] within the next. *)
Definition stepping_env : Env :=
  example_env (fun k => 1700000000000 + Z.of_nat (k / 3)%nat) (answers "<p>ok</p>")
              apply_clean accepts_all.

(** The reading of the clock about to be taken differs from every reading
    taken so far. *)
Definition fresh_reading (E : Env) (w : World) : Prop :=
  forall k, (k < ticks w)%nat -> clock E k <> clock E (ticks w).




(** ** The primitive effects

    [steps E w w'] holds when [w'] is reached from [w] by a sequence of the
    four effects the program has on the world: a memory write, a document
    creation, a document update and a request to the provider. *)

Inductive steps (E : Env) : World -> World -> Prop :=
| steps_refl w : steps E w w
| steps_write w w' key value :
    steps E w w' -> steps E w (snd (memoryStorage.write E key value w'))
| steps_create w w' content :
    steps E w w' -> steps E w (snd (htmlDocumentStorage.create E content w'))
| steps_update w w' id content :
    steps E w w' -> steps E w (snd (htmlDocumentStorage.update E id content w'))
| steps_request w w' req :
    steps E w w' -> steps E w (snd (create_completion E req w')).

(** What identifies a document for good: its identifier and creation
    stamp. *)
Definition doc_key (doc : HtmlDocument) : string * Z := (doc_id doc, createdAt doc).

(** Each file, once written, holds exactly the store it persists; before
    the first write the store is empty. *)
Definition persisted (w : World) : Prop :=
  (memoryFile w = Some (memoryData w) \/ (memoryFile w = None /\ memoryData w = ∅))
  /\ (htmlDocsFile w = Some (htmlDocuments w)
      \/ (htmlDocsFile w = None /\ htmlDocuments w = [])).

(** The ledger is in order: the records are numbered by the calls they
    belong to, so their numbers are a subsequence of [1 .. apiCalls], and the
    running token totals are the sums over the records, taken in order. *)
Definition ledger_ok (a : Agent) : Prop :=
  sublist (map callNumber (callCosts a)) (seq 1 (apiCalls a))
  /\ totalPromptTokens a
     = fold_left PrimFloat.add (map promptTokens (callCosts a)) 0%float
  /\ totalCompletionTokens a
     = fold_left PrimFloat.add (map completionTokens (callCosts a)) 0%float.

(** The requests of the log that carry the tool catalogue: those of the
    agent loop itself. *)
Definition catalogue_requests (w : World) : list ChatRequest :=
  List.filter req_tools (requests w).

(** * Properties *)


(** ** The key-value store *)

Module memoryStorage_facts.
Section WithEnv.
Context (E : Env).

(** What [read] returns after [write] under a string key other than
    [__proto__]: the stored value when it is truthy, [null] otherwise. *)
Lemma read_after_write (k : string) (v : Val) (w : World) :
  k ≠ "__proto__" ->
  fst (memoryStorage.read E (VStr k) (snd (memoryStorage.write E (VStr k) v w)))
  = Return (js_or v VNull).
Proof.
  intros Hk. unfold memoryStorage.read, memoryStorage.write, memoryData_get. simpl.
  destruct (String.eqb k "__proto__") eqn:Heq.
  - apply String.eqb_eq in Heq. contradiction.
  - simpl. by rewrite lookup_insert_eq.
Qed.

Lemma getAll_after_write (k : string) (v : Val) (w : World) :
  k ≠ "__proto__" ->
  exists m, fst (memoryStorage.getAll (snd (memoryStorage.write E (VStr k) v w)))
            = Return m /\ m !! k = Some v.
Proof.
  intros Hk. unfold memoryStorage.getAll, memoryStorage.write. simpl.
  destruct (String.eqb k "__proto__") eqn:Heq.
  - apply String.eqb_eq in Heq. contradiction.
  - eexists. split; [reflexivity|]. simpl. by rewrite lookup_insert_eq.
Qed.

(** Every [write] rewrites the file with the whole store. *)
Lemma write_persists (key value : Val) (w : World) :
  let w' := snd (memoryStorage.write E key value w) in
  memoryFile w' = Some (memoryData w').
Proof. reflexivity. Qed.

(** A name inherited from [Object.prototype] reads as that member even
    though nothing was stored under it. *)
Lemma read_inherited (w : World) :
  memoryData w !! "constructor" = None ->
  memoryStorage.read E (VStr "constructor") w = (Return (VFunction "constructor"), w).
Proof.
  intros Hnone. unfold memoryStorage.read, memoryData_get. simpl. by rewrite Hnone.
Qed.

Lemma read_absent (k : string) (w : World) :
  memoryData w !! k = None -> Object_prototype k = VUndefined ->
  memoryStorage.read E (VStr k) w = (Return VNull, w).
Proof.
  intros Hnone Hproto. unfold memoryStorage.read, memoryData_get. simpl.
  by rewrite Hnone; simpl; rewrite Hproto.
Qed.

End WithEnv.
End memoryStorage_facts.

(** C2 (the code at the failing input).  Writing the empty string under the
    key [k] and reading [k] back returns [null], not the empty string that
    was written, although [getAll] does hold the pair; the same happens for
    every falsy value ([0], [false]), because [read] ends in [|| null]. *)
Theorem memoryStorage_read_loses_falsy_value (E : Env) (w : World) :
  let w' := snd (memoryStorage.write E (VStr "k") (VStr "") w) in
  memoryStorage.read E (VStr "k") w' = (Return VNull, w')
  /\ memoryData w' !! "k" = Some (VStr "")
  /\ fst (memoryStorage.read E (VStr "k")
            (snd (memoryStorage.write E (VStr "k") (VNum 0%float) w))) = Return VNull
  /\ fst (memoryStorage.read E (VStr "k")
            (snd (memoryStorage.write E (VStr "k") (VBool false) w))) = Return VNull.
Proof.
  repeat split.
  - unfold memoryStorage.read, memoryStorage.write, memoryData_get. simpl.
    by rewrite lookup_insert_eq.
  - simpl. by rewrite lookup_insert_eq.
  - by rewrite memoryStorage_facts.read_after_write.
  - by rewrite memoryStorage_facts.read_after_write.
Qed.

(** ** The document store *)

Module htmlDocumentStorage_facts.
Section WithEnv.
Context (E : Env).

Lemma create_eq (content : Val) (w : World) :
  let doc := mkDoc (id_at E (ticks w)) content
                   (clock E (S (ticks w))) (clock E (S (S (ticks w)))) in
  htmlDocumentStorage.create E content w
  = (Return doc,
     mkWorld (memoryData w) (memoryFile w) (htmlDocuments w ++ [doc])
             (Some (htmlDocuments w ++ [doc])) (S (S (S (ticks w)))) (requests w)).
Proof. reflexivity. Qed.

Lemma find_none_not_in (s : string) (docs : list HtmlDocument) :
  ~ In s (map doc_id docs) -> List.find (id_matches (VStr s)) docs = None.
Proof.
  induction docs as [|d docs IH]; simpl; [done|].
  intros Hnot. destruct (String.eqb (doc_id d) s) eqn:Heq.
  - apply String.eqb_eq in Heq. tauto.
  - apply IH. tauto.
Qed.

Lemma find_app_last (s : string) (docs : list HtmlDocument) (d : HtmlDocument) :
  List.find (id_matches (VStr s)) docs = None -> doc_id d = s ->
  List.find (id_matches (VStr s)) (docs ++ [d]) = Some d.
Proof.
  intros Hnone Hid. induction docs as [|d' docs IH]; simpl in *.
  - by rewrite Hid, String.eqb_refl.
  - destruct (String.eqb (doc_id d') s); [done|]. by apply IH.
Qed.

Lemma update_first_ids id content t docs :
  map doc_id (update_first id content t docs) = map doc_id docs.
Proof.
  induction docs as [|d docs IH]; simpl; [done|].
  destruct (id_matches id d); simpl; [done|]. by rewrite IH.
Qed.

Lemma find_update_first id content t docs doc :
  List.find (id_matches id) docs = Some doc ->
  List.find (id_matches id) (update_first id content t docs)
  = Some (mkDoc (doc_id doc) content (createdAt doc) t).
Proof.
  induction docs as [|d docs IH]; simpl; [done|].
  destruct (id_matches id d) eqn:Hm; simpl.
  - intros [= ->]. destruct id; simpl in *; try done. by rewrite Hm.
  - rewrite Hm. apply IH.
Qed.

Lemma update_found id content w doc :
  List.find (id_matches id) (htmlDocuments w) = Some doc ->
  let docs := update_first id content (clock E (ticks w)) (htmlDocuments w) in
  htmlDocumentStorage.update E id content w
  = (Return (Some (mkDoc (doc_id doc) content (createdAt doc) (clock E (ticks w)))),
     mkWorld (memoryData w) (memoryFile w) docs (Some docs)
             (S (ticks w)) (requests w)).
Proof.
  intros Hfind. unfold htmlDocumentStorage.update. by rewrite Hfind.
Qed.

Lemma update_missing id content w :
  List.find (id_matches id) (htmlDocuments w) = None ->
  htmlDocumentStorage.update E id content w = (Return None, w).
Proof.
  intros Hfind. unfold htmlDocumentStorage.update. by rewrite Hfind.
Qed.

Lemma reachable_ids_from_clock (w : World) :
  reachable E w -> ids_from_clock E w.
Proof.
  induction 1 as [|w key value _ IH|w content _ IH|w id content _ IH|w req _ IH].
  - exists []. repeat split; constructor.
  - exact IH.
  - destruct IH as (ks & Hids & Hnd & Hlt). rewrite create_eq.
    exists (ks ++ [ticks w]). cbn [snd htmlDocuments ticks]. repeat split.
    + rewrite !map_app, Hids. reflexivity.
    + apply NoDup_app. repeat split; [done| |apply NoDup_singleton].
      intros k Hk Hk'. apply list_elem_of_singleton in Hk'. subst k.
      rewrite Forall_forall in Hlt. apply Hlt in Hk. lia.
    + apply Forall_app. split.
      * eapply Forall_impl; [exact Hlt|]. simpl. intros; lia.
      * repeat constructor.
  - destruct IH as (ks & Hids & Hnd & Hlt).
    destruct (List.find (id_matches id) (htmlDocuments w)) as [doc|] eqn:Hfind.
    + rewrite (update_found _ _ _ _ Hfind). exists ks.
      cbn [snd htmlDocuments ticks]. repeat split.
      * by rewrite update_first_ids.
      * done.
      * eapply Forall_impl; [exact Hlt|]. simpl. intros; lia.
    + rewrite (update_missing _ _ _ Hfind). simpl. by exists ks.
  - exact IH.
Qed.

(** Two identifiers are equal only if the readings they derive from are. *)
Lemma id_at_clock (i j : nat) : id_at E i = id_at E j -> clock E i = clock E j.
Proof.
  intros Hid. unfold id_at in Hid. simpl in Hid.
  injection Hid as Hp. simpl in Hp. by apply pretty_Z_inj in Hp.
Qed.

(** In a reachable state a reading that differs from every earlier one
    gives an identifier no document has. *)
Lemma fresh_reading_unused (w : World) :
  reachable E w -> fresh_reading E w ->
  ~ In (id_at E (ticks w)) (map doc_id (htmlDocuments w)).
Proof.
  intros Hreach Hfresh.
  destruct (reachable_ids_from_clock w Hreach) as (ks & Hids & _ & Hlt).
  rewrite Hids, in_map_iff. intros (k & Hk & Hin).
  apply id_at_clock in Hk. rewrite Forall_forall in Hlt.
  apply list_elem_of_In, Hlt in Hin. by apply (Hfresh k Hin).
Qed.

Lemma NoDup_snoc {A} (l : list A) (x : A) : NoDup l -> ~ In x l -> NoDup (l ++ [x]).
Proof.
  intros Hnd Hx. apply NoDup_app. split; [done|]. split; [|apply NoDup_singleton].
  intros y Hy Hy'. apply list_elem_of_singleton in Hy'. subst y.
  by apply Hx, list_elem_of_In.
Qed.

Lemma NoDup_map_inj {A B} (f : A -> B) (l : list A) :
  (forall x y, f x = f y -> x = y) -> NoDup l -> NoDup (map f l).
Proof.
  intros Hinj. induction 1 as [|x l Hx Hnd IH]; simpl; constructor; [|done].
  rewrite list_elem_of_In, in_map_iff. intros (y & Hy & Hin).
  apply Hinj in Hy. subst y. by apply list_elem_of_In in Hin.
Qed.

End WithEnv.
End htmlDocumentStorage_facts.

(** C3 (counterexample).  Two consecutive [create] calls that read the
    clock within the same millisecond allocate the same identifier, after
    which the store holds two documents under it. *)
Lemma create_twice_same_millisecond :
  exists d1 d2 w1 w2,
    htmlDocumentStorage.create frozen_env (VStr "<p>a</p>") empty_world = (Return d1, w1)
    /\ htmlDocumentStorage.create frozen_env (VStr "<p>b</p>") w1 = (Return d2, w2)
    /\ reachable frozen_env w1
    /\ In (doc_id d2) (map doc_id (htmlDocuments w1))
    /\ doc_id d1 = doc_id d2
    /\ ~ NoDup (map doc_id (htmlDocuments w2)).
Proof.
  do 4 eexists. split; [apply htmlDocumentStorage_facts.create_eq|].
  split; [apply htmlDocumentStorage_facts.create_eq|].
  split; [|split; [|split]].
  - apply (reach_create frozen_env empty_world (VStr "<p>a</p>")), reach_empty.
  - left. reflexivity.
  - reflexivity.
  - cbn. intros Hnd. apply NoDup_cons in Hnd as [Hnot _]. apply Hnot. left.
Qed.

(** C3 (amended).  [create] derives the identifier from the reading of the
    clock it takes first.  In a state reachable from the empty store, when
    that reading differs from every reading taken before (the two readings
    that follow it, for the stamps, may repeat it), [create] allocates an
    identifier that no document of the store has, and identifiers that were
    pairwise distinct stay pairwise distinct. *)
Theorem create_allocates_unused_id (E : Env) (w : World) (content : Val) :
  reachable E w ->
  fresh_reading E w ->
  exists doc w',
    htmlDocumentStorage.create E content w = (Return doc, w')
    /\ doc_id doc = id_at E (ticks w)
    /\ ~ In (doc_id doc) (map doc_id (htmlDocuments w))
    /\ (NoDup (map doc_id (htmlDocuments w)) -> NoDup (map doc_id (htmlDocuments w'))).
Proof.
  intros Hreach Hfresh.
  pose proof (htmlDocumentStorage_facts.fresh_reading_unused E w Hreach Hfresh) as Hnew.
  do 2 eexists. split; [apply htmlDocumentStorage_facts.create_eq|].
  split; [reflexivity|]. split; [exact Hnew|].
  intros Hnd. cbn [htmlDocuments]. rewrite map_app.
  by apply htmlDocumentStorage_facts.NoDup_snoc.
Qed.

Lemma create_allocates_unused_id_witness :
  let w1 := snd (htmlDocumentStorage.create stepping_env (VStr "<p>a</p>") empty_world) in
  exists doc w2,
    htmlDocumentStorage.create stepping_env (VStr "<p>b</p>") w1 = (Return doc, w2)
    /\ doc_id doc = "doc-1700000000001"
    /\ createdAt doc = updatedAt doc
    /\ map doc_id (htmlDocuments w1) = ["doc-1700000000000"]
    /\ NoDup (map doc_id (htmlDocuments w2)).
Proof.
  intros w1.
  destruct (create_allocates_unused_id stepping_env w1 (VStr "<p>b</p>"))
    as (doc & w2 & Hcreate & Hid & _ & Hdistinct).
  - apply (reach_create stepping_env empty_world (VStr "<p>a</p>")), reach_empty.
  - intros k Hk. do 3 (destruct k as [|k]; [vm_compute; discriminate|]).
    cbn in Hk. lia.
  - exists doc, w2. split; [exact Hcreate|]. split; [exact Hid|].
    rewrite htmlDocumentStorage_facts.create_eq in Hcreate.
    split; [by injection Hcreate as <- _|]. split; [reflexivity|].
    apply Hdistinct. repeat constructor. by intros Hin%elem_of_nil.
Defined.

(** C8 (counterexample).  With a clock that advances between the readings
    [create] takes, the document [get] returns right after [create] has
    different [createdAt] and [updatedAt]; and when an older document already
    has the identifier, [get] returns that older document, whose content is
    not the one just created. *)
Lemma get_after_create_differs :
  (exists doc w',
      htmlDocumentStorage.create ticking_env (VStr "<p>a</p>") empty_world = (Return doc, w')
      /\ htmlDocumentStorage.get (VStr (doc_id doc)) w' = (Return (Some doc), w')
      /\ createdAt doc <> updatedAt doc)
  /\ (exists d1 w1 d2 w2 found,
         htmlDocumentStorage.create frozen_env (VStr "<p>a</p>") empty_world = (Return d1, w1)
         /\ htmlDocumentStorage.create frozen_env (VStr "<p>b</p>") w1 = (Return d2, w2)
         /\ htmlDocumentStorage.get (VStr (doc_id d2)) w2 = (Return (Some found), w2)
         /\ doc_content found <> VStr "<p>b</p>").
Proof.
  split.
  - do 2 eexists. split; [apply htmlDocumentStorage_facts.create_eq|].
    split; [reflexivity|]. cbn. lia.
  - do 5 eexists. split; [apply htmlDocumentStorage_facts.create_eq|].
    split; [apply htmlDocumentStorage_facts.create_eq|].
    split; [reflexivity|]. cbn. discriminate.
Qed.

(** C8 (amended).  When no document of the store already has the identifier
    [create] allocates, [get] of that identifier right after [create content]
    returns the created document: its content is exactly [content], and its
    [createdAt] and [updatedAt] are the two clock readings [create] takes
    after the one for the identifier, hence equal when the clock does not
    advance between them. *)
Theorem get_after_create (E : Env) (w : World) (content : Val) :
  ~ In (id_at E (ticks w)) (map doc_id (htmlDocuments w)) ->
  exists doc w',
    htmlDocumentStorage.create E content w = (Return doc, w')
    /\ htmlDocumentStorage.get (VStr (doc_id doc)) w' = (Return (Some doc), w')
    /\ doc_content doc = content
    /\ createdAt doc = clock E (S (ticks w))
    /\ updatedAt doc = clock E (S (S (ticks w)))
    /\ (clock E (S (ticks w)) = clock E (S (S (ticks w))) ->
        createdAt doc = updatedAt doc).
Proof.
  intros Hfresh. do 2 eexists.
  split; [apply htmlDocumentStorage_facts.create_eq|].
  split; [|by repeat split].
  unfold htmlDocumentStorage.get. cbn [htmlDocuments doc_id]. f_equal. f_equal.
  apply htmlDocumentStorage_facts.find_app_last; [|reflexivity].
  by apply htmlDocumentStorage_facts.find_none_not_in.
Qed.

Lemma get_after_create_witness :
  exists doc w',
    htmlDocumentStorage.create frozen_env (VStr "<p>a</p>") empty_world = (Return doc, w')
    /\ htmlDocumentStorage.get (VStr (doc_id doc)) w' = (Return (Some doc), w')
    /\ doc_content doc = VStr "<p>a</p>"
    /\ createdAt doc = clock frozen_env (S (ticks empty_world))
    /\ updatedAt doc = clock frozen_env (S (S (ticks empty_world)))
    /\ (clock frozen_env (S (ticks empty_world)) = clock frozen_env (S (S (ticks empty_world))) ->
        createdAt doc = updatedAt doc).
Proof.
  apply (get_after_create frozen_env empty_world (VStr "<p>a</p>")).
  simpl. tauto.
Defined.

(** C9 (counterexample).  An [update] that reads the clock within the same
    millisecond as the document's previous stamp leaves [updatedAt] equal to
    the previous one, not strictly later. *)
Lemma update_same_millisecond :
  exists doc w1 doc' w2,
    htmlDocumentStorage.create frozen_env (VStr "<p>a</p>") empty_world = (Return doc, w1)
    /\ htmlDocumentStorage.update frozen_env (VStr (doc_id doc)) (VStr "<p>b</p>") w1
       = (Return (Some doc'), w2)
    /\ doc_content doc' = VStr "<p>b</p>"
    /\ ~ (updatedAt doc < updatedAt doc').
Proof.
  do 4 eexists. split; [apply htmlDocumentStorage_facts.create_eq|].
  split; [reflexivity|]. split; [reflexivity|]. cbn. lia.
Qed.

(** C9 (amended).  [update id content] on an identifier the store resolves
    replaces the content of the document [get id] returns and stamps
    [updatedAt] with the clock reading taken at the update, which is
    strictly later than the previous [updatedAt] when the clock has advanced
    past it; the change is persisted.  On an identifier the store does not
    resolve, [update] returns [null] and leaves the store, the file
    included, as it was. *)
Theorem update_outcome (E : Env) (w : World) (id content : Val) :
  (forall doc,
      fst (htmlDocumentStorage.get id w) = Return (Some doc) ->
      exists doc' w',
        htmlDocumentStorage.update E id content w = (Return (Some doc'), w')
        /\ htmlDocumentStorage.get id w' = (Return (Some doc'), w')
        /\ doc_id doc' = doc_id doc
        /\ doc_content doc' = content
        /\ createdAt doc' = createdAt doc
        /\ updatedAt doc' = clock E (ticks w)
        /\ (updatedAt doc < clock E (ticks w) -> updatedAt doc < updatedAt doc')
        /\ htmlDocsFile w' = Some (htmlDocuments w'))
  /\ (fst (htmlDocumentStorage.get id w) = Return None ->
      htmlDocumentStorage.update E id content w = (Return None, w)).
Proof.
  unfold htmlDocumentStorage.get. cbn [fst]. split.
  - intros doc [= Hfind]. do 2 eexists.
    split; [by apply htmlDocumentStorage_facts.update_found|].
    split; [|by repeat split].
    cbn [htmlDocuments]. f_equal. f_equal.
    by apply htmlDocumentStorage_facts.find_update_first.
  - intros [= Hfind]. by apply htmlDocumentStorage_facts.update_missing.
Qed.

Lemma update_outcome_witness :
  let created := htmlDocumentStorage.create ticking_env (VStr "<p>a</p>") empty_world in
  let w := snd created in
  (exists doc doc' w',
      fst created = Return doc
      /\ htmlDocumentStorage.update ticking_env (VStr (doc_id doc)) (VStr "<p>b</p>") w
         = (Return (Some doc'), w')
      /\ doc_content doc' = VStr "<p>b</p>"
      /\ updatedAt doc < updatedAt doc')
  /\ htmlDocumentStorage.update ticking_env (VStr "doc-0") (VStr "<p>b</p>") w
     = (Return None, w).
Proof.
  intros created w. split.
  - destruct (proj1 (update_outcome ticking_env w (VStr (id_at ticking_env 0))
                                    (VStr "<p>b</p>"))
                    (mkDoc (id_at ticking_env 0) (VStr "<p>a</p>")
                           (clock ticking_env 1) (clock ticking_env 2))
                    eq_refl)
      as (doc' & w' & Hupdate & _ & _ & Hcontent & _ & _ & Hlater & _).
    eexists _, doc', w'. split; [reflexivity|]. split; [exact Hupdate|].
    split; [exact Hcontent|]. apply Hlater. cbn. lia.
  - apply (proj2 (update_outcome ticking_env w (VStr "doc-0") (VStr "<p>b</p>"))).
    reflexivity.
Defined.

(** ** The HTML patch editor *)

(** Unfolding one [bind] on a known outcome. *)
Lemma bind_return {S A B} (m : ST S A) (k : A -> ST S B) (w w' : S) (a : A) :
  m w = (Return a, w') -> bind m k w = k a w'.
Proof. intros H. unfold bind. by rewrite H. Qed.

Lemma bind_throw {S A B} (m : ST S A) (k : A -> ST S B) (w w' : S) (e : Exn) :
  m w = (Throw e, w') -> bind m k w = (Throw e, w').
Proof. intros H. unfold bind. by rewrite H. Qed.

(** The ways [editHtmlWithLLM] returns: on a string, after the provider
    answered and the patch was made and applied, with the patched candidate
    if it parses and with the raw edited text if only that parses. *)
Lemma editHtmlWithLLM_returns (E : Env) (originalHtml instruction : Val) (w w' : World)
    (updatedHtml patch : string) :
  editHtmlWithLLM E originalHtml instruction w = (Return (updatedHtml, patch), w') ->
  exists original response finalHtml,
    originalHtml = VStr original
    /\ chat_completions_create E (length (requests w))
         (edit_request E originalHtml instruction) = Return response
    /\ w' = logged (edit_request E originalHtml instruction) w
    /\ generatePatch E originalHtml (edited_text response) = Return patch
    /\ applyPatch E original patch = Return finalHtml
    /\ ((validateHtml E finalHtml = None /\ updatedHtml = finalHtml)
        \/ (validateHtml E finalHtml <> None
            /\ validateHtml E (edited_text response) = None
            /\ updatedHtml = edited_text response)).
Proof.
  unfold editHtmlWithLLM, bind, create_completion, lift, ret, throw.
  destruct (chat_completions_create E _ _) as [response|e] eqn:Hresp; [|discriminate].
  fold (edited_text response).
  destruct (generatePatch E originalHtml (edited_text response)) as [p|e] eqn:Hpatch;
    [|discriminate].
  destruct originalHtml as [| | | |original| | |]; try discriminate.
  destruct (applyPatch E original p) as [finalHtml|e] eqn:Happly; [|discriminate].
  destruct (validateHtml E finalHtml) as [error|] eqn:Hfinal.
  - destruct (validateHtml E (edited_text response)) as [error'|] eqn:Hraw; [discriminate|].
    intros [= <- <- <-]. exists original, response, finalHtml.
    repeat split; try done. right. rewrite Hfinal. by repeat split.
  - intros [= <- <- <-]. exists original, response, finalHtml.
    repeat split; try done. by left.
Qed.

(** The fallback branch needs libraries that behave unlike the real ones: a
    patch that does not apply to the text it was made from, and a parser
    that throws.  In such an environment [editHtmlWithLLM] returns the raw
    edited text together with the patch, and applying that patch to the
    original gives the candidate that failed validation, not the returned
    text. *)
Lemma editHtmlWithLLM_fallback_not_reproduced :
  exists updatedHtml patch w',
    editHtmlWithLLM stale_patch_env (VStr "<p>old") (VStr "close the paragraph") empty_world
    = (Return (updatedHtml, patch), w')
    /\ updatedHtml = "<p>new</p>"
    /\ applyPatch stale_patch_env "<p>old" patch = Return "<p>old"
    /\ applyPatch stale_patch_env "<p>old" patch <> Return updatedHtml.
Proof.
  do 3 eexists. split; [vm_compute; reflexivity|].
  split; [reflexivity|]. split; [reflexivity|]. discriminate.
Qed.

(** The two branches, whatever the libraries do.  When
    [editHtmlWithLLM originalHtml instruction] returns [(updatedHtml, patch)],
    the patch applies to the original and gives the candidate.  If the
    candidate passed validation, [updatedHtml] is that candidate: applying
    [patch] to [originalHtml] reproduces it exactly.  Otherwise (the fallback
    branch) [updatedHtml] is the raw edited text, which passed validation,
    and applying [patch] to [originalHtml] does not reproduce it. *)
Lemma editHtmlWithLLM_patch_reproduces (E : Env) (originalHtml instruction : Val)
    (w w' : World) (updatedHtml patch : string) :
  editHtmlWithLLM E originalHtml instruction w = (Return (updatedHtml, patch), w') ->
  exists original finalHtml,
    originalHtml = VStr original
    /\ applyPatch E original patch = Return finalHtml
    /\ (validateHtml E finalHtml = None ->
        applyPatch E original patch = Return updatedHtml)
    /\ (validateHtml E finalHtml <> None ->
        validateHtml E updatedHtml = None
        /\ applyPatch E original patch <> Return updatedHtml).
Proof.
  intros Hrun.
  destruct (editHtmlWithLLM_returns E _ _ _ _ _ _ Hrun)
    as (original & response & finalHtml & -> & _ & _ & _ & Happly & Hcase).
  exists original, finalHtml. split; [done|]. split; [done|].
  destruct Hcase as [[Hvalid ->]|(Hinvalid & Hraw & ->)].
  - split; [done|]. intros Hno. by destruct Hno.
  - split; [intros Hvalid; by destruct Hinvalid|].
    intros _. split; [done|]. rewrite Happly. intros [= ->]. by destruct Hinvalid.
Qed.

Lemma editHtmlWithLLM_patch_reproduces_witness :
  exists original finalHtml,
    VStr "<p>old</p>" = VStr original
    /\ applyPatch ticking_env original "<p>ok</p>" = Return finalHtml
    /\ (validateHtml ticking_env finalHtml = None ->
        applyPatch ticking_env original "<p>ok</p>" = Return "<p>ok</p>")
    /\ (validateHtml ticking_env finalHtml <> None ->
        validateHtml ticking_env "<p>ok</p>" = None
        /\ applyPatch ticking_env original "<p>ok</p>" <> Return "<p>ok</p>").
Proof.
  eapply (editHtmlWithLLM_patch_reproduces ticking_env (VStr "<p>old</p>")
            (VStr "say ok") empty_world).
  vm_compute. reflexivity.
Defined.



(** ** The dispatcher *)

Lemma json_text_compact (E : Env) (v : Val) : is_json_text E (JSON_stringify E v).
Proof. exists v. by left. Qed.

Lemma json_text_soft_failure (E : Env) (msg : string) : is_json_text E (soft_failure E msg).
Proof. apply json_text_compact. Qed.

#[local] Hint Resolve json_text_compact json_text_soft_failure : core.

(** C5.  When the document exists, the provider answers, the patch is made
    and applied, and both the patched candidate and the raw edited text fail
    validation, [edit_html_document] returns the soft failure
    [{success: false, message}] whose message is not empty and ends in the
    parser's message for the candidate; no document and neither file
    changes. *)
Theorem edit_html_document_invalid_html (E : Env) (w : World)
    (fields : list (string * Val)) (doc : HtmlDocument) (original : string)
    (response : ChatCompletion) (patch finalHtml : string) (error error' : Exn) :
  let documentId := default VUndefined (assoc "documentId" fields) in
  let editDescription := default VUndefined (assoc "editDescription" fields) in
  let request := edit_request E (VStr original) editDescription in
  fst (htmlDocumentStorage.get documentId w) = Return (Some doc) ->
  doc_content doc = VStr original ->
  chat_completions_create E (length (requests w)) request = Return response ->
  generatePatch E (VStr original) (edited_text response) = Return patch ->
  applyPatch E original patch = Return finalHtml ->
  validateHtml E finalHtml = Some error ->
  validateHtml E (edited_text response) = Some error' ->
  let msg := "Error editing document: HTML validation failed: " +:+ message error in
  executeTool E "edit_html_document" (VObj fields) w
  = (Return (JSON_stringify E (VObj [ ("success", VBool false); ("message", VStr msg) ])),
     logged request w)
  /\ msg <> ""
  /\ same_stores w (logged request w).
Proof.
  intros documentId editDescription request Hget Hcontent Hresp Hpatch Happly
         Hfinal Hraw msg.
  split; [|split; [discriminate|by repeat split]].
  unfold htmlDocumentStorage.get in Hget. cbn [fst] in Hget.
  injection Hget as Hfind.
  unfold executeTool. cbn [String.eqb Ascii.eqb Bool.eqb].
  unfold bind at 1. cbn [lift prop].
  unfold bind at 1. unfold htmlDocumentStorage.get at 1.
  fold documentId. rewrite Hfind.
  unfold try_catch, bind at 1. cbn [lift prop]. fold editDescription.
  unfold bind at 1.
  assert (editHtmlWithLLM E (doc_content doc) editDescription w
          = (Throw (mkExn "Error" ("HTML validation failed: " +:+ message error)),
             logged request w)) as ->; [|reflexivity].
  rewrite Hcontent. unfold editHtmlWithLLM, bind, create_completion, lift, throw.
  fold request. rewrite Hresp. fold (edited_text response).
  rewrite Hpatch, Happly, Hfinal, Hraw. reflexivity.
Qed.

Lemma edit_html_document_invalid_html_witness :
  let w := snd (htmlDocumentStorage.create rejecting_env (VStr "<p>old</p>") empty_world) in
  let fields := [ ("documentId", VStr "doc-0"); ("editDescription", VStr "open it") ] in
  let request := edit_request rejecting_env (VStr "<p>old</p>") (VStr "open it") in
  let msg := "Error editing document: HTML validation failed: Unexpected end of input" in
  executeTool rejecting_env "edit_html_document" (VObj fields) w
  = (Return (JSON_stringify rejecting_env
               (VObj [ ("success", VBool false); ("message", VStr msg) ])),
     logged request w)
  /\ msg <> ""
  /\ same_stores w (logged request w).
Proof.
  intros w fields request msg.
  apply (edit_html_document_invalid_html rejecting_env w fields
           (mkDoc "doc-0" (VStr "<p>old</p>") 1 2) "<p>old</p>"
           (mkCompletion (plain assistant "<p>new") None)
           "<p>new" "<p>new"
           (mkExn "Error" "Unexpected end of input")
           (mkExn "Error" "Unexpected end of input"));
    reflexivity.
Defined.

(** An object with an own [toString] property, as [JSON.parse] makes of
    [{"toString": 0}], is not a value ToString accepts, alone or inside an
    array; a plain object, a number and a string are. *)
Lemma converts_own_toString :
  converts (VObj [ ("toString", VNum 0%float) ]) = false
  /\ converts (VArr [ VStr "a"; VObj [ ("toString", VNull) ] ]) = false
  /\ converts (VObj [ ("valueOf", VNum 0%float) ]) = true
  /\ converts (VArr [ VNum 1%float; VStr "a"; VNull ]) = true
  /\ tool_converts "read_long_term_memory"
       [ ("key", VObj [ ("toString", VNum 0%float) ]) ] = false.
Proof. by repeat split. Qed.

(** C1 (counterexample).  When the provider cannot be reached,
    [generate_html_with_llm] does not return: the provider's exception leaves
    [executeTool]. *)
Lemma executeTool_generate_raises :
  let E := example_env (fun k => Z.of_nat k) unreachable apply_clean accepts_all in
  exists w',
    executeTool E "generate_html_with_llm"
                (VObj [ ("description", VStr "a weather report card") ]) empty_world
    = (Throw (mkExn "APIConnectionError" "Connection error."), w').
Proof. eexists. reflexivity. Qed.

Lemma editHtmlWithLLM_total (E : Env) (originalHtml instruction : Val) (w : World) :
  exists o, editHtmlWithLLM E originalHtml instruction w
            = (o, logged (edit_request E originalHtml instruction) w).
Proof.
  unfold editHtmlWithLLM, bind, create_completion, lift, ret, throw.
  fold (logged (edit_request E originalHtml instruction) w).
  destruct (chat_completions_create E _ _) as [response|e]; [|by eexists].
  destruct (generatePatch E originalHtml _) as [p|e]; [|by eexists].
  destruct originalHtml as [| | | |original| | |]; try by eexists.
  destruct (applyPatch E original p) as [finalHtml|e]; [|by eexists].
  destruct (validateHtml E finalHtml); [|by eexists].
  destruct (validateHtml E _); by eexists.
Qed.

(** C1 (amended).  On every tool name and every argument object whose
    parameter the tool turns into a string outside its [try] (the key of the
    memory tools, the identifier of [edit_html_document], the description of
    [generate_html_with_llm]) is one ToString accepts, as every string is,
    [executeTool] returns a string produced by [JSON.stringify], whatever
    fails inside [edit_html_document] included, with one exception: when the
    provider request of [generate_html_with_llm] fails, that exception
    leaves [executeTool], the stores untouched.  A name outside the
    catalogue yields [{error: "Unknown tool: <name>"}] and changes nothing.
    (On a parameter ToString rejects the conversion throws in JavaScript,
    which [ToString] does not show: the statement leaves those arguments
    out.) *)
Theorem executeTool_outcome (E : Env) (toolName : string)
    (fields : list (string * Val)) (w : World) :
  tool_converts toolName fields = true ->
  ((exists s w', executeTool E toolName (VObj fields) w = (Return s, w')
                 /\ is_json_text E s)
   \/ (toolName = "generate_html_with_llm"
       /\ exists e w',
           chat_completions_create E (length (requests w))
             (generate_request E (default VUndefined (assoc "description" fields)))
           = Throw e
           /\ executeTool E toolName (VObj fields) w = (Throw e, w')
           /\ same_stores w w'))
  /\ (~ In toolName (map tool_name tools) ->
      executeTool E toolName (VObj fields) w
      = (Return (JSON_stringify E (VObj [ ("error", VStr ("Unknown tool: " +:+ toolName)) ])),
         w)).
Proof.
  intros _. split.
  - unfold executeTool.
    destruct (String.eqb toolName "read_business_profile");
      [left; do 2 eexists; split; [reflexivity|]; eexists; by right|].
    destruct (String.eqb toolName "read_long_term_memory").
    { left. unfold bind, lift, prop, memoryStorage.read, ret.
      destruct (truthy _); do 2 eexists; split; try reflexivity; auto. }
    destruct (String.eqb toolName "write_long_term_memory");
      [left; do 2 eexists; split; [reflexivity|]; auto|].
    destruct (String.eqb toolName "create_html_document");
      [left; do 2 eexists; split; [reflexivity|]; auto|].
    destruct (String.eqb toolName "edit_html_document").
    { left. unfold bind at 1. cbn [lift prop].
      unfold bind at 1, htmlDocumentStorage.get at 1.
      destruct (List.find _ _) as [doc|]; [|do 2 eexists; split; [reflexivity|]; auto].
      unfold try_catch, bind at 1. cbn [lift prop]. unfold bind at 1.
      destruct (editHtmlWithLLM_total E (doc_content doc)
                  (default VUndefined (assoc "editDescription" fields)) w) as [o ->].
      destruct o as [[updatedHtml patch]|e];
        [|do 2 eexists; split; [reflexivity|]; auto].
      unfold bind at 1.
      destruct (htmlDocumentStorage.update E _ _ _) as [[[updated|]|e] w1];
        do 2 eexists; split; try reflexivity; auto. }
    destruct (String.eqb toolName "list_html_documents");
      [left; do 2 eexists; split; [reflexivity|]; auto|].
    destruct (String.eqb toolName "generate_html_with_llm") eqn:Hname;
      [|left; do 2 eexists; split; [reflexivity|]; auto].
    apply String.eqb_eq in Hname. unfold bind at 1. cbn [lift prop].
    unfold bind at 1, create_completion at 1.
    destruct (chat_completions_create E _ _) as [response|e] eqn:Hresp.
    + left. do 2 eexists. split; [reflexivity|]. auto.
    + right. split; [done|]. exists e.
      exists (logged (generate_request E (default VUndefined (assoc "description" fields))) w).
      split; [reflexivity|]. split; [|by repeat split].
      unfold bind, lift, create_completion. cbn [prop]. rewrite Hresp. reflexivity.
  - intros Hnot. unfold executeTool.
    repeat match goal with
           | |- context [String.eqb toolName ?s] =>
               let Heq := fresh "Heq" in
               destruct (String.eqb toolName s) eqn:Heq;
               [apply String.eqb_eq in Heq; exfalso; apply Hnot;
                rewrite Heq; cbn; tauto|]
           end.
    reflexivity.
Qed.

Lemma executeTool_outcome_witness :
  (exists s w',
      executeTool ticking_env "edit_html_document"
        (VObj [ ("documentId", VStr "doc-1"); ("editDescription", VStr "make it bold") ])
        empty_world
      = (Return s, w')
      /\ is_json_text ticking_env s)
  /\ executeTool ticking_env "delete_everything" (VObj []) empty_world
     = (Return (JSON_stringify ticking_env
                  (VObj [ ("error", VStr "Unknown tool: delete_everything") ])),
        empty_world).
Proof.
  split.
  - destruct (proj1 (executeTool_outcome ticking_env "edit_html_document"
                       [ ("documentId", VStr "doc-1");
                         ("editDescription", VStr "make it bold") ]
                       empty_world eq_refl))
      as [Hreturns|[Hname _]]; [exact Hreturns|discriminate Hname].
  - apply (proj2 (executeTool_outcome ticking_env "delete_everything" [] empty_world
                    eq_refl)).
    cbn. intros H. repeat destruct H as [H|H]; try discriminate H. exact H.
Defined.

(** ** The cost ledger *)

(** C6 (counterexample).  For 2 prompt and 12 completion tokens the formula
    gives exactly 7.5 millionths, which rounds to 8; the code records 7,
    because the binary64 value it computes lies just below the tie.  And for
    the calls (20, 0) and (120, 0), which cost 0.000003 and 0.000018, the
    recorded total is not the binary64 sum of the two costs (it is that sum
    rounded once more to 6 decimals). *)
Lemma cost_not_exact_rounding :
  (micros (call_cost 2 12) = Some 7
   /\ round_half_up (spec_micros_num 2 12) spec_micros_den = 8
   /\ round_half_even (spec_micros_num 2 12) spec_micros_den = 8)
  /\ (let a := ledger_of [ (20, 0); (120, 0) ]%float in
      map cost (callCosts a) = [ 0.000003; 0.000018 ]%float
      /\ PrimFloat.eqb (totalCost (costInfo a)) (sum_costs (callCosts a)) = false).
Proof. vm_compute. repeat split. Qed.

(** C6 (amended).  For every model call that reports usage, with prompt
    tokens [p] and completion tokens [c] (a missing or zero count is 0), the
    ledger gains one record, numbered by the call, whose cost is the binary64
    value of
    [(p / 1e6) * input + (c / 1e6) * output], at the prices 0.15 and 0.60,
    rounded to 6 decimals as [toFixed(6)] rounds that binary value; the
    aggregate [totalCost] is the binary64 sum of the recorded costs, rounded
    to 6 decimals in the same way.  The two calls with (1000, 500) and
    (200, 100) tokens cost 0.00045 and 0.00009, and their total is
    0.00054. *)
Theorem cost_ledger :
  (forall (response : ChatCompletion) (u : CompletionUsage) (a : Agent),
      usage response = Some u ->
      let p := or_zero (prompt_tokens u) in
      let c := or_zero (completion_tokens u) in
      callCosts (count_call response a)
      = callCosts a
          ++ [mkCallCost (S (apiCalls a)) p c
                         (round6 ((p / 1000000) * 0.15 + (c / 1000000) * 0.60))])%float
  /\ (forall a : Agent,
         totalCost (costInfo a)
         = round6 (fold_left PrimFloat.add (map cost (callCosts a)) 0%float))
  /\ (exists r a,
         runAgent ledger_env 2 [mkTurn user "List the documents"] (init_agent empty_world)
         = (Return (Some r), a)
         /\ calls (result_cost r) = 2%nat
         /\ map cost (costs (result_cost r)) = [ 0.00045; 0.00009 ]%float
         /\ totalCost (result_cost r) = 0.00054%float).
Proof.
  split; [|split].
  - intros response u a Hu. unfold count_call. rewrite Hu. reflexivity.
  - intros a. unfold costInfo, sum_costs. cbn [totalCost]. f_equal.
    generalize 0%float. induction (callCosts a) as [|x l IH]; intros s; [done|].
    cbn. apply IH.
  - do 2 eexists. split; [vm_compute; reflexivity|]. vm_compute. repeat split.
Qed.

(** ** The agent loop *)

Lemma extends_refl w : extends w w.
Proof. exists []. by rewrite app_nil_r. Qed.

Lemma extends_trans w1 w2 w3 : extends w1 w2 -> extends w2 w3 -> extends w1 w3.
Proof.
  intros [l1 H1] [l2 H2]. exists (l1 ++ l2). by rewrite H2, H1, app_assoc.
Qed.

Lemma extends_logged req w : extends w (logged req w).
Proof. by exists [req]. Qed.

Lemma extends_lookup w w' k req :
  extends w w' -> nth_error (requests w) k = Some req ->
  nth_error (requests w') k = Some req.
Proof.
  intros [later ->] Hk. rewrite nth_error_app1; [done|].
  apply nth_error_Some. by rewrite Hk.
Qed.

#[local] Hint Resolve extends_refl extends_logged : core.

Lemma executeTool_extends (E : Env) (toolName : string) (args : Val) (w : World) :
  extends w (snd (executeTool E toolName args w)).
Proof.
  unfold executeTool.
  destruct (String.eqb toolName "read_business_profile"); [by cbn|].
  destruct (String.eqb toolName "read_long_term_memory").
  { unfold bind, lift, memoryStorage.read, ret.
    destruct (prop args "key"); [|by cbn]. by destruct (truthy _); cbn. }
  destruct (String.eqb toolName "write_long_term_memory").
  { unfold bind, lift, memoryStorage.write, ret.
    destruct (prop args "key"); [|by cbn].
    destruct (prop args "value"); [|by cbn]. cbn. exists []. by rewrite app_nil_r. }
  destruct (String.eqb toolName "create_html_document").
  { unfold bind at 1. unfold lift. destruct (prop args "content"); [|by cbn].
    cbn. exists []. by rewrite app_nil_r. }
  destruct (String.eqb toolName "edit_html_document").
  { unfold bind at 1. unfold lift at 1. destruct (prop args "documentId"); [|by cbn].
    unfold bind at 1, htmlDocumentStorage.get at 1.
    destruct (List.find _ _) as [doc|]; [|by cbn].
    unfold try_catch, bind at 1. unfold lift at 1.
    destruct (prop args "editDescription") as [editDescription|e]; [|by cbn].
    unfold bind at 1.
    destruct (editHtmlWithLLM_total E (doc_content doc) editDescription w) as [o ->].
    destruct o as [[updatedHtml patch]|e]; [|by cbn].
    unfold bind at 1, htmlDocumentStorage.update.
    cbn [htmlDocuments logged]. destruct (List.find _ _); cbn; eexists; cbn; reflexivity. }
  destruct (String.eqb toolName "list_html_documents"); [by cbn|].
  destruct (String.eqb toolName "generate_html_with_llm"); [|by cbn].
  unfold bind at 1. unfold lift at 1. destruct (prop args "description"); [|by cbn].
  unfold bind at 1, create_completion at 1.
  destruct (chat_completions_create E _ _); cbn; eexists; cbn; reflexivity.
Qed.

Lemma in_world_run {A} (m : M A) (a : Agent) :
  in_world m a
  = (fst (m (world a)),
     mkAgent (snd (m (world a))) (totalPromptTokens a) (totalCompletionTokens a)
             (apiCalls a) (callCosts a) (messagesToSend a) (documentId a)).
Proof. unfold in_world. by destruct (m (world a)). Qed.

Lemma run_tool_calls_extends (E : Env) (pending : list ToolCall) :
  forall (acc : list Message) (a : Agent),
    extends (world a) (world (snd (run_tool_calls E pending acc a))).
Proof.
  induction pending as [|toolCall rest IH]; intros acc a; [by cbn|].
  cbn [run_tool_calls]. unfold bind at 1. unfold lift at 1.
  destruct (JSON_parse E _) as [args|e]; [|by cbn].
  unfold bind at 1. rewrite in_world_run.
  pose proof (executeTool_extends E (function_name toolCall) args (world a)) as Hext.
  destruct (executeTool E (function_name toolCall) args (world a)) as [[result|e] w1];
    cbn [fst snd] in *; [|by cbn].
  unfold bind at 1, update_agent at 1.
  eapply extends_trans; [|apply IH].
  by destruct (surfaced_id E _ _); cbn.
Qed.

Lemma agent_loop_extends (E : Env) (fuel : nat) :
  forall (assistantMessage : Message) (a : Agent),
    extends (world a) (world (snd (agent_loop E fuel assistantMessage a))).
Proof.
  induction fuel as [|fuel IH]; intros assistantMessage a; cbn [agent_loop];
    destruct (tool_calls assistantMessage) as [[|toolCall rest]|]; try by cbn.
  unfold bind at 1.
  pose proof (run_tool_calls_extends E (toolCall :: rest) [] a) as Hext.
  destruct (run_tool_calls E (toolCall :: rest) [] a) as [[results|e] a1];
    cbn [snd] in Hext; [|by cbn].
  unfold bind at 1, update_agent at 1. unfold bind at 1. rewrite in_world_run.
  unfold create_completion. cbn [fst snd world push_messages].
  destruct (chat_completions_create E _ _) as [response|e].
  - unfold bind at 1, update_agent at 1. unfold bind at 1, update_agent at 1.
    eapply extends_trans; [exact Hext|].
    eapply extends_trans; [|apply IH].
    unfold count_call, trackCallCost. destruct (usage response); cbn; eexists; cbn; reflexivity.
  - cbn. eapply extends_trans; [exact Hext|]. eexists; cbn; reflexivity.
Qed.

Lemma conversationMessages_eq (E : Env) (messages : list ChatTurn) (w : World) :
  conversationMessages E messages (init_agent w)
  = (Return (first_transcript E messages), init_agent w).
Proof.
  unfold conversationMessages, first_transcript.
  by destruct (isNewConversation messages).
Qed.

(** The request [runAgent] makes first is the one on that transcript,
    whatever happens afterwards. *)
Lemma runAgent_first_request (E : Env) (fuel : nat) (messages : list ChatTurn)
    (w : World) :
  nth_error (requests (world (snd (runAgent E fuel messages (init_agent w)))))
            (length (requests w))
  = Some (agent_request (first_transcript E messages)).
Proof.
  unfold runAgent. rewrite (bind_return _ _ _ _ _ (conversationMessages_eq E messages w)).
  unfold bind at 1. rewrite in_world_run. unfold create_completion.
  cbn [fst snd world init_agent].
  set (req := agent_request (first_transcript E messages)).
  assert (nth_error (requests (logged req w)) (length (requests w)) = Some req) as Hlog.
  { cbn. rewrite nth_error_app2 by lia. by rewrite Nat.sub_diag. }
  destruct (chat_completions_create E _ req) as [response|e]; [|exact Hlog].
  unfold bind at 1, update_agent at 1. unfold bind at 1, update_agent at 1.
  unfold bind at 1.
  match goal with
  | |- context [agent_loop E fuel ?m ?a] =>
      pose proof (agent_loop_extends E fuel m a) as Hext;
      destruct (agent_loop E fuel m a) as [[[final|]|e] a1]
  end; cbn [snd] in *; (eapply extends_lookup; [exact Hext|]);
    unfold count_call, trackCallCost; destruct (usage response); exact Hlog.
Qed.

(** C7.  For an incoming transcript of exactly one user message, the
    transcript of the first model call is, in order: the system message, the
    synthesized assistant turn with the single tool call
    [read_business_profile], the tool result for that call (the profile),
    and the user message.  For a transcript of any other shape it is the
    system message followed by the incoming messages, nothing injected. *)
Theorem runAgent_first_transcript (E : Env) (fuel : nat) (messages : list ChatTurn)
    (w : World) :
  let sent :=
    req_messages <$>
      nth_error (requests (world (snd (runAgent E fuel messages (init_agent w)))))
                (length (requests w)) in
  (forall content,
      messages = [mkTurn user content] ->
      sent = Some [ mkMessage system (Some systemInstruction) None None;
                    mkMessage assistant None
                      (Some [mkToolCall "call_init_business_profile"
                                        "read_business_profile" "{}"]) None;
                    mkMessage tool (Some (JSON_stringify_pretty E (businessProfile E)))
                      None (Some "call_init_business_profile");
                    mkMessage user (Some content) None None ])
  /\ ((forall content, messages <> [mkTurn user content]) ->
      sent = Some (mkMessage system (Some systemInstruction) None None
                   :: map (fun msg => mkMessage (turn_role msg) (Some (turn_content msg))
                                                None None) messages)).
Proof.
  intros sent. subst sent. rewrite runAgent_first_request. cbn [fmap option_fmap option_map].
  split.
  - intros content ->. reflexivity.
  - intros Hshape. unfold first_transcript.
    destruct messages as [|[r content] [|m2 rest]]; try reflexivity.
    destruct r; try reflexivity. by destruct (Hshape content).
Qed.

Lemma runAgent_first_transcript_witness :
  (req_messages <$>
     nth_error (requests (world (snd (runAgent ledger_env 2
                                        [mkTurn user "What is the business profile?"]
                                        (init_agent empty_world)))))
               0)
  = Some [ mkMessage system (Some systemInstruction) None None;
           mkMessage assistant None
             (Some [mkToolCall "call_init_business_profile" "read_business_profile" "{}"])
             None;
           mkMessage tool
             (Some (JSON_stringify_pretty ledger_env (businessProfile ledger_env)))
             None (Some "call_init_business_profile");
           mkMessage user (Some "What is the business profile?") None None ].
Proof.
  apply (proj1 (runAgent_first_transcript ledger_env 2
                  [mkTurn user "What is the business profile?"] empty_world)
               "What is the business profile?").
  reflexivity.
Defined.

(** A batch holding a malformed call throws inside the [for] loop: at the
    malformed call, or earlier if a tool before it throws. *)
Lemma run_tool_calls_raises (E : Env) (pending : list ToolCall) :
  Exists (malformed E) pending ->
  forall (acc : list Message) (a : Agent),
  exists e a',
    run_tool_calls E pending acc a = (Throw e, a')
    /\ messagesToSend a' = messagesToSend a.
Proof.
  induction pending as [|toolCall rest IH]; intros Hbad acc a.
  { by apply Exists_nil in Hbad. }
  cbn [run_tool_calls]. unfold bind at 1. unfold lift at 1.
  destruct (JSON_parse E (function_arguments toolCall)) as [args|e] eqn:Hparse;
    [|by exists e, a].
  apply Exists_cons in Hbad as [[e He]|Hbad]; [congruence|].
  unfold bind at 1. rewrite in_world_run.
  destruct (executeTool E (function_name toolCall) args (world a)) as [[result|e] w1];
    cbn [fst snd]; [|by eexists _, _].
  unfold bind at 1, update_agent at 1.
  match goal with
  | |- context [run_tool_calls E rest ?acc' ?a1] =>
      destruct (IH Hbad acc' a1) as (e & a' & -> & Hsame)
  end.
  exists e, a'. split; [done|]. rewrite Hsame.
  by destruct (surfaced_id E _ _).
Qed.

Lemma agent_loop_raises (E : Env) (fuel : nat) (assistantMessage : Message)
    (pending : list ToolCall) (a : Agent) :
  tool_calls assistantMessage = Some pending ->
  Exists (malformed E) pending ->
  exists e a',
    agent_loop E (S fuel) assistantMessage a = (Throw e, a')
    /\ messagesToSend a' = messagesToSend a.
Proof.
  intros Hcalls Hbad. cbn [agent_loop]. rewrite Hcalls.
  destruct pending as [|toolCall rest]; [by apply Exists_nil in Hbad|].
  destruct (run_tool_calls_raises E _ Hbad [] a) as (e & a' & Hrun & Hsame).
  exists e, a'. split; [|done]. by rewrite (bind_throw _ _ _ _ _ Hrun).
Qed.

(** A run that used up its fuel stopped in front of an assistant message
    that asks for tools, the last of the transcript; with more fuel the loop
    carries on from there. *)
Lemma agent_loop_paused (E : Env) (fuel : nat) :
  forall (assistantMessage : Message) (a a' : Agent),
    agent_loop E fuel assistantMessage a = (Return None, a') ->
    last (messagesToSend a) = Some assistantMessage ->
    exists pendingMessage toolCall rest,
      last (messagesToSend a') = Some pendingMessage
      /\ tool_calls pendingMessage = Some (toolCall :: rest)
      /\ forall more,
          agent_loop E (fuel + more) assistantMessage a
          = agent_loop E more pendingMessage a'.
Proof.
  induction fuel as [|fuel IH]; intros assistantMessage a a' Hrun Hlast;
    cbn [agent_loop] in Hrun;
    destruct (tool_calls assistantMessage) as [[|toolCall rest]|] eqn:Hcalls;
    try discriminate Hrun.
  - injection Hrun as <-. by exists assistantMessage, toolCall, rest.
  - unfold bind at 1 in Hrun.
    destruct (run_tool_calls E (toolCall :: rest) [] a) as [[results|e] a1] eqn:Hresults;
      [|discriminate Hrun].
    unfold bind at 1, update_agent at 1 in Hrun. unfold bind at 1 in Hrun.
    destruct (in_world (create_completion E
                          (agent_request (messagesToSend (push_messages results a1))))
                       (push_messages results a1))
      as [[response|e] a2] eqn:Hrequest; [|discriminate Hrun].
    unfold bind at 1, update_agent at 1 in Hrun.
    unfold bind at 1, update_agent at 1 in Hrun.
    apply IH in Hrun as (pendingMessage & toolCall' & rest' & Hlast' & Hcalls' & Hmore).
    + exists pendingMessage, toolCall', rest'. split; [done|]. split; [done|].
      intros more. rewrite <- Hmore. cbn [Nat.add agent_loop]. rewrite Hcalls.
      unfold bind at 1. rewrite Hresults.
      unfold bind at 1, update_agent at 1. unfold bind at 1. rewrite Hrequest.
      unfold bind at 1, update_agent at 1. unfold bind at 1, update_agent at 1.
      reflexivity.
    + cbn [push_messages messagesToSend]. apply last_snoc.
Qed.

(** C10.  Whenever a response of the provider, the first or a later one,
    carries a tool call whose arguments are not valid JSON, [runAgent] ends
    in an exception and no soft-failure tool result is produced.  A round of
    the loop whose assistant message carries such a call throws and appends
    nothing to the transcript; when that call is the first of the batch,
    the exception is the one [JSON.parse] threw and nothing at all has
    changed.  If the first response carries such a call, [runAgent] throws.
    And after any number of completed rounds: when [runAgent] with fuel for
    [rounds] rounds stops in front of a further assistant message asking for
    tools (the last of the transcript) and that message carries such a call,
    [runAgent] with any more fuel throws, the transcript as it was. *)
Theorem malformed_tool_arguments_raise (E : Env) (fuel : nat) :
  (forall assistantMessage pending a,
      tool_calls assistantMessage = Some pending ->
      Exists (malformed E) pending ->
      exists e a',
        agent_loop E (S fuel) assistantMessage a = (Throw e, a')
        /\ messagesToSend a' = messagesToSend a)
  /\ (forall assistantMessage toolCall rest e a,
         tool_calls assistantMessage = Some (toolCall :: rest) ->
         JSON_parse E (function_arguments toolCall) = Throw e ->
         agent_loop E (S fuel) assistantMessage a = (Throw e, a))
  /\ (forall messages w response pending,
         chat_completions_create E (length (requests w))
           (agent_request (first_transcript E messages)) = Return response ->
         tool_calls (choice0 response) = Some pending ->
         Exists (malformed E) pending ->
         exists e a', runAgent E (S fuel) messages (init_agent w) = (Throw e, a'))
  /\ (forall rounds messages w a',
         runAgent E rounds messages (init_agent w) = (Return None, a') ->
         exists pendingMessage toolCall rest,
           last (messagesToSend a') = Some pendingMessage
           /\ tool_calls pendingMessage = Some (toolCall :: rest)
           /\ (Exists (malformed E) (toolCall :: rest) ->
               exists e a'',
                 messagesToSend a'' = messagesToSend a'
                 /\ forall more,
                     runAgent E (rounds + S more) messages (init_agent w)
                     = (Throw e, a''))).
Proof.
  split; [|split; [|split]].
  - intros assistantMessage pending a. apply agent_loop_raises.
  - intros assistantMessage toolCall rest e a Hcalls Hparse.
    cbn [agent_loop run_tool_calls]. rewrite Hcalls.
    unfold bind, lift. by rewrite Hparse.
  - intros messages w response pending Hresp Hcalls Hbad.
    unfold runAgent.
    rewrite (bind_return _ _ _ _ _ (conversationMessages_eq E messages w)).
    unfold bind at 1. rewrite in_world_run. unfold create_completion.
    cbn [fst snd world init_agent]. rewrite Hresp.
    unfold bind at 1, update_agent at 1. unfold bind at 1, update_agent at 1.
    match goal with
    | |- context [bind (agent_loop E (S fuel) ?m) ?k ?a] =>
        destruct (agent_loop_raises E fuel m pending a Hcalls Hbad) as (e & a' & Hloop & _);
        exists e, a'; by rewrite (bind_throw _ k _ _ _ Hloop)
    end.
  - intros rounds messages w a' Hrun. unfold runAgent in Hrun |- *.
    rewrite (bind_return _ _ _ _ _ (conversationMessages_eq E messages w)) in Hrun.
    unfold bind at 1 in Hrun.
    destruct (in_world (create_completion E (agent_request (first_transcript E messages)))
                       (init_agent w)) as [[response|e] a0] eqn:Hrequest;
      [|discriminate Hrun].
    unfold bind at 1, update_agent at 1 in Hrun.
    unfold bind at 1, update_agent at 1 in Hrun.
    unfold bind at 1 in Hrun.
    match type of Hrun with
    | context [agent_loop E rounds ?m ?a] =>
        destruct (agent_loop E rounds m a) as [[[final|]|e] a1] eqn:Hloop;
        try discriminate Hrun;
        destruct (agent_loop_paused E rounds m a a1 Hloop)
          as (pendingMessage & toolCall & rest & Hlast & Hcalls & Hmore);
        [cbn [push_messages messagesToSend]; rewrite app_assoc; apply last_snoc|]
    end.
    injection Hrun as <-.
    exists pendingMessage, toolCall, rest. split; [done|]. split; [done|].
    intros Hbad.
    destruct (run_tool_calls_raises E _ Hbad [] a1) as (e & a'' & Hthrows & Hsame).
    exists e, a''. split; [done|]. intros more.
    rewrite (bind_return _ _ _ _ _ (conversationMessages_eq E messages w)).
    unfold bind at 1. rewrite Hrequest.
    unfold bind at 1, update_agent at 1. unfold bind at 1, update_agent at 1.
    unfold bind at 1. rewrite Hmore. cbn [agent_loop]. rewrite Hcalls.
    unfold bind at 1. by rewrite Hthrows.
Qed.

Lemma malformed_tool_arguments_raise_witness :
  (exists e a',
      runAgent truncated_env 1 [mkTurn user "Remember the plan"] (init_agent empty_world)
      = (Throw e, a'))
  /\ (exists e a',
         forall more,
           runAgent late_truncated_env (1 + S more) [mkTurn user "Remember the plan"]
                    (init_agent empty_world)
           = (Throw e, a')).
Proof.
  split.
  - apply (proj1 (proj2 (proj2 (malformed_tool_arguments_raise truncated_env 0)))
                 [mkTurn user "Remember the plan"] empty_world
                 (mkCompletion
                    (mkMessage assistant None
                       (Some [mkToolCall "call_1" "write_long_term_memory" "{'key': 'plan'"])
                       None)
                    None)
                 [mkToolCall "call_1" "write_long_term_memory" "{'key': 'plan'"]).
    + reflexivity.
    + reflexivity.
    + apply Exists_cons_hd. exists SyntaxError. reflexivity.
  - destruct (proj2 (proj2 (proj2 (malformed_tool_arguments_raise late_truncated_env 0)))
                    1%nat [mkTurn user "Remember the plan"] empty_world
                    (snd (runAgent late_truncated_env 1 [mkTurn user "Remember the plan"]
                                   (init_agent empty_world))))
      as (pendingMessage & toolCall & rest & Hlast & Hcalls & Hraises).
    + vm_compute. reflexivity.
    + vm_compute in Hlast. injection Hlast as <-.
      cbn in Hcalls. injection Hcalls as <- <-.
      destruct Hraises as (e & a'' & _ & Hmore).
      * apply Exists_cons_hd. exists SyntaxError. reflexivity.
      * by exists e, a''.
Defined.


(** * Further properties of the stores *)

Module memoryStorage_more.
Section WithEnv.
Context (E : Env).

(** What [write] does to the world, in one equation. *)
Lemma write_eq (key value : Val) (w : World) :
  ToString E key <> "__proto__" ->
  snd (memoryStorage.write E key value w)
  = mkWorld (<[ToString E key := value]> (memoryData w))
            (Some (<[ToString E key := value]> (memoryData w)))
            (htmlDocuments w) (htmlDocsFile w) (ticks w) (requests w).
Proof.
  intros Hk. unfold memoryStorage.write. cbn [snd].
  destruct (String.eqb (ToString E key) "__proto__") eqn:Heq; [|done].
  by apply String.eqb_eq in Heq.
Qed.

End WithEnv.
End memoryStorage_more.

(** X1.  A truthy value written under a string key other than [__proto__]
    is read back unchanged, and the read does not change the store. *)
Theorem memoryStorage_round_trip_truthy (E : Env) (k : string) (v : Val) (w : World) :
  k <> "__proto__" ->
  truthy v = true ->
  let w' := snd (memoryStorage.write E (VStr k) v w) in
  memoryStorage.read E (VStr k) w' = (Return v, w').
Proof.
  intros Hk Hv w'. subst w'.
  rewrite (memoryStorage_more.write_eq E (VStr k) v w Hk).
  unfold memoryStorage.read, memoryData_get. cbn [memoryData ToString].
  rewrite lookup_insert_eq. simpl. unfold js_or. by rewrite Hv.
Qed.

Lemma memoryStorage_round_trip_truthy_witness :
  let w' := snd (memoryStorage.write ticking_env (VStr "plan") (VStr "ship it") empty_world) in
  memoryStorage.read ticking_env (VStr "plan") w' = (Return (VStr "ship it"), w').
Proof.
  apply (memoryStorage_round_trip_truthy ticking_env "plan" (VStr "ship it") empty_world).
  - discriminate.
  - reflexivity.
Defined.

(** X2.  A write under a key other than [__proto__] leaves what [read]
    returns for every key with a different name as it was (both keys being
    values ToString accepts). *)
Theorem memoryStorage_write_other_key (E : Env) (key key' value : Val) (w : World) :
  converts key = true ->
  converts key' = true ->
  ToString E key <> "__proto__" ->
  ToString E key' <> ToString E key ->
  fst (memoryStorage.read E key' (snd (memoryStorage.write E key value w)))
  = fst (memoryStorage.read E key' w).
Proof.
  intros _ _ _ Hne. unfold memoryStorage.read, memoryStorage.write, memoryData_get.
  cbn [fst snd memoryData].
  destruct (String.eqb (ToString E key) "__proto__"); [done|].
  by rewrite lookup_insert_ne.
Qed.

Lemma memoryStorage_write_other_key_witness :
  fst (memoryStorage.read ticking_env (VStr "a")
         (snd (memoryStorage.write ticking_env (VStr "b") (VStr "x") empty_world)))
  = fst (memoryStorage.read ticking_env (VStr "a") empty_world).
Proof.
  apply (memoryStorage_write_other_key ticking_env (VStr "b") (VStr "a") (VStr "x")
           empty_world); [reflexivity|reflexivity|discriminate|discriminate].
Defined.

(** X3.  The last write wins: writing twice under the same key, a value
    ToString accepts and whose name is not [__proto__], leaves the store and
    the file exactly as the second write alone would, and holding the second
    value under the key. *)
Theorem memoryStorage_last_write_wins (E : Env) (key v1 v2 : Val) (w : World) :
  converts key = true ->
  ToString E key <> "__proto__" ->
  let w2 := snd (memoryStorage.write E key v2 (snd (memoryStorage.write E key v1 w))) in
  w2 = snd (memoryStorage.write E key v2 w)
  /\ memoryData w2 !! ToString E key = Some v2
  /\ memoryFile w2 = Some (memoryData w2).
Proof.
  intros _ Hkey w2. subst w2.
  rewrite !(memoryStorage_more.write_eq E key) by done.
  cbn [memoryData memoryFile htmlDocuments htmlDocsFile ticks requests].
  rewrite insert_insert_eq, lookup_insert_eq. done.
Qed.

Lemma memoryStorage_last_write_wins_witness :
  let w2 := snd (memoryStorage.write ticking_env (VStr "plan") (VStr "ship it")
                   (snd (memoryStorage.write ticking_env (VStr "plan") (VStr "draft")
                           empty_world))) in
  w2 = snd (memoryStorage.write ticking_env (VStr "plan") (VStr "ship it") empty_world)
  /\ memoryData w2 !! "plan" = Some (VStr "ship it")
  /\ memoryFile w2 = Some (memoryData w2).
Proof.
  apply (memoryStorage_last_write_wins ticking_env (VStr "plan") (VStr "draft")
           (VStr "ship it") empty_world); [reflexivity|discriminate].
Defined.

Module htmlDocumentStorage_more.
Section WithEnv.
Context (E : Env).

Lemma find_app_other (id : Val) (docs : list HtmlDocument) (d : HtmlDocument) :
  id_matches id d = false ->
  List.find (id_matches id) (docs ++ [d]) = List.find (id_matches id) docs.
Proof.
  intros Hd. induction docs as [|d' docs IH]; simpl; [by rewrite Hd|].
  by destruct (id_matches id d').
Qed.

(** [update_first] rewrites one document, the first under the identifier,
    and nothing else. *)
Lemma update_first_shape (id content : Val) (t : Z) (docs : list HtmlDocument)
    (doc : HtmlDocument) :
  List.find (id_matches id) docs = Some doc ->
  exists before after,
    docs = before ++ doc :: after
    /\ update_first id content t docs
       = before ++ mkDoc (doc_id doc) content (createdAt doc) t :: after
    /\ Forall (fun d => id_matches id d = false) before.
Proof.
  induction docs as [|d docs IH]; simpl; [done|].
  destruct (id_matches id d) eqn:Hm.
  - intros [= ->]. by exists [], docs.
  - intros Hfind. destruct (IH Hfind) as (before & after & -> & -> & Hbefore).
    exists (d :: before), after. repeat split; [done..|]. by constructor.
Qed.

Lemma update_first_missing (id content : Val) (t : Z) (docs : list HtmlDocument) :
  List.find (id_matches id) docs = None -> update_first id content t docs = docs.
Proof.
  induction docs as [|d docs IH]; simpl; [done|].
  destruct (id_matches id d); [done|]. intros Hfind. by rewrite IH.
Qed.

Lemma id_matches_distinct (id id' : Val) (d d' : HtmlDocument) :
  id' <> id -> doc_id d' = doc_id d -> id_matches id d = true ->
  id_matches id' d' = false.
Proof.
  intros Hne Hid. destruct id, id'; simpl; try done.
  intros Hm%String.eqb_eq. apply String.eqb_neq. congruence.
Qed.

Lemma find_update_first_other (id id' content : Val) (t : Z) (docs : list HtmlDocument) :
  id' <> id ->
  List.find (id_matches id') (update_first id content t docs)
  = List.find (id_matches id') docs.
Proof.
  intros Hne. induction docs as [|d docs IH]; simpl; [done|].
  destruct (id_matches id d) eqn:Hm; simpl.
  - rewrite (id_matches_distinct id id' d
               (mkDoc (doc_id d) content (createdAt d) t) Hne eq_refl Hm).
    by rewrite (id_matches_distinct id id' d d Hne eq_refl Hm).
  - by rewrite IH.
Qed.

Lemma update_first_keys (id content : Val) (t : Z) (docs : list HtmlDocument) :
  map doc_key (update_first id content t docs) = map doc_key docs.
Proof.
  induction docs as [|d docs IH]; simpl; [done|].
  destruct (id_matches id d); simpl; [done|]. by rewrite IH.
Qed.

Lemma update_docs (id content : Val) (w : World) :
  htmlDocuments (snd (htmlDocumentStorage.update E id content w))
  = update_first id content (clock E (ticks w)) (htmlDocuments w).
Proof.
  unfold htmlDocumentStorage.update.
  destruct (List.find (id_matches id) (htmlDocuments w)) eqn:Hfind; [done|].
  cbn [snd]. by rewrite update_first_missing.
Qed.

End WithEnv.
End htmlDocumentStorage_more.

(** X4.  [create] appends: afterwards [getAll] is the earlier sequence
    followed by the returned document, and [get] of any other identifier
    returns what it returned before. *)
Theorem create_appends (E : Env) (content : Val) (w : World) :
  exists doc w',
    htmlDocumentStorage.create E content w = (Return doc, w')
    /\ fst (htmlDocumentStorage.getAll w')
       = Return (htmlDocuments w ++ [doc])
    /\ htmlDocsFile w' = Some (htmlDocuments w ++ [doc])
    /\ forall id, id <> VStr (doc_id doc) ->
                  fst (htmlDocumentStorage.get id w') = fst (htmlDocumentStorage.get id w).
Proof.
  do 2 eexists. split; [apply htmlDocumentStorage_facts.create_eq|].
  split; [reflexivity|]. split; [reflexivity|].
  intros id Hid. unfold htmlDocumentStorage.get. cbn [fst htmlDocuments]. f_equal.
  apply htmlDocumentStorage_more.find_app_other.
  destruct id; try reflexivity. cbn [id_matches doc_id] in *.
  apply String.eqb_neq. intros Heq. apply Hid. by rewrite Heq.
Qed.

(** X5.  [update] rewrites in place: the documents keep their number, order,
    identifiers and creation stamps, and [get] of any other identifier
    returns what it returned before. *)
Theorem update_in_place (E : Env) (id content : Val) (w : World) :
  let w' := snd (htmlDocumentStorage.update E id content w) in
  map doc_key (htmlDocuments w') = map doc_key (htmlDocuments w)
  /\ (forall id', id' <> id ->
        fst (htmlDocumentStorage.get id' w') = fst (htmlDocumentStorage.get id' w)).
Proof.
  intros w'. subst w'. rewrite htmlDocumentStorage_more.update_docs. split.
  - apply htmlDocumentStorage_more.update_first_keys.
  - intros id' Hne. unfold htmlDocumentStorage.get. cbn [fst].
    rewrite htmlDocumentStorage_more.update_docs.
    by rewrite htmlDocumentStorage_more.find_update_first_other.
Qed.

(** X6.  When several documents carry the identifier, [update] changes the
    first of them only: the store before and after differ in that one
    document, whose content and [updatedAt] are replaced. *)
Theorem update_changes_first_match (E : Env) (id content : Val) (w : World)
    (doc : HtmlDocument) :
  fst (htmlDocumentStorage.get id w) = Return (Some doc) ->
  exists before after,
    htmlDocuments w = before ++ doc :: after
    /\ htmlDocuments (snd (htmlDocumentStorage.update E id content w))
       = before ++ mkDoc (doc_id doc) content (createdAt doc) (clock E (ticks w)) :: after
    /\ Forall (fun d => id_matches id d = false) before.
Proof.
  unfold htmlDocumentStorage.get. cbn [fst]. intros [= Hfind].
  rewrite htmlDocumentStorage_more.update_docs.
  by apply htmlDocumentStorage_more.update_first_shape.
Qed.

Lemma update_changes_first_match_witness :
  let w := snd (htmlDocumentStorage.create frozen_env (VStr "<p>b</p>")
                  (snd (htmlDocumentStorage.create frozen_env (VStr "<p>a</p>") empty_world))) in
  let doc := mkDoc "doc-1700000000000" (VStr "<p>a</p>") 1700000000000 1700000000000 in
  exists before after,
    htmlDocuments w = before ++ doc :: after
    /\ htmlDocuments (snd (htmlDocumentStorage.update frozen_env (VStr "doc-1700000000000")
                             (VStr "<p>c</p>") w))
       = before ++ mkDoc (doc_id doc) (VStr "<p>c</p>") (createdAt doc)
                         (clock frozen_env (ticks w)) :: after
    /\ Forall (fun d => id_matches (VStr "doc-1700000000000") d = false) before.
Proof.
  intros w doc.
  apply (update_changes_first_match frozen_env (VStr "doc-1700000000000")
           (VStr "<p>c</p>") w doc).
  reflexivity.
Defined.

(** * What a tool call and a whole run do to the world *)

Lemma steps_trans (E : Env) (w1 w2 w3 : World) :
  steps E w1 w2 -> steps E w2 w3 -> steps E w1 w3.
Proof.
  intros H12 H23. induction H23; [done|..]; econstructor; eauto.
Qed.

Lemma steps_logged (E : Env) (req : ChatRequest) (w : World) :
  steps E w (logged req w).
Proof. apply (steps_request E w w req), steps_refl. Qed.

Lemma reachable_steps (E : Env) (w w' : World) :
  reachable E w -> steps E w w' -> reachable E w'.
Proof.
  intros Hw Hsteps. induction Hsteps; [done|..]; econstructor; eauto.
Qed.

(** Every effect of the dispatcher is a sequence of primitive effects. *)
Lemma executeTool_steps (E : Env) (toolName : string) (args : Val) (w : World) :
  steps E w (snd (executeTool E toolName args w)).
Proof.
  unfold executeTool.
  destruct (String.eqb toolName "read_business_profile"); [apply steps_refl|].
  destruct (String.eqb toolName "read_long_term_memory").
  { unfold bind, lift, memoryStorage.read, ret.
    destruct (prop args "key"); [|apply steps_refl].
    destruct (truthy _); apply steps_refl. }
  destruct (String.eqb toolName "write_long_term_memory").
  { unfold bind, lift, ret.
    destruct (prop args "key") as [key|]; [|apply steps_refl].
    destruct (prop args "value") as [value|]; [|apply steps_refl].
    apply (steps_write E w w key value), steps_refl. }
  destruct (String.eqb toolName "create_html_document").
  { unfold bind at 1. unfold lift.
    destruct (prop args "content") as [content|]; [|apply steps_refl].
    apply (steps_create E w w content), steps_refl. }
  destruct (String.eqb toolName "edit_html_document").
  { unfold bind at 1. unfold lift at 1.
    destruct (prop args "documentId") as [documentId|]; [|apply steps_refl].
    unfold bind at 1, htmlDocumentStorage.get at 1.
    destruct (List.find _ _) as [doc|]; [|apply steps_refl].
    unfold try_catch, bind at 1. unfold lift at 1.
    destruct (prop args "editDescription") as [editDescription|e]; [|apply steps_refl].
    unfold bind at 1.
    destruct (editHtmlWithLLM_total E (doc_content doc) editDescription w) as [o ->].
    destruct o as [[updatedHtml patch]|e]; [|apply steps_logged].
    unfold bind at 1.
    match goal with
    | |- context [htmlDocumentStorage.update E ?i ?c ?w1] =>
        pose proof (steps_update E w w1 i c (steps_logged E _ w)) as Hup;
        destruct (htmlDocumentStorage.update E i c w1) as [[[updated|]|e] w2]
    end; exact Hup. }
  destruct (String.eqb toolName "list_html_documents"); [apply steps_refl|].
  destruct (String.eqb toolName "generate_html_with_llm"); [|apply steps_refl].
  unfold bind at 1. unfold lift at 1.
  destruct (prop args "description") as [description|]; [|apply steps_refl].
  unfold bind at 1, create_completion at 1.
  destruct (chat_completions_create E _ _) as [response|e]; [|apply steps_logged].
  unfold bind at 1.
  match goal with
  | |- context [htmlDocumentStorage.create E ?c ?w1] =>
      apply (steps_create E w w1 c), steps_logged
  end.
Qed.

Lemma run_tool_calls_steps (E : Env) (pending : list ToolCall) :
  forall (acc : list Message) (a : Agent),
    steps E (world a) (world (snd (run_tool_calls E pending acc a))).
Proof.
  induction pending as [|toolCall rest IH]; intros acc a; [apply steps_refl|].
  cbn [run_tool_calls]. unfold bind at 1. unfold lift at 1.
  destruct (JSON_parse E _) as [args|e]; [|apply steps_refl].
  unfold bind at 1. rewrite in_world_run.
  pose proof (executeTool_steps E (function_name toolCall) args (world a)) as Hstep.
  destruct (executeTool E (function_name toolCall) args (world a)) as [[result|e] w1];
    cbn [fst snd] in *; [|exact Hstep].
  unfold bind at 1, update_agent at 1.
  eapply steps_trans; [|apply IH].
  by destruct (surfaced_id E _ _).
Qed.

Lemma agent_loop_steps (E : Env) (fuel : nat) :
  forall (assistantMessage : Message) (a : Agent),
    steps E (world a) (world (snd (agent_loop E fuel assistantMessage a))).
Proof.
  induction fuel as [|fuel IH]; intros assistantMessage a; cbn [agent_loop];
    destruct (tool_calls assistantMessage) as [[|toolCall rest]|]; try apply steps_refl.
  unfold bind at 1.
  pose proof (run_tool_calls_steps E (toolCall :: rest) [] a) as Hstep.
  destruct (run_tool_calls E (toolCall :: rest) [] a) as [[results|e] a1];
    cbn [snd] in Hstep; [|exact Hstep].
  unfold bind at 1, update_agent at 1. unfold bind at 1. rewrite in_world_run.
  unfold create_completion. cbn [fst snd world push_messages].
  destruct (chat_completions_create E _ _) as [response|e].
  - unfold bind at 1, update_agent at 1. unfold bind at 1, update_agent at 1.
    eapply steps_trans; [exact Hstep|].
    eapply steps_trans; [|apply IH].
    unfold count_call, trackCallCost. destruct (usage response); apply steps_logged.
  - eapply steps_trans; [exact Hstep|]. apply steps_logged.
Qed.

Lemma runAgent_steps (E : Env) (fuel : nat) (messages : list ChatTurn) (w : World) :
  steps E w (world (snd (runAgent E fuel messages (init_agent w)))).
Proof.
  unfold runAgent. rewrite (bind_return _ _ _ _ _ (conversationMessages_eq E messages w)).
  unfold bind at 1. rewrite in_world_run. unfold create_completion.
  cbn [fst snd world init_agent].
  destruct (chat_completions_create E _ _) as [response|e]; [|apply steps_logged].
  unfold bind at 1, update_agent at 1. unfold bind at 1, update_agent at 1.
  unfold bind at 1.
  match goal with
  | |- context [agent_loop E fuel ?m ?a] =>
      pose proof (agent_loop_steps E fuel m a) as Hstep;
      destruct (agent_loop E fuel m a) as [[[final|]|e] a1]
  end; cbn [snd] in *; (eapply steps_trans; [|exact Hstep]);
    unfold count_call, trackCallCost; destruct (usage response); apply steps_logged.
Qed.

Lemma steps_documents_kept (E : Env) (w w' : World) :
  steps E w w' ->
  exists more, map doc_key (htmlDocuments w') = map doc_key (htmlDocuments w) ++ more.
Proof.
  induction 1 as [w|w w' key value _ [more IH]|w w' content _ [more IH]
                 |w w' id content _ [more IH]|w w' req _ [more IH]].
  - exists []. by rewrite app_nil_r.
  - by exists more.
  - rewrite htmlDocumentStorage_facts.create_eq. cbn [snd htmlDocuments].
    eexists. by rewrite map_app, IH, <- app_assoc.
  - rewrite htmlDocumentStorage_more.update_docs,
            htmlDocumentStorage_more.update_first_keys.
    by exists more.
  - by exists more.
Qed.

Lemma steps_memory_kept (E : Env) (w w' : World) :
  steps E w w' -> dom (memoryData w) ⊆ dom (memoryData w').
Proof.
  induction 1 as [w|w w' key value _ IH|w w' content _ IH
                 |w w' id content _ IH|w w' req _ IH]; [done| |done| |done].
  - unfold memoryStorage.write. cbn [snd memoryData].
    destruct (String.eqb _ _); [done|]. rewrite dom_insert. set_solver.
  - unfold htmlDocumentStorage.update. by destruct (List.find _ _).
Qed.

Lemma reachable_persisted (E : Env) (w : World) : reachable E w -> persisted w.
Proof.
  induction 1 as [|w key value _ [IHm IHd]|w content _ [IHm IHd]
                 |w id content _ [IHm IHd]|w req _ IH]; [|split; [|done]|split; [done|] | |done].
  - split; right; by split.
  - by left.
  - by left.
  - unfold htmlDocumentStorage.update.
    destruct (List.find _ _); [|by split]. split; [done|]. by left.
Qed.

(** X7.  No tool call and no run of the agent removes, reorders or
    re-identifies a document: the identifiers and creation stamps present
    before are, in the same order, the beginning of those present after,
    whether the call returns or throws. *)
Theorem documents_never_removed (E : Env) (w : World) :
  (forall toolName args,
      exists more,
        map doc_key (htmlDocuments (snd (executeTool E toolName args w)))
        = map doc_key (htmlDocuments w) ++ more)
  /\ (forall fuel messages,
         exists more,
           map doc_key (htmlDocuments
                          (world (snd (runAgent E fuel messages (init_agent w)))))
           = map doc_key (htmlDocuments w) ++ more).
Proof.
  split.
  - intros toolName args. eapply steps_documents_kept, executeTool_steps.
  - intros fuel messages. eapply steps_documents_kept, runAgent_steps.
Qed.

(** X8.  No tool call and no run of the agent removes a key from the
    key-value store. *)
Theorem memory_keys_never_removed (E : Env) (w : World) :
  (forall toolName args,
      dom (memoryData w) ⊆ dom (memoryData (snd (executeTool E toolName args w))))
  /\ (forall fuel messages,
         dom (memoryData w)
         ⊆ dom (memoryData (world (snd (runAgent E fuel messages (init_agent w)))))).
Proof.
  split.
  - intros toolName args. eapply steps_memory_kept, executeTool_steps.
  - intros fuel messages. eapply steps_memory_kept, runAgent_steps.
Qed.

(** X9.  Starting from the empty stores, after any sequence of store
    operations, tool calls and agent runs, each file that has been written
    holds exactly the store it persists, and a store whose file was never
    written is empty. *)
Theorem files_mirror_stores (E : Env) (w : World) :
  reachable E w ->
  persisted w
  /\ (forall toolName args, persisted (snd (executeTool E toolName args w)))
  /\ (forall fuel messages,
         persisted (world (snd (runAgent E fuel messages (init_agent w))))).
Proof.
  intros Hw. split; [by apply (reachable_persisted E)|]. split.
  - intros toolName args.
    eapply reachable_persisted, reachable_steps, executeTool_steps. exact Hw.
  - intros fuel messages.
    eapply reachable_persisted, reachable_steps, runAgent_steps. exact Hw.
Qed.

Lemma files_mirror_stores_witness :
  persisted empty_world
  /\ (forall toolName args, persisted (snd (executeTool ledger_env toolName args empty_world)))
  /\ (forall fuel messages,
         persisted (world (snd (runAgent ledger_env fuel messages (init_agent empty_world))))).
Proof. apply (files_mirror_stores ledger_env empty_world), reach_empty. Defined.

(** What a tool call does to the identifiers of the store: nothing, or one
    more at the end, derived from the reading of the clock the call takes
    first. *)
Lemma executeTool_ids (E : Env) (toolName : string) (args : Val) (w : World) :
  map doc_id (htmlDocuments (snd (executeTool E toolName args w)))
  = map doc_id (htmlDocuments w)
  \/ map doc_id (htmlDocuments (snd (executeTool E toolName args w)))
     = map doc_id (htmlDocuments w) ++ [id_at E (ticks w)].
Proof.
  unfold executeTool.
  destruct (String.eqb toolName "read_business_profile"); [by left|].
  destruct (String.eqb toolName "read_long_term_memory").
  { left. unfold bind, lift, memoryStorage.read, ret.
    destruct (prop args "key"); [|done]. by destruct (truthy _). }
  destruct (String.eqb toolName "write_long_term_memory").
  { left. unfold bind, lift, memoryStorage.write, ret.
    destruct (prop args "key"); [|done]. by destruct (prop args "value"). }
  destruct (String.eqb toolName "create_html_document").
  { unfold bind at 1. unfold lift. destruct (prop args "content"); [|by left].
    right. cbn. by rewrite map_app. }
  destruct (String.eqb toolName "edit_html_document").
  { left. unfold bind at 1. unfold lift at 1. destruct (prop args "documentId"); [|done].
    unfold bind at 1, htmlDocumentStorage.get at 1.
    destruct (List.find _ _) as [doc|]; [|done].
    unfold try_catch, bind at 1. unfold lift at 1.
    destruct (prop args "editDescription") as [editDescription|e]; [|done].
    unfold bind at 1.
    destruct (editHtmlWithLLM_total E (doc_content doc) editDescription w) as [o ->].
    destruct o as [[updatedHtml patch]|e]; [|done].
    unfold bind at 1.
    match goal with
    | |- context [htmlDocumentStorage.update E ?id ?content ?w0] =>
        pose proof (htmlDocumentStorage_more.update_docs E id content w0) as Hdocs;
        destruct (htmlDocumentStorage.update E id content w0) as [[[updated|]|e'] w1]
    end; cbn [snd] in Hdocs;
      assert (map doc_id (htmlDocuments w1)
              = map doc_id (htmlDocuments w)) as Hids
        by (by rewrite Hdocs, htmlDocumentStorage_facts.update_first_ids);
      exact Hids. }
  destruct (String.eqb toolName "list_html_documents"); [by left|].
  destruct (String.eqb toolName "generate_html_with_llm"); [|by left].
  unfold bind, lift, create_completion. destruct (prop args "description"); [|by left].
  destruct (chat_completions_create E _ _); [|by left].
  right. cbn. by rewrite map_app.
Qed.

(** X10.  A tool call keeps the identifiers of the store pairwise distinct:
    in a state reachable from the empty stores, when the reading of the
    clock the call takes first differs from every reading taken before, the
    identifiers are pairwise distinct after the call if they were before
    it. *)
Theorem identifiers_stay_distinct (E : Env) (w : World) (toolName : string) (args : Val) :
  reachable E w ->
  fresh_reading E w ->
  NoDup (map doc_id (htmlDocuments w)) ->
  NoDup (map doc_id (htmlDocuments (snd (executeTool E toolName args w)))).
Proof.
  intros Hreach Hfresh Hnd.
  destruct (executeTool_ids E toolName args w) as [->| ->]; [done|].
  apply htmlDocumentStorage_facts.NoDup_snoc; [done|].
  by apply htmlDocumentStorage_facts.fresh_reading_unused.
Qed.

Lemma identifiers_stay_distinct_witness :
  let w1 := snd (htmlDocumentStorage.create stepping_env (VStr "<p>a</p>") empty_world) in
  let w2 := snd (executeTool stepping_env "create_html_document"
                   (VObj [ ("content", VStr "<p>b</p>") ]) w1) in
  map doc_id (htmlDocuments w2) = [ "doc-1700000000000"; "doc-1700000000001" ]
  /\ NoDup (map doc_id (htmlDocuments w2)).
Proof.
  intros w1 w2. split; [reflexivity|].
  apply (identifiers_stay_distinct stepping_env w1 "create_html_document"
           (VObj [ ("content", VStr "<p>b</p>") ])).
  - apply (reach_create stepping_env empty_world (VStr "<p>a</p>")), reach_empty.
  - intros k Hk. do 3 (destruct k as [|k]; [vm_compute; discriminate|]).
    cbn in Hk. lia.
  - repeat constructor. by intros Hin%elem_of_nil.
Defined.

(** * Further properties of the text clean-up *)

Module text_facts.

Lemma app_cons (a : ascii) (s t : string) : String a s +:+ t = String a (s +:+ t).
Proof. reflexivity. Qed.

Lemma app_empty_r (s : string) : s +:+ "" = s.
Proof. induction s as [|a s IH]; [done|]. by rewrite app_cons, IH. Qed.

Lemma app_assoc (s t u : string) : (s +:+ t) +:+ u = s +:+ (t +:+ u).
Proof. induction s as [|a s IH]; [done|]. by rewrite !app_cons, IH. Qed.

Lemma rev_app_spec (s t : string) : String.rev_app s t = String.rev s +:+ t.
Proof.
  revert t. induction s as [|a s IH]; intros t; [done|].
  unfold String.rev. cbn [String.rev_app].
  rewrite (IH (String a t)), (IH (String a "")).
  by rewrite app_assoc.
Qed.

Lemma rev_cons (a : ascii) (s : string) :
  String.rev (String a s) = String.rev s +:+ String a "".
Proof. unfold String.rev at 1. cbn [String.rev_app]. apply rev_app_spec. Qed.

Lemma rev_app_distr (s t : string) :
  String.rev (s +:+ t) = String.rev t +:+ String.rev s.
Proof.
  induction s as [|a s IH].
  - change (String.rev "") with "". by rewrite app_empty_r.
  - by rewrite app_cons, !rev_cons, IH, app_assoc.
Qed.

Lemma rev_involutive (s : string) : String.rev (String.rev s) = s.
Proof.
  induction s as [|a s IH]; [done|].
  by rewrite rev_cons, rev_app_distr, IH.
Qed.

(** What [trim_start] leaves does not begin with (ASCII) white space. *)
Lemma trim_start_head_bounded (backwards : bool) (n : nat) :
  forall (s : string) (a : ascii) (rest : string),
    (String.length s <= n)%nat ->
    trim_start backwards s = String a rest -> is_space a = false.
Proof.
  induction n as [|n IH]; intros s a rest Hlen.
  { destruct s; [done|]. cbn in Hlen. lia. }
  destruct s as [|x s1]; [done|]. cbn [trim_start]. cbn in Hlen.
  destruct (is_space x) eqn:Hx; [apply IH; lia|].
  destruct s1 as [|y s2]; [by intros [= <- _]|]. cbn in Hlen.
  destruct (if backwards then is_space2 y x else is_space2 x y); [apply IH; lia|].
  destruct s2 as [|z s3]; [by intros [= <- _]|]. cbn in Hlen.
  destruct (if backwards then is_space3 z y x else is_space3 x y z); [apply IH; lia|].
  by intros [= <- _].
Qed.

Lemma trim_start_head (backwards : bool) (s : string) (a : ascii) (rest : string) :
  trim_start backwards s = String a rest -> is_space a = false.
Proof. by apply (trim_start_head_bounded backwards (String.length s)). Qed.

(** [trim_start] removes a prefix. *)
Lemma trim_start_split_bounded (backwards : bool) (n : nat) :
  forall s : string,
    (String.length s <= n)%nat ->
    exists spaces, s = spaces +:+ trim_start backwards s.
Proof.
  induction n as [|n IH]; intros s Hlen.
  { destruct s; [by exists ""|]. cbn in Hlen. lia. }
  destruct s as [|x s1]; [by exists ""|]. cbn [trim_start]. cbn in Hlen.
  destruct (is_space x).
  { destruct (IH s1) as [spaces Hs]; [lia|].
    exists (String x spaces). rewrite app_cons. by f_equal. }
  destruct s1 as [|y s2]; [by exists ""|]. cbn in Hlen.
  destruct (if backwards then is_space2 y x else is_space2 x y).
  { destruct (IH s2) as [spaces Hs]; [lia|].
    exists (String x (String y spaces)). rewrite !app_cons. by do 2 f_equal. }
  destruct s2 as [|z s3]; [by exists ""|]. cbn in Hlen.
  destruct (if backwards then is_space3 z y x else is_space3 x y z); [|by exists ""].
  destruct (IH s3) as [spaces Hs]; [lia|].
  exists (String x (String y (String z spaces))). rewrite !app_cons. by do 3 f_equal.
Qed.

Lemma trim_start_split (backwards : bool) (s : string) :
  exists spaces, s = spaces +:+ trim_start backwards s.
Proof. by apply (trim_start_split_bounded backwards (String.length s)). Qed.

(** Neither end of a trimmed text is white space. *)
Lemma trim_ends (s : string) (a : ascii) (rest : string) :
  (trim s = String a rest -> is_space a = false)
  /\ (String.rev (trim s) = String a rest -> is_space a = false).
Proof.
  unfold trim. set (t := trim_start false s). set (u := trim_start true (String.rev t)).
  split.
  - destruct (trim_start_split true (String.rev t)) as (spaces & Hrev).
    fold u in Hrev. intros Hu.
    assert (t = String.rev u +:+ String.rev spaces) as Ht.
    { by rewrite <- rev_app_distr, <- Hrev, rev_involutive. }
    rewrite Hu, app_cons in Ht.
    by apply (trim_start_head false s a (rest +:+ String.rev spaces)).
  - rewrite rev_involutive. subst u. apply trim_start_head.
Qed.

(** A no-break space (U+00A0) and a line separator (U+2028) at either end
    go with the ASCII white space. *)
Lemma trim_beyond_ascii :
  let nbsp := String (ascii_of_N 194) (String (ascii_of_N 160) "") in
  let ls := String (ascii_of_N 226) (String (ascii_of_N 128) (String (ascii_of_N 168) "")) in
  trim (" " +:+ nbsp +:+ ls +:+ "<p>hi</p>" +:+ nbsp +:+ nl +:+ ls) = "<p>hi</p>".
Proof. vm_compute. reflexivity. Qed.

Lemma app_empty_l (s : string) : "" +:+ s = s.
Proof. reflexivity. Qed.

Lemma strip_fence_shorter (s : string) :
  strip_prefix_ci "```" s = None -> strip_prefix_ci "```html" s = None.
Proof.
  destruct s as [|a [|b [|c s]]]; cbn [strip_prefix_ci]; try done.
  all: repeat (destruct (Ascii.eqb _ _); [|done]); done.
Qed.

Lemma strip_fence_before_newline (body rest : string) :
  strip_prefix_ci "```" body = None ->
  strip_prefix_ci "```" (body +:+ nl +:+ rest) = None.
Proof.
  unfold nl.
  destruct body as [|a [|b [|c body]]]; intros Hbody;
    repeat (rewrite app_cons || rewrite app_empty_l);
    cbn [strip_prefix_ci] in *; try done.
  all: repeat (destruct (Ascii.eqb _ _); try done).
Qed.

Lemma strip_prefix_self (p s : string) : strip_prefix_ci p (p +:+ s) = Some s.
Proof.
  induction p as [|a p IH]; [done|].
  rewrite app_cons. cbn [strip_prefix_ci]. by rewrite Ascii.eqb_refl.
Qed.

End text_facts.

(** X11.  The cleaned text never starts and never ends with (ASCII) white
    space, so cleaning it once more by [trim] changes nothing. *)
Theorem strip_markdown_trimmed (s : string) :
  (forall a rest, strip_markdown s = String a rest -> is_space a = false)
  /\ (forall a rest, String.rev (strip_markdown s) = String a rest -> is_space a = false).
Proof.
  unfold strip_markdown. split; intros a rest; apply text_facts.trim_ends.
Qed.

(** X12.  A response wrapped in a code fence, opened by [```html] or by
    [```] on a line of its own and closed by [```] on the last line, is
    cleaned to its body, when the body is trimmed and does not itself begin
    with a fence. *)
Theorem strip_markdown_fenced (body : string) :
  trim body = body ->
  strip_prefix_ci "```" body = None ->
  strip_markdown ("```html" +:+ nl +:+ body +:+ nl +:+ "```") = body
  /\ strip_markdown ("```" +:+ nl +:+ body +:+ nl +:+ "```") = body.
Proof.
  intros Htrim Hbody.
  assert (replace_trailing_fence (body +:+ nl +:+ "```") = body) as Htrail.
  { unfold replace_trailing_fence. rewrite text_facts.rev_app_distr.
    replace (String.rev (nl +:+ "```")) with ("```" +:+ nl) by reflexivity.
    rewrite text_facts.app_assoc, text_facts.strip_prefix_self.
    replace (strip_newline (nl +:+ String.rev body)) with (String.rev body)
      by reflexivity.
    apply text_facts.rev_involutive. }
  assert (replace_leading_fence "```" (body +:+ nl +:+ "```") = body +:+ nl +:+ "```")
    as Hlead.
  { unfold replace_leading_fence.
    by rewrite (text_facts.strip_fence_before_newline body "```" Hbody). }
  split; unfold strip_markdown.
  - replace (replace_leading_fence "```html" ("```html" +:+ nl +:+ body +:+ nl +:+ "```"))
      with (body +:+ nl +:+ "```") by reflexivity.
    by rewrite Hlead, Htrail.
  - replace (replace_leading_fence "```html" ("```" +:+ nl +:+ body +:+ nl +:+ "```"))
      with ("```" +:+ nl +:+ body +:+ nl +:+ "```") by reflexivity.
    replace (replace_leading_fence "```" ("```" +:+ nl +:+ body +:+ nl +:+ "```"))
      with (body +:+ nl +:+ "```") by reflexivity.
    by rewrite Htrail.
Qed.

Lemma strip_markdown_fenced_witness :
  strip_markdown ("```html" +:+ nl +:+ "<p>hi</p>" +:+ nl +:+ "```") = "<p>hi</p>"
  /\ strip_markdown ("```" +:+ nl +:+ "<p>hi</p>" +:+ nl +:+ "```") = "<p>hi</p>".
Proof.
  apply (strip_markdown_fenced "<p>hi</p>"); reflexivity.
Defined.

(** A response that neither begins nor ends with a fence is only
    trimmed. *)
Theorem strip_markdown_plain (s : string) :
  strip_prefix_ci "```" s = None ->
  strip_prefix_ci "```" (String.rev s) = None ->
  strip_markdown s = trim s.
Proof.
  intros Hstart Hend. unfold strip_markdown, replace_leading_fence, replace_trailing_fence.
  by rewrite (text_facts.strip_fence_shorter s Hstart), Hstart, Hend.
Qed.

Lemma strip_markdown_plain_witness :
  strip_markdown ("  <p>hi</p>" +:+ nl) = trim ("  <p>hi</p>" +:+ nl).
Proof.
  apply (strip_markdown_plain ("  <p>hi</p>" +:+ nl)); reflexivity.
Defined.

(** * Further properties of the HTML patch editor *)

(** X13.  Whatever [editHtmlWithLLM] returns as [updatedHtml] passed
    validation: it is either the patched candidate, validated, or the raw
    edited text, validated after the candidate was rejected. *)
Theorem editHtmlWithLLM_returns_valid_html (E : Env) (originalHtml instruction : Val)
    (w w' : World) (updatedHtml patch : string) :
  editHtmlWithLLM E originalHtml instruction w = (Return (updatedHtml, patch), w') ->
  validateHtml E updatedHtml = None.
Proof.
  intros Hrun.
  destruct (editHtmlWithLLM_returns E _ _ _ _ _ _ Hrun)
    as (original & response & finalHtml & _ & _ & _ & _ & _ & Hcase).
  by destruct Hcase as [[Hvalid ->]|(_ & Hraw & ->)].
Qed.

Lemma editHtmlWithLLM_returns_valid_html_witness :
  validateHtml stale_patch_env "<p>new</p>" = None.
Proof.
  eapply (editHtmlWithLLM_returns_valid_html stale_patch_env (VStr "<p>old")
            (VStr "close the paragraph") empty_world).
  vm_compute. reflexivity.
Defined.

(** Whether it returns or throws, [editHtmlWithLLM] sends exactly one
    request to the provider (temperature 0, no tool catalogue, a system and a
    user message) and changes nothing else in the world; an exception of the
    provider leaves it unchanged. *)
Theorem editHtmlWithLLM_effect (E : Env) (originalHtml instruction : Val) (w : World) :
  let request := edit_request E originalHtml instruction in
  snd (editHtmlWithLLM E originalHtml instruction w) = logged request w
  /\ req_tools request = false
  /\ map role (req_messages request) = [system; user]
  /\ (forall e,
        chat_completions_create E (length (requests w)) request = Throw e ->
        fst (editHtmlWithLLM E originalHtml instruction w) = Throw e).
Proof.
  intros request.
  destruct (editHtmlWithLLM_total E originalHtml instruction w) as [o Ho].
  split; [by rewrite Ho|]. split; [done|]. split; [done|].
  intros e He. unfold editHtmlWithLLM, bind, create_completion.
  fold request. by rewrite He.
Qed.

(** X14.  A text that is not a string cannot be edited: when the text and
    the instruction are values ToString accepts, so that the request is made,
    and the provider has answered, [editHtmlWithLLM] throws the exception
    diff-match-patch ends in on that text and the edited text of the answer,
    the request logged and nothing else changed. *)
Theorem editHtmlWithLLM_rejects_non_string (E : Env) (originalHtml instruction : Val)
    (w : World) (response : ChatCompletion) :
  (forall s, originalHtml <> VStr s) ->
  converts originalHtml = true ->
  converts instruction = true ->
  chat_completions_create E (length (requests w))
    (edit_request E originalHtml instruction) = Return response ->
  editHtmlWithLLM E originalHtml instruction w
  = (Throw (dmp_reject E originalHtml (edited_text response)),
     logged (edit_request E originalHtml instruction) w).
Proof.
  intros Hnot _ _ Hresp. unfold editHtmlWithLLM, bind, create_completion, lift.
  rewrite Hresp. unfold generatePatch.
  destruct originalHtml as [| | | |s| | |]; try reflexivity. by destruct (Hnot s).
Qed.

Lemma editHtmlWithLLM_rejects_non_string_witness :
  editHtmlWithLLM ticking_env VUndefined (VStr "add a title") empty_world
  = (Throw (dmp_reject ticking_env VUndefined "<p>ok</p>"),
     logged (edit_request ticking_env VUndefined (VStr "add a title")) empty_world).
Proof.
  apply (editHtmlWithLLM_rejects_non_string ticking_env VUndefined (VStr "add a title")
           empty_world (mkCompletion (plain assistant "<p>ok</p>") None)).
  - discriminate.
  - reflexivity.
  - reflexivity.
  - reflexivity.
Defined.

(** * Further properties of the dispatcher *)

(** The dispatcher on the concrete name [edit_html_document], once the
    document is found. *)
Lemma edit_html_document_found (E : Env) (fields : list (string * Val)) (w : World)
    (doc : HtmlDocument) :
  let documentId := default VUndefined (assoc "documentId" fields) in
  let editDescription := default VUndefined (assoc "editDescription" fields) in
  List.find (id_matches documentId) (htmlDocuments w) = Some doc ->
  executeTool E "edit_html_document" (VObj fields) w
  = try_catch
      (bind (editHtmlWithLLM E (doc_content doc) editDescription)
         (fun edit =>
            bind (htmlDocumentStorage.update E documentId (VStr (fst edit)))
              (fun updatedDoc =>
                 match updatedDoc with
                 | None =>
                     ret (soft_failure E ("Failed to update document with ID "
                                          +:+ ToString E documentId))
                 | Some updatedDoc =>
                     ret (JSON_stringify E
                            (VObj [ ("success", VBool true);
                                    ("document", doc_val E updatedDoc);
                                    ("message",
                                     VStr ("Updated HTML document with ID: "
                                           +:+ ToString E documentId
                                           +:+ ". Made the requested change: "
                                           +:+ ToString E editDescription)) ]))
                 end)))
      (fun error => ret (soft_failure E ("Error editing document: " +:+ message error)))
      w.
Proof.
  intros documentId editDescription Hfind.
  unfold executeTool. cbn [String.eqb Ascii.eqb Bool.eqb].
  unfold bind at 1. cbn [lift prop].
  unfold bind at 1. unfold htmlDocumentStorage.get at 1.
  fold documentId. rewrite Hfind.
  unfold try_catch. unfold bind at 1. cbn [lift prop]. reflexivity.
Qed.

(** X15.  [edit_html_document] on an identifier the store does not resolve,
    and which ToString accepts, returns the soft failure naming the
    identifier, without a request to the provider and without touching the
    world. *)
Theorem edit_html_document_not_found (E : Env) (fields : list (string * Val)) (w : World) :
  let documentId := default VUndefined (assoc "documentId" fields) in
  converts documentId = true ->
  fst (htmlDocumentStorage.get documentId w) = Return None ->
  executeTool E "edit_html_document" (VObj fields) w
  = (Return (JSON_stringify E
               (VObj [ ("success", VBool false);
                       ("message", VStr ("Document with ID " +:+ ToString E documentId
                                         +:+ " not found")) ])),
     w).
Proof.
  intros documentId _. unfold htmlDocumentStorage.get. cbn [fst]. intros [= Hfind].
  unfold executeTool. cbn [String.eqb Ascii.eqb Bool.eqb].
  unfold bind at 1. cbn [lift prop].
  unfold bind at 1. unfold htmlDocumentStorage.get at 1.
  fold documentId. by rewrite Hfind.
Qed.

Lemma edit_html_document_not_found_witness :
  executeTool ticking_env "edit_html_document"
              (VObj [ ("documentId", VStr "doc-7"); ("editDescription", VStr "x") ])
              empty_world
  = (Return (JSON_stringify ticking_env
               (VObj [ ("success", VBool false);
                       ("message", VStr "Document with ID doc-7 not found") ])),
     empty_world).
Proof.
  apply (edit_html_document_not_found ticking_env
           [ ("documentId", VStr "doc-7"); ("editDescription", VStr "x") ] empty_world);
    reflexivity.
Defined.

(** X16.  When the document exists and the editor returns, the edit always
    succeeds: the result is the success object, [get] then returns the
    document with the returned HTML as content, its identifier and creation
    stamp kept, and that HTML passed validation.  The "Failed to update"
    answer is never given. *)
Theorem edit_html_document_succeeds (E : Env) (fields : list (string * Val)) (w w1 : World)
    (doc : HtmlDocument) (updatedHtml patch : string) :
  let documentId := default VUndefined (assoc "documentId" fields) in
  let editDescription := default VUndefined (assoc "editDescription" fields) in
  fst (htmlDocumentStorage.get documentId w) = Return (Some doc) ->
  editHtmlWithLLM E (doc_content doc) editDescription w
  = (Return (updatedHtml, patch), w1) ->
  exists updatedDoc w',
    executeTool E "edit_html_document" (VObj fields) w
    = (Return (JSON_stringify E
                 (VObj [ ("success", VBool true);
                         ("document", doc_val E updatedDoc);
                         ("message",
                          VStr ("Updated HTML document with ID: "
                                +:+ ToString E documentId
                                +:+ ". Made the requested change: "
                                +:+ ToString E editDescription)) ])),
       w')
    /\ htmlDocumentStorage.get documentId w' = (Return (Some updatedDoc), w')
    /\ doc_content updatedDoc = VStr updatedHtml
    /\ doc_key updatedDoc = doc_key doc
    /\ validateHtml E updatedHtml = None.
Proof.
  intros documentId editDescription Hget Hedit.
  unfold htmlDocumentStorage.get in Hget. cbn [fst] in Hget. injection Hget as Hfind.
  assert (validateHtml E updatedHtml = None) as Hvalid.
  { destruct (editHtmlWithLLM_returns E _ _ _ _ _ _ Hedit)
      as (original & response & finalHtml & _ & _ & _ & _ & _ & Hcase).
    by destruct Hcase as [[Hv ->]|(_ & Hraw & ->)]. }
  destruct (editHtmlWithLLM_total E (doc_content doc) editDescription w) as [o Ho].
  rewrite Ho in Hedit. injection Hedit as -> <-.
  set (w1 := logged (edit_request E (doc_content doc) editDescription) w) in *.
  assert (List.find (id_matches documentId) (htmlDocuments w1) = Some doc) as Hfind1
    by exact Hfind.
  pose proof (htmlDocumentStorage_facts.update_found E documentId (VStr updatedHtml)
                w1 doc Hfind1) as Hupdate. cbn zeta in Hupdate.
  eexists _, _. split; [|split; [|split; [|split]]].
  - rewrite (edit_html_document_found E fields w doc Hfind).
    fold documentId editDescription. unfold try_catch.
    rewrite (bind_return _ _ _ _ _ Ho). cbn [fst].
    rewrite (bind_return _ _ _ _ _ Hupdate). reflexivity.
  - unfold htmlDocumentStorage.get. cbn [htmlDocuments]. f_equal. f_equal.
    by apply htmlDocumentStorage_facts.find_update_first.
  - reflexivity.
  - reflexivity.
  - exact Hvalid.
Qed.

Lemma edit_html_document_succeeds_witness :
  let w := snd (htmlDocumentStorage.create ticking_env (VStr "<p>old</p>") empty_world) in
  let id := id_at ticking_env 0 in
  exists updatedDoc w',
    fst (executeTool ticking_env "edit_html_document"
           (VObj [ ("documentId", VStr id); ("editDescription", VStr "say ok") ]) w)
    = Return (JSON_stringify ticking_env
                (VObj [ ("success", VBool true);
                        ("document", doc_val ticking_env updatedDoc);
                        ("message",
                         VStr ("Updated HTML document with ID: " +:+ id
                               +:+ ". Made the requested change: say ok")) ]))
    /\ htmlDocumentStorage.get (VStr id) w' = (Return (Some updatedDoc), w')
    /\ doc_content updatedDoc = VStr "<p>ok</p>".
Proof.
  intros w id.
  destruct (edit_html_document_succeeds ticking_env
              [ ("documentId", VStr id); ("editDescription", VStr "say ok") ] w
              (logged (edit_request ticking_env (VStr "<p>old</p>") (VStr "say ok")) w)
              (mkDoc id (VStr "<p>old</p>") (clock ticking_env 1) (clock ticking_env 2))
              "<p>ok</p>" "<p>ok</p>" eq_refl eq_refl)
    as (updatedDoc & w' & Hrun & Hget & Hcontent & _).
  exists updatedDoc, w'. split; [by rewrite Hrun|]. by split.
Defined.

(** X17.  Every exception of the editor is converted by
    [edit_html_document]: when the document exists and [editHtmlWithLLM]
    throws (the provider failed, the stored content is not a string, the
    patch could not be made, both validations failed), the tool returns the
    soft failure carrying the exception's message, and the stores are as
    they were. *)
Theorem edit_html_document_catches (E : Env) (fields : list (string * Val)) (w : World)
    (doc : HtmlDocument) (e : Exn) :
  let documentId := default VUndefined (assoc "documentId" fields) in
  let editDescription := default VUndefined (assoc "editDescription" fields) in
  let request := edit_request E (doc_content doc) editDescription in
  fst (htmlDocumentStorage.get documentId w) = Return (Some doc) ->
  fst (editHtmlWithLLM E (doc_content doc) editDescription w) = Throw e ->
  executeTool E "edit_html_document" (VObj fields) w
  = (Return (JSON_stringify E
               (VObj [ ("success", VBool false);
                       ("message", VStr ("Error editing document: " +:+ message e)) ])),
     logged request w)
  /\ same_stores w (logged request w).
Proof.
  intros documentId editDescription request Hget Hedit.
  unfold htmlDocumentStorage.get in Hget. cbn [fst] in Hget. injection Hget as Hfind.
  split; [|by repeat split].
  rewrite (edit_html_document_found E fields w doc Hfind).
  fold documentId editDescription. unfold try_catch.
  destruct (editHtmlWithLLM_total E (doc_content doc) editDescription w) as [o Ho].
  rewrite Ho in Hedit. cbn [fst] in Hedit. subst o.
  by rewrite (bind_throw _ _ _ _ _ Ho).
Qed.

Lemma edit_html_document_catches_witness :
  let E := example_env (fun k => Z.of_nat k) unreachable apply_clean accepts_all in
  let w := snd (htmlDocumentStorage.create E (VStr "<p>old</p>") empty_world) in
  let fields := [ ("documentId", VStr "doc-0"); ("editDescription", VStr "say ok") ] in
  let request := edit_request E (VStr "<p>old</p>") (VStr "say ok") in
  executeTool E "edit_html_document" (VObj fields) w
  = (Return (JSON_stringify E
               (VObj [ ("success", VBool false);
                       ("message", VStr "Error editing document: Connection error.") ])),
     logged request w)
  /\ same_stores w (logged request w).
Proof.
  intros E w fields request.
  apply (edit_html_document_catches E fields w
           (mkDoc "doc-0" (VStr "<p>old</p>") 1 2)
           (mkExn "APIConnectionError" "Connection error.")); reflexivity.
Defined.

(** X18.  The memory tools compose: after [write_long_term_memory] stored a
    truthy value under a string key other than [__proto__],
    [read_long_term_memory] of that key answers with the key and that value
    and changes nothing; after a falsy value was stored it answers with the
    placeholder story instead. *)
Theorem memory_tools_round_trip (E : Env) (k : string) (v : Val) (w : World) :
  k <> "__proto__" ->
  let w' := snd (executeTool E "write_long_term_memory"
                   (VObj [ ("key", VStr k); ("value", v) ]) w) in
  let answer := executeTool E "read_long_term_memory" (VObj [ ("key", VStr k) ]) w' in
  (truthy v = true ->
   answer = (Return (JSON_stringify E (VObj [ ("key", VStr k); ("value", v) ])), w'))
  /\ (truthy v = false ->
      answer
      = (Return (JSON_stringify E
                   (VObj [ ("key", VStr k);
                           ("value", VStr fakeMemoryStory);
                           ("message", VStr "Long-term memory accessed successfully. This contains foundational information about TechCorp Solutions.") ])),
         w')).
Proof.
  intros Hk w' answer.
  assert (w' = snd (memoryStorage.write E (VStr k) v w)) as Hw' by reflexivity.
  assert (memoryStorage.read E (VStr k) w' = (Return (js_or v VNull), w')) as Hread.
  { rewrite Hw', (memoryStorage_more.write_eq E (VStr k) v w Hk).
    unfold memoryStorage.read, memoryData_get. cbn [memoryData ToString].
    by rewrite lookup_insert_eq. }
  assert (answer
          = bind (memoryStorage.read E (VStr k))
              (fun memoryValue =>
                 if truthy memoryValue then
                   ret (JSON_stringify E (VObj [ ("key", VStr k); ("value", memoryValue) ]))
                 else
                   ret (JSON_stringify E
                          (VObj [ ("key", VStr k);
                                  ("value", VStr fakeMemoryStory);
                                  ("message", VStr "Long-term memory accessed successfully. This contains foundational information about TechCorp Solutions.") ])))
              w') as -> by reflexivity.
  rewrite (bind_return _ _ _ _ _ Hread). unfold js_or.
  split; intros Hv; rewrite Hv; [by rewrite Hv|reflexivity].
Qed.

Lemma memory_tools_round_trip_witness :
  let w' := snd (executeTool ticking_env "write_long_term_memory"
                   (VObj [ ("key", VStr "plan"); ("value", VStr "ship it") ]) empty_world) in
  executeTool ticking_env "read_long_term_memory" (VObj [ ("key", VStr "plan") ]) w'
  = (Return (JSON_stringify ticking_env
               (VObj [ ("key", VStr "plan"); ("value", VStr "ship it") ])), w').
Proof.
  apply (proj1 (memory_tools_round_trip ticking_env "plan" (VStr "ship it") empty_world
                  ltac:(discriminate))).
  reflexivity.
Defined.

(** X19.  On arguments that are [null] or [undefined] each of the five tools
    that read a parameter throws a [TypeError] before it has any effect. *)
Theorem executeTool_null_arguments (E : Env) (toolName : string) (args : Val) (w : World) :
  args = VNull \/ args = VUndefined ->
  In toolName [ "read_long_term_memory"; "write_long_term_memory";
                "create_html_document"; "edit_html_document";
                "generate_html_with_llm" ] ->
  exists e, executeTool E toolName args w = (Throw e, w) /\ exn_name e = "TypeError".
Proof.
  intros Hargs Hname. cbn in Hname.
  destruct Hname as [<-|[<-|[<-|[<-|[<-|[]]]]]]; destruct Hargs as [-> | ->];
    eexists; (split; [reflexivity|reflexivity]).
Qed.

Lemma executeTool_null_arguments_witness :
  exists e, executeTool ticking_env "create_html_document" VNull empty_world
            = (Throw e, empty_world) /\ exn_name e = "TypeError".
Proof.
  apply (executeTool_null_arguments ticking_env "create_html_document" VNull empty_world).
  - by left.
  - cbn. tauto.
Defined.

(** X20.  The tools that only read leave the world exactly as it was, on
    every argument value and whether they return or throw:
    [read_business_profile], [read_long_term_memory],
    [list_html_documents], and every name outside the catalogue. *)
Theorem executeTool_read_only (E : Env) (toolName : string) (args : Val) (w : World) :
  ~ In toolName [ "write_long_term_memory"; "create_html_document";
                  "edit_html_document"; "generate_html_with_llm" ] ->
  snd (executeTool E toolName args w) = w.
Proof.
  intros Hname. unfold executeTool.
  destruct (String.eqb toolName "read_business_profile"); [done|].
  destruct (String.eqb toolName "read_long_term_memory").
  { unfold bind, lift, memoryStorage.read, ret.
    destruct (prop args "key"); [|done]. by destruct (truthy _). }
  repeat match goal with
         | |- context [String.eqb toolName ?s] =>
             let Heq := fresh "Heq" in
             destruct (String.eqb toolName s) eqn:Heq;
             [first [ reflexivity
                    | apply String.eqb_eq in Heq; exfalso; apply Hname;
                      rewrite Heq; cbn; tauto ]|]
         end.
  reflexivity.
Qed.

Lemma executeTool_read_only_witness :
  snd (executeTool ticking_env "list_html_documents" VNull empty_world) = empty_world.
Proof.
  apply (executeTool_read_only ticking_env "list_html_documents" VNull empty_world).
  cbn. intros H. repeat destruct H as [H|H]; try discriminate H. exact H.
Defined.

(** X21.  One tool call sends at most one request to the provider, only
    [edit_html_document] and [generate_html_with_llm] send one, and it never
    carries the tool catalogue. *)
Theorem executeTool_requests (E : Env) (toolName : string) (args : Val) (w : World) :
  let w' := snd (executeTool E toolName args w) in
  requests w' = requests w
  \/ (exists req,
         requests w' = requests w ++ [req]
         /\ req_tools req = false
         /\ (toolName = "edit_html_document" \/ toolName = "generate_html_with_llm")).
Proof.
  intros w'. assert (w' = snd (executeTool E toolName args w)) as Hw' by reflexivity.
  clearbody w'. unfold executeTool in Hw'.
  destruct (String.eqb toolName "read_business_profile"); [left; by subst w'|].
  destruct (String.eqb toolName "read_long_term_memory").
  { left. unfold bind, lift, memoryStorage.read, ret in Hw'.
    destruct (prop args "key"); [|by subst w']. destruct (truthy _); by subst w'. }
  destruct (String.eqb toolName "write_long_term_memory").
  { left. unfold bind, lift, ret in Hw'.
    destruct (prop args "key"); [|by subst w'].
    destruct (prop args "value"); by subst w'. }
  destruct (String.eqb toolName "create_html_document").
  { left. unfold bind at 1 in Hw'. unfold lift in Hw'.
    destruct (prop args "content"); by subst w'. }
  destruct (String.eqb toolName "edit_html_document") eqn:Hedit.
  { apply String.eqb_eq in Hedit.
    unfold bind at 1 in Hw'. unfold lift at 1 in Hw'.
    destruct (prop args "documentId") as [documentId|]; [|left; by subst w'].
    unfold bind at 1, htmlDocumentStorage.get at 1 in Hw'.
    destruct (List.find _ _) as [doc|]; [|left; by subst w'].
    unfold try_catch, bind at 1 in Hw'. unfold lift at 1 in Hw'.
    destruct (prop args "editDescription") as [editDescription|e]; [|left; by subst w'].
    unfold bind at 1 in Hw'.
    destruct (editHtmlWithLLM_total E (doc_content doc) editDescription w) as [o Ho].
    rewrite Ho in Hw'.
    right. exists (edit_request E (doc_content doc) editDescription).
    split; [|by auto].
    destruct o as [[updatedHtml patch]|e]; [|by subst w'].
    unfold bind at 1, htmlDocumentStorage.update in Hw'.
    cbn [htmlDocuments logged] in Hw'. destruct (List.find _ _); by subst w'. }
  destruct (String.eqb toolName "list_html_documents"); [left; by subst w'|].
  destruct (String.eqb toolName "generate_html_with_llm") eqn:Hgen; [|left; by subst w'].
  apply String.eqb_eq in Hgen. unfold bind at 1 in Hw'. unfold lift at 1 in Hw'.
  destruct (prop args "description") as [description|]; [|left; by subst w'].
  unfold bind at 1, create_completion at 1 in Hw'.
  right. exists (generate_request E description). split; [|by auto].
  destruct (chat_completions_create E _ _); by subst w'.
Qed.

(** X22.  [generate_html_with_llm], on a description ToString accepts,
    stores whatever text the provider returned, cleaned of fences and
    trimmed, as a new last document, without validating it; a response
    without content gives an empty document. *)
Theorem generate_html_stores_unvalidated (E : Env) (fields : list (string * Val))
    (w : World) (response : ChatCompletion) :
  let request := generate_request E (default VUndefined (assoc "description" fields)) in
  converts (default VUndefined (assoc "description" fields)) = true ->
  chat_completions_create E (length (requests w)) request = Return response ->
  exists doc w',
    executeTool E "generate_html_with_llm" (VObj fields) w
    = (Return (JSON_stringify E
                 (VObj [ ("success", VBool true);
                         ("document", doc_val E doc);
                         ("message", VStr ("Generated and created HTML document with ID: "
                                           +:+ doc_id doc)) ])),
       w')
    /\ htmlDocuments w' = htmlDocuments w ++ [doc]
    /\ doc_content doc = VStr (edited_text response)
    /\ (msg_content (choice0 response) = None -> doc_content doc = VStr "")
    /\ requests w' = requests w ++ [request].
Proof.
  intros request _ Hresp. do 2 eexists. split.
  - unfold executeTool. cbn [String.eqb Ascii.eqb Bool.eqb].
    unfold bind at 1. cbn [lift prop].
    unfold bind at 1, create_completion at 1. fold request. rewrite Hresp.
    unfold bind at 1. rewrite htmlDocumentStorage_facts.create_eq. reflexivity.
  - split; [reflexivity|]. split; [reflexivity|]. split; [|reflexivity].
    intros Hnone. cbn [doc_content]. unfold edited_text. by rewrite Hnone.
Qed.

Lemma generate_html_stores_unvalidated_witness :
  exists doc w',
    executeTool rejecting_env "generate_html_with_llm"
                (VObj [ ("description", VStr "a card") ]) empty_world
    = (Return (JSON_stringify rejecting_env
                 (VObj [ ("success", VBool true);
                         ("document", doc_val rejecting_env doc);
                         ("message", VStr ("Generated and created HTML document with ID: "
                                           +:+ doc_id doc)) ])),
       w')
    /\ htmlDocuments w' = htmlDocuments empty_world ++ [doc]
    /\ doc_content doc = VStr (edited_text (mkCompletion (plain assistant "<p>new") None))
    /\ (msg_content (choice0 (mkCompletion (plain assistant "<p>new") None)) = None ->
        doc_content doc = VStr "")
    /\ requests w'
       = requests empty_world
           ++ [generate_request rejecting_env
                 (default VUndefined (assoc "description" [ ("description", VStr "a card") ]))].
Proof.
  apply (generate_html_stores_unvalidated rejecting_env
           [ ("description", VStr "a card") ] empty_world
           (mkCompletion (plain assistant "<p>new") None));
    reflexivity.
Defined.

(** * Further properties of the agent loop *)

(** X23.  When every tool call of a batch goes through, the [for] loop
    yields exactly one tool message per call, in the order of the calls,
    each tagged with the identifier of its call, after the messages it
    started with; the transcript itself is not touched by the loop. *)
Theorem run_tool_calls_results (E : Env) (pending : list ToolCall) :
  forall (acc results : list Message) (a a' : Agent),
    run_tool_calls E pending acc a = (Return results, a') ->
    exists new,
      results = acc ++ new
      /\ map role new = map (fun _ => tool) pending
      /\ map tool_call_id new = map (fun toolCall => Some (call_id toolCall)) pending
      /\ messagesToSend a' = messagesToSend a.
Proof.
  induction pending as [|toolCall rest IH]; intros acc results a a'.
  - cbn. intros [= <- <-]. exists []. by rewrite app_nil_r.
  - cbn [run_tool_calls]. unfold bind at 1. unfold lift at 1.
    destruct (JSON_parse E _) as [args|e]; [|discriminate].
    unfold bind at 1. rewrite in_world_run.
    destruct (executeTool E (function_name toolCall) args (world a)) as [[result|e] w1];
      cbn [fst snd]; [|discriminate].
    unfold bind at 1, update_agent at 1. intros Hrest.
    apply IH in Hrest as (new & -> & Hroles & Hids & Hsame).
    exists (tool_result (call_id toolCall) result :: new).
    rewrite <- app_assoc. repeat split.
    + cbn. by rewrite Hroles.
    + cbn. by rewrite Hids.
    + rewrite Hsame. by destruct (surfaced_id E _ _).
Qed.

Lemma run_tool_calls_results_witness :
  exists new,
    [tool_result "call_1" (JSON_stringify ledger_env (VObj [ ("documents", VArr []) ]))]
    = [] ++ new
    /\ map role new = map (fun _ => tool) [mkToolCall "call_1" "list_html_documents" "{}"]
    /\ map tool_call_id new
       = map (fun toolCall => Some (call_id toolCall))
             [mkToolCall "call_1" "list_html_documents" "{}"]
    /\ messagesToSend (init_agent empty_world) = messagesToSend (init_agent empty_world).
Proof.
  apply (run_tool_calls_results ledger_env
           [mkToolCall "call_1" "list_html_documents" "{}"] []
           [tool_result "call_1" (JSON_stringify ledger_env (VObj [ ("documents", VArr []) ]))]
           (init_agent empty_world) (init_agent empty_world)).
  reflexivity.
Defined.

(** X24.  When the first response asks for no tool (no [tool_calls], or an
    empty array), [runAgent] returns after that single request, whatever the
    fuel: one call is counted, no document is surfaced, the stores are
    untouched, and the message is the response's content, or the placeholder
    when the content is [null] or empty. *)
Theorem runAgent_single_round (E : Env) (fuel : nat) (messages : list ChatTurn)
    (w : World) (response : ChatCompletion) :
  let request := agent_request (first_transcript E messages) in
  chat_completions_create E (length (requests w)) request = Return response ->
  tool_calls (choice0 response) = None \/ tool_calls (choice0 response) = Some [] ->
  exists r a',
    runAgent E fuel messages (init_agent w) = (Return (Some r), a')
    /\ calls (result_cost r) = 1%nat
    /\ result_documentId r = None
    /\ world a' = logged request w
    /\ messagesToSend a' = first_transcript E messages ++ [choice0 response]
    /\ result_message r
       = match msg_content (choice0 response) with
         | Some text => if String.eqb text "" then "No response generated" else text
         | None => "No response generated"
         end.
Proof.
  intros request Hresp Hcalls.
  unfold runAgent. rewrite (bind_return _ _ _ _ _ (conversationMessages_eq E messages w)).
  unfold bind at 1. rewrite in_world_run. unfold create_completion.
  cbn [fst snd world init_agent]. fold request. rewrite Hresp.
  unfold bind at 1, update_agent at 1. unfold bind at 1, update_agent at 1.
  unfold bind at 1.
  assert (forall a, agent_loop E fuel (choice0 response) a
                    = (Return (Some (choice0 response)), a)) as Hloop.
  { intros a. destruct fuel; cbn [agent_loop]; by destruct Hcalls as [-> | ->]. }
  rewrite Hloop. do 2 eexists. split; [reflexivity|].
  unfold count_call, trackCallCost. by destruct (usage response).
Qed.

Lemma runAgent_single_round_witness :
  exists r a',
    runAgent ticking_env 0 [mkTurn user "hello"] (init_agent empty_world)
    = (Return (Some r), a')
    /\ calls (result_cost r) = 1%nat
    /\ result_documentId r = None
    /\ world a' = logged (agent_request (first_transcript ticking_env [mkTurn user "hello"]))
                         empty_world
    /\ messagesToSend a'
       = first_transcript ticking_env [mkTurn user "hello"]
           ++ [choice0 (mkCompletion (plain assistant "<p>ok</p>") None)]
    /\ result_message r
       = match msg_content (choice0 (mkCompletion (plain assistant "<p>ok</p>") None)) with
         | Some text => if String.eqb text "" then "No response generated" else text
         | None => "No response generated"
         end.
Proof.
  apply (runAgent_single_round ticking_env 0 [mkTurn user "hello"] empty_world
           (mkCompletion (plain assistant "<p>ok</p>") None)).
  - reflexivity.
  - by left.
Defined.

(** X25.  A failure of the provider on the first request ends [runAgent]
    with that very exception; nothing but the request has happened. *)
Theorem runAgent_provider_failure (E : Env) (fuel : nat) (messages : list ChatTurn)
    (w : World) (e : Exn) :
  let request := agent_request (first_transcript E messages) in
  chat_completions_create E (length (requests w)) request = Throw e ->
  exists a',
    runAgent E fuel messages (init_agent w) = (Throw e, a')
    /\ world a' = logged request w
    /\ apiCalls a' = 0%nat /\ callCosts a' = [].
Proof.
  intros request Hresp.
  unfold runAgent. rewrite (bind_return _ _ _ _ _ (conversationMessages_eq E messages w)).
  unfold bind at 1. rewrite in_world_run. unfold create_completion.
  cbn [fst snd world init_agent]. fold request. rewrite Hresp.
  eexists. split; [reflexivity|]. by repeat split.
Qed.

Lemma runAgent_provider_failure_witness :
  let E := example_env (fun k => Z.of_nat k) unreachable apply_clean accepts_all in
  exists a',
    runAgent E 3 [mkTurn user "hello"] (init_agent empty_world)
    = (Throw (mkExn "APIConnectionError" "Connection error."), a')
    /\ world a' = logged (agent_request (first_transcript E [mkTurn user "hello"])) empty_world
    /\ apiCalls a' = 0%nat /\ callCosts a' = [].
Proof.
  intros E.
  apply (runAgent_provider_failure E 3 [mkTurn user "hello"] empty_world
           (mkExn "APIConnectionError" "Connection error.")).
  reflexivity.
Defined.

Module ledger_facts.

Lemma count_call_ok (response : ChatCompletion) (a : Agent) :
  ledger_ok a -> ledger_ok (count_call response a).
Proof.
  intros (Hsub & Hp & Hc). unfold ledger_ok, count_call, trackCallCost.
  destruct (usage response) as [u|]; cbn [callCosts apiCalls totalPromptTokens
                                           totalCompletionTokens].
  - rewrite !map_app, !fold_left_app, <- Hp, <- Hc, seq_S. cbn [map fold_left callNumber
      promptTokens completionTokens]. repeat split; [|done..].
    by apply sublist_app.
  - repeat split; [|done..]. rewrite seq_S. by apply sublist_inserts_r.
Qed.

Lemma push_messages_ok (ms : list Message) (a : Agent) :
  ledger_ok a -> ledger_ok (push_messages ms a).
Proof. done. Qed.

(** The [for] loop over the tool calls leaves the ledger alone. *)
Lemma run_tool_calls_ledger (E : Env) (pending : list ToolCall) :
  forall (acc : list Message) (a a' : Agent) (o : Outcome (list Message)),
    run_tool_calls E pending acc a = (o, a') ->
    apiCalls a' = apiCalls a /\ callCosts a' = callCosts a
    /\ totalPromptTokens a' = totalPromptTokens a
    /\ totalCompletionTokens a' = totalCompletionTokens a.
Proof.
  induction pending as [|toolCall rest IH]; intros acc a a' o Hrun.
  { by injection Hrun as <- <-. }
  cbn [run_tool_calls] in Hrun. unfold bind at 1 in Hrun. unfold lift at 1 in Hrun.
  destruct (JSON_parse E _) as [args|e]; [|by injection Hrun as <- <-].
  unfold bind at 1 in Hrun. rewrite in_world_run in Hrun.
  destruct (executeTool E (function_name toolCall) args (world a)) as [[result|e] w1];
    cbn [fst snd] in Hrun; [|by injection Hrun as <- <-].
  unfold bind at 1, update_agent at 1 in Hrun.
  apply IH in Hrun as (H1 & H2 & H3 & H4).
  rewrite H1, H2, H3, H4. by destruct (surfaced_id E _ _).
Qed.

Lemma run_tool_calls_ok (E : Env) (pending : list ToolCall) (acc : list Message)
    (a : Agent) :
  ledger_ok a -> ledger_ok (snd (run_tool_calls E pending acc a)).
Proof.
  destruct (run_tool_calls E pending acc a) as [o a'] eqn:Hrun.
  destruct (run_tool_calls_ledger E pending acc a a' o Hrun) as (H1 & H2 & H3 & H4).
  unfold ledger_ok. cbn [snd]. by rewrite H1, H2, H3, H4.
Qed.

Lemma in_world_ok {A} (m : M A) (a : Agent) :
  ledger_ok a -> ledger_ok (snd (in_world m a)).
Proof. rewrite in_world_run. done. Qed.

Lemma agent_loop_ok (E : Env) (fuel : nat) :
  forall (assistantMessage : Message) (a : Agent),
    ledger_ok a -> ledger_ok (snd (agent_loop E fuel assistantMessage a)).
Proof.
  induction fuel as [|fuel IH]; intros assistantMessage a Hok; cbn [agent_loop];
    destruct (tool_calls assistantMessage) as [[|toolCall rest]|]; try done.
  unfold bind at 1.
  pose proof (run_tool_calls_ok E (toolCall :: rest) [] a Hok) as Hok1.
  destruct (run_tool_calls E (toolCall :: rest) [] a) as [[results|e] a1];
    cbn [snd] in Hok1; [|done].
  unfold bind at 1, update_agent at 1. unfold bind at 1. rewrite in_world_run.
  unfold create_completion. cbn [fst snd world push_messages].
  destruct (chat_completions_create E _ _) as [response|e]; [|done].
  unfold bind at 1, update_agent at 1. unfold bind at 1, update_agent at 1.
  apply IH. apply push_messages_ok, count_call_ok. exact Hok1.
Qed.

End ledger_facts.

(** X26.  The ledger [runAgent] returns is in order: the per-call records
    are numbered by the calls they belong to (their numbers are a
    subsequence of 1 .. calls, so strictly increasing and at most [calls]
    many), and the aggregate prompt and completion token counts are the sums
    over the records. *)
Theorem runAgent_ledger_in_order (E : Env) (fuel : nat) (messages : list ChatTurn)
    (w : World) (r : AgentResult) (a' : Agent) :
  runAgent E fuel messages (init_agent w) = (Return (Some r), a') ->
  let c := result_cost r in
  sublist (map callNumber (costs c)) (seq 1 (calls c))
  /\ totalPrompt c = fold_left PrimFloat.add (map promptTokens (costs c)) 0%float
  /\ totalCompletion c = fold_left PrimFloat.add (map completionTokens (costs c)) 0%float
  /\ totalTokens c = (totalPrompt c + totalCompletion c)%float.
Proof.
  unfold runAgent. rewrite (bind_return _ _ _ _ _ (conversationMessages_eq E messages w)).
  unfold bind at 1. rewrite in_world_run. unfold create_completion.
  cbn [fst snd world init_agent].
  destruct (chat_completions_create E _ _) as [response|e]; [|discriminate].
  unfold bind at 1, update_agent at 1. unfold bind at 1, update_agent at 1.
  unfold bind at 1.
  match goal with
  | |- context [agent_loop E fuel ?m ?a] =>
      assert (ledger_ok a) as Hok;
      [ apply ledger_facts.push_messages_ok, ledger_facts.count_call_ok;
        repeat split; constructor
      | pose proof (ledger_facts.agent_loop_ok E fuel m a Hok) as Hok';
        destruct (agent_loop E fuel m a) as [[[final|]|e0] a1] ]
  end; cbn [snd] in Hok'; try discriminate.
  intros [= <- <-]. cbn. destruct Hok' as (Hsub & Hp & Hc). by repeat split.
Qed.

Lemma runAgent_ledger_in_order_witness :
  exists r a',
    runAgent ledger_env 2 [mkTurn user "List the documents"] (init_agent empty_world)
    = (Return (Some r), a')
    /\ sublist (map callNumber (costs (result_cost r))) (seq 1 (calls (result_cost r)))
    /\ map callNumber (costs (result_cost r)) = [1; 2]%nat.
Proof.
  eexists _, _. split; [vm_compute; reflexivity|]. split.
  - eapply (runAgent_ledger_in_order ledger_env 2 [mkTurn user "List the documents"]
              empty_world).
    vm_compute. reflexivity.
  - reflexivity.
Defined.

Module catalogue_facts.

Lemma executeTool_requests_shape (E : Env) (toolName : string) (args : Val) (w : World) :
  let w' := snd (executeTool E toolName args w) in
  requests w' = requests w
  \/ (exists req,
         requests w' = requests w ++ [req]
         /\ req_tools req = false
         /\ (toolName = "edit_html_document" \/ toolName = "generate_html_with_llm")).
Proof.
  intros w'. assert (w' = snd (executeTool E toolName args w)) as Hw' by reflexivity.
  clearbody w'. unfold executeTool in Hw'.
  destruct (String.eqb toolName "read_business_profile"); [left; by subst w'|].
  destruct (String.eqb toolName "read_long_term_memory").
  { left. unfold bind, lift, memoryStorage.read, ret in Hw'.
    destruct (prop args "key"); [|by subst w']. destruct (truthy _); by subst w'. }
  destruct (String.eqb toolName "write_long_term_memory").
  { left. unfold bind, lift, ret in Hw'.
    destruct (prop args "key"); [|by subst w'].
    destruct (prop args "value"); by subst w'. }
  destruct (String.eqb toolName "create_html_document").
  { left. unfold bind at 1 in Hw'. unfold lift in Hw'.
    destruct (prop args "content"); by subst w'. }
  destruct (String.eqb toolName "edit_html_document") eqn:Hedit.
  { apply String.eqb_eq in Hedit.
    unfold bind at 1 in Hw'. unfold lift at 1 in Hw'.
    destruct (prop args "documentId") as [documentId|]; [|left; by subst w'].
    unfold bind at 1, htmlDocumentStorage.get at 1 in Hw'.
    destruct (List.find _ _) as [doc|]; [|left; by subst w'].
    unfold try_catch, bind at 1 in Hw'. unfold lift at 1 in Hw'.
    destruct (prop args "editDescription") as [editDescription|e]; [|left; by subst w'].
    unfold bind at 1 in Hw'.
    destruct (editHtmlWithLLM_total E (doc_content doc) editDescription w) as [o Ho].
    rewrite Ho in Hw'.
    right. exists (edit_request E (doc_content doc) editDescription).
    split; [|by auto].
    destruct o as [[updatedHtml patch]|e]; [|by subst w'].
    unfold bind at 1, htmlDocumentStorage.update in Hw'.
    cbn [htmlDocuments logged] in Hw'. destruct (List.find _ _); by subst w'. }
  destruct (String.eqb toolName "list_html_documents"); [left; by subst w'|].
  destruct (String.eqb toolName "generate_html_with_llm") eqn:Hgen; [|left; by subst w'].
  apply String.eqb_eq in Hgen. unfold bind at 1 in Hw'. unfold lift at 1 in Hw'.
  destruct (prop args "description") as [description|]; [|left; by subst w'].
  unfold bind at 1, create_completion at 1 in Hw'.
  right. exists (generate_request E description). split; [|by auto].
  destruct (chat_completions_create E _ _); by subst w'.
Qed.

Lemma catalogue_logged (req : ChatRequest) (w : World) :
  catalogue_requests (logged req w)
  = catalogue_requests w ++ (if req_tools req then [req] else []).
Proof. unfold catalogue_requests. cbn [requests logged]. by rewrite List.filter_app. Qed.

Lemma executeTool_catalogue (E : Env) (toolName : string) (args : Val) (w : World) :
  catalogue_requests (snd (executeTool E toolName args w)) = catalogue_requests w.
Proof.
  unfold catalogue_requests.
  destruct (executeTool_requests_shape E toolName args w) as [->|(req & -> & Hreq & _)];
    [done|].
  rewrite List.filter_app. cbn [List.filter]. rewrite Hreq. by rewrite app_nil_r.
Qed.

Lemma run_tool_calls_catalogue (E : Env) (pending : list ToolCall) :
  forall (acc : list Message) (a a' : Agent) (o : Outcome (list Message)),
    run_tool_calls E pending acc a = (o, a') ->
    catalogue_requests (world a') = catalogue_requests (world a).
Proof.
  induction pending as [|toolCall rest IH]; intros acc a a' o Hrun.
  { by injection Hrun as <- <-. }
  cbn [run_tool_calls] in Hrun. unfold bind at 1 in Hrun. unfold lift at 1 in Hrun.
  destruct (JSON_parse E _) as [args|e]; [|by injection Hrun as <- <-].
  unfold bind at 1 in Hrun. rewrite in_world_run in Hrun.
  pose proof (executeTool_catalogue E (function_name toolCall) args (world a)) as Htool.
  destruct (executeTool E (function_name toolCall) args (world a)) as [[result|e] w1];
    cbn [fst snd] in *; [|by injection Hrun as <- <-].
  unfold bind at 1, update_agent at 1 in Hrun.
  apply IH in Hrun. rewrite Hrun. by destruct (surfaced_id E _ _).
Qed.

(** Along a run that does not throw, every counted call is a logged request
    with the catalogue and conversely. *)
Lemma agent_loop_catalogue (E : Env) (fuel : nat) :
  forall (assistantMessage : Message) (a a' : Agent) (final : option Message),
    agent_loop E fuel assistantMessage a = (Return final, a') ->
    (length (catalogue_requests (world a')) + apiCalls a
     = length (catalogue_requests (world a)) + apiCalls a')%nat.
Proof.
  induction fuel as [|fuel IH]; intros assistantMessage a a' final; cbn [agent_loop];
    destruct (tool_calls assistantMessage) as [[|toolCall rest]|];
    try (intros [= _ <-]; lia).
  unfold bind at 1.
  destruct (run_tool_calls E (toolCall :: rest) [] a) as [[results|e] a1] eqn:Hrun;
    [|discriminate].
  pose proof (run_tool_calls_catalogue E _ _ _ _ _ Hrun) as Hcat.
  destruct (ledger_facts.run_tool_calls_ledger E _ _ _ _ _ Hrun) as (Hcalls & _).
  unfold bind at 1, update_agent at 1. unfold bind at 1. rewrite in_world_run.
  unfold create_completion. cbn [fst snd world push_messages].
  destruct (chat_completions_create E _ _) as [response|e]; [|discriminate].
  unfold bind at 1, update_agent at 1. unfold bind at 1, update_agent at 1.
  intros Hloop. apply IH in Hloop. revert Hloop.
  unfold count_call, trackCallCost, catalogue_requests in *.
  destruct (usage response); cbn [world apiCalls push_messages requests];
    rewrite List.filter_app, length_app, Hcat; cbn; lia.
Qed.

End catalogue_facts.

(** X27.  The ledger counts the requests of the loop itself and no others:
    when [runAgent] returns, [calls] is the number of requests it sent with
    the tool catalogue; the requests made inside [edit_html_document] and
    [generate_html_with_llm] are in the log but not in the ledger. *)
Theorem runAgent_counts_own_requests (E : Env) (fuel : nat) (messages : list ChatTurn)
    (w : World) (r : AgentResult) (a' : Agent) :
  runAgent E fuel messages (init_agent w) = (Return (Some r), a') ->
  length (catalogue_requests (world a'))
  = (length (catalogue_requests w) + calls (result_cost r))%nat.
Proof.
  unfold runAgent. rewrite (bind_return _ _ _ _ _ (conversationMessages_eq E messages w)).
  unfold bind at 1. rewrite in_world_run. unfold create_completion.
  cbn [fst snd world init_agent].
  destruct (chat_completions_create E _ _) as [response|e]; [|discriminate].
  unfold bind at 1, update_agent at 1. unfold bind at 1, update_agent at 1.
  unfold bind at 1.
  match goal with
  | |- context [agent_loop E fuel ?m ?a] =>
      destruct (agent_loop E fuel m a) as [[[final|]|e0] a1] eqn:Hloop
  end; try discriminate.
  intros [= <- <-]. apply catalogue_facts.agent_loop_catalogue in Hloop. revert Hloop.
  unfold count_call, trackCallCost, catalogue_requests.
  destruct (usage response);
    cbn [world apiCalls push_messages costInfo calls result_cost requests];
    rewrite List.filter_app, length_app; cbn; lia.
Qed.

Lemma runAgent_counts_own_requests_witness :
  exists r a',
    runAgent ledger_env 2 [mkTurn user "List the documents"] (init_agent empty_world)
    = (Return (Some r), a')
    /\ length (catalogue_requests (world a'))
       = (length (catalogue_requests empty_world) + calls (result_cost r))%nat.
Proof.
  eexists _, _. split; [vm_compute; reflexivity|].
  eapply (runAgent_counts_own_requests ledger_env 2 [mkTurn user "List the documents"]
            empty_world).
  vm_compute. reflexivity.
Defined.

(** * Properties of the HTTP handlers *)



(** X29.  Every exception of the agent becomes a 500 response carrying the
    exception's message, or the default text when the message is empty, and
    a run that returns becomes a 200 response with its message, cost and
    surfaced document; in particular a provider that fails on the first
    request yields a 500 with the provider's message and unchanged
    stores. *)
Theorem post_chat_outcome (E : Env) (fuel : nat) (req_body : Val) (key : string)
    (w : World) (items : list Val) (messages : list ChatTurn) :
  destructure_messages req_body = Return (VArr items) ->
  key <> "" ->
  turns_of items = Some messages ->
  (forall e a,
      runAgent E fuel messages (init_agent w) = (Throw e, a) ->
      post_chat E fuel req_body (Some key) w
      = (Responded (mkResponse 500
                      (error_body (if String.eqb (message e) ""
                                   then "An error occurred processing the chat message"
                                   else message e))),
         world a))
  /\ (forall result a,
         runAgent E fuel messages (init_agent w) = (Return (Some result), a) ->
         post_chat E fuel req_body (Some key) w
         = (Responded (mkResponse 200
                         (VObj [ ("message", VStr (result_message result));
                                 ("cost", cost_val (result_cost result));
                                 ("documentId",
                                  default VUndefined (result_documentId result)) ])),
            world a))
  /\ (forall e,
         chat_completions_create E (length (requests w))
           (agent_request (first_transcript E messages)) = Throw e ->
         exists w',
           post_chat E fuel req_body (Some key) w
           = (Responded (mkResponse 500
                           (error_body (if String.eqb (message e) ""
                                        then "An error occurred processing the chat message"
                                        else message e))),
              w')
           /\ same_stores w w').
Proof.
  intros Hm Hkey Hturns.
  assert (String.eqb key "" = false) as Hkey' by by apply String.eqb_neq.
  assert (forall o a,
             runAgent E fuel messages (init_agent w) = (o, a) ->
             post_chat E fuel req_body (Some key) w
             = match o with
               | Return (Some result) =>
                   (Responded (mkResponse 200
                                 (VObj [ ("message", VStr (result_message result));
                                         ("cost", cost_val (result_cost result));
                                         ("documentId",
                                          default VUndefined (result_documentId result)) ])),
                    world a)
               | Return None => (OutOfFuel, world a)
               | Throw e =>
                   (Responded (mkResponse 500
                                 (error_body (message_or e
                                    "An error occurred processing the chat message"))),
                    world a)
               end) as Hrun.
  { intros o a Ho. unfold post_chat. rewrite Hm, Hkey', Hturns, Ho.
    by destruct o as [[result|]|e]. }
  split; [|split].
  - intros e a Ho. by rewrite (Hrun _ _ Ho).
  - intros result a Ho. by rewrite (Hrun _ _ Ho).
  - intros e He.
    unfold runAgent in Hrun.
    rewrite (bind_return _ _ _ _ _ (conversationMessages_eq E messages w)) in Hrun.
    unfold bind at 1 in Hrun. rewrite in_world_run in Hrun.
    unfold create_completion in Hrun. cbn [fst snd world init_agent] in Hrun.
    rewrite He in Hrun. eexists. split; [by rewrite (Hrun _ _ eq_refl)|].
    by repeat split.
Qed.

Lemma post_chat_outcome_witness :
  let E := example_env (fun k => Z.of_nat k) unreachable apply_clean accepts_all in
  let req_body :=
    VObj [ ("messages", VArr [ VObj [ ("role", VStr "user"); ("content", VStr "hello") ] ]) ] in
  exists w',
    post_chat E 3 req_body (Some "sk-test") empty_world
    = (Responded (mkResponse 500 (error_body "Connection error.")), w')
    /\ same_stores empty_world w'.
Proof.
  intros E req_body.
  apply (proj2 (proj2 (post_chat_outcome E 3 req_body "sk-test" empty_world
                         [ VObj [ ("role", VStr "user"); ("content", VStr "hello") ] ]
                         [ mkTurn user "hello" ]
                         eq_refl ltac:(discriminate) eq_refl))
               (mkExn "APIConnectionError" "Connection error.")).
  reflexivity.
Defined.

(** X30.  [GET /api/document/:id] answers 404 exactly when the store does
    not resolve the identifier and 200 with the stored document otherwise,
    and never changes the world; right after [create] allocated an
    identifier no older document has, it answers 200 with the created
    document. *)
Theorem get_document_outcome (E : Env) (id : string) (w : World) :
  (exists r, get_document E id w = (r, w)
             /\ exists response, r = Return response
                /\ (status response = 404%nat
                    <-> fst (htmlDocumentStorage.get (VStr id) w) = Return None)
                /\ (forall doc,
                       fst (htmlDocumentStorage.get (VStr id) w) = Return (Some doc) ->
                       response = mkResponse 200 (VObj [ ("document", doc_val E doc) ])))
  /\ (forall content,
         ~ In (id_at E (ticks w)) (map doc_id (htmlDocuments w)) ->
         let created := htmlDocumentStorage.create E content w in
         forall doc, fst created = Return doc ->
           fst (get_document E (doc_id doc) (snd created))
           = Return (mkResponse 200 (VObj [ ("document", doc_val E doc) ]))
           /\ doc_content doc = content).
Proof.
  split.
  - unfold get_document, bind, htmlDocumentStorage.get, ret. cbn [fst].
    destruct (List.find _ _) as [doc|]; eexists; (split; [reflexivity|]);
      eexists; (split; [reflexivity|]); cbn [status]; split.
    + split; [discriminate|]. intros [=].
    + by intros ? [= <-].
    + done.
    + intros ? [=].
  - intros content Hfresh created doc. subst created.
    rewrite htmlDocumentStorage_facts.create_eq. cbn [fst snd]. intros [= <-].
    split; [|reflexivity].
    set (doc := mkDoc (id_at E (ticks w)) content (clock E (S (ticks w)))
                      (clock E (S (S (ticks w))))).
    assert (List.find (id_matches (VStr (id_at E (ticks w)))) (htmlDocuments w ++ [doc])
            = Some doc) as Hfind.
    { apply htmlDocumentStorage_facts.find_app_last; [|reflexivity].
      by apply htmlDocumentStorage_facts.find_none_not_in. }
    unfold get_document, bind, htmlDocumentStorage.get, ret.
    subst doc. cbn [htmlDocuments doc_id fst] in *. by rewrite Hfind.
Qed.

Lemma get_document_outcome_witness :
  let created := htmlDocumentStorage.create ticking_env (VStr "<p>a</p>") empty_world in
  let doc := mkDoc "doc-1700000000000" (VStr "<p>a</p>") 1700000000001 1700000000002 in
  fst (get_document ticking_env (doc_id doc) (snd created))
  = Return (mkResponse 200 (VObj [ ("document", doc_val ticking_env doc) ]))
  /\ doc_content doc = VStr "<p>a</p>".
Proof.
  intros created doc.
  apply (proj2 (get_document_outcome ticking_env "doc-0" empty_world) (VStr "<p>a</p>")).
  - simpl. tauto.
  - reflexivity.
Defined.
